(** * TaskFlow: authorization, task workflow, audit and fallback codec

    A shallow embedding of the work-assignment application's core logic:
    - [lib/constants.ts]: the task status transition table, role levels and
      the configured organization id;
    - [lib/utils/helpers.ts]: [hasMinimumRole];
    - [lib/firebase/firestore.ts]: the org-scoped document paths and the
      operations on users, teams, projects, tasks, comments, audit logs and
      reminder settings;
    - [lib/firebase/firestore-rest.ts]: the fallback wire codec
      ([toFirestoreValue], [toFirestoreFields], [parseFirestoreValue]);
    - [contexts/AuthContext.tsx]: [loadUserData] and the role hooks;
    - [app/(dashboard)/tasks/[id]/page.tsx]: [loadTask], [handleStatusChange]
      and the [canEdit] gate.

    Asynchronous functions are embedded in a state-and-exception monad over a
    [World] made of the document store, the clock, the id generator and the
    identity-provider session. *)

From Stdlib Require Import ZArith List Lia Bool Ascii String.
From Stdlib Require Import DecimalString DecimalZ DecimalPos DecimalN DecimalFacts.
From Stdlib Require QArith.QArith_base QArith.Qround.
From Stdlib Require Import Sorting.Sorted.
From stdpp Require Import base option list gmap strings.

Local Open Scope Z_scope.
Set Warnings "-register-all".

(** ** lib/constants.ts and types/index.ts: enumerations *)

Module Types.

(** [type UserRole = 'admin' | 'manager' | 'employee'] *)
Inductive UserRole := admin | manager | employee.

(** [type UserStatus = 'pending' | 'active' | 'disabled'] *)
Inductive UserStatus := pending | active | disabled.

(** [type TaskStatus = 'backlog' | 'in_progress' | 'blocked' | 'done'] *)
Inductive TaskStatus := backlog | in_progress | blocked | done.

(** [type TaskPriority = 'low' | 'medium' | 'high' | 'urgent'] *)
Inductive TaskPriority := low | medium | high | urgent.

(** [type ProjectStatus = 'active' | 'completed' | 'archived'] *)
Inductive ProjectStatus := project_active | project_completed | project_archived.

#[global] Instance UserRole_eq_dec : EqDecision UserRole.
Proof. solve_decision. Defined.
#[global] Instance UserStatus_eq_dec : EqDecision UserStatus.
Proof. solve_decision. Defined.
#[global] Instance TaskStatus_eq_dec : EqDecision TaskStatus.
Proof. solve_decision. Defined.
#[global] Instance TaskPriority_eq_dec : EqDecision TaskPriority.
Proof. solve_decision. Defined.
#[global] Instance ProjectStatus_eq_dec : EqDecision ProjectStatus.
Proof. solve_decision. Defined.

(** The string literal each [TaskStatus] member stands for at run time: the
    union type is erased and the transition table is keyed by these. *)
Definition TaskStatus_literal (s : TaskStatus) : string :=
  match s with
  | backlog => "backlog"
  | in_progress => "in_progress"
  | blocked => "blocked"
  | done => "done"
  end.

Definition UserRole_literal (r : UserRole) : string :=
  match r with
  | admin => "admin"
  | manager => "manager"
  | employee => "employee"
  end.

End Types.
Export Types.

Module Constants.

(** [APP_CONFIG.defaultOrgId] *)
Definition defaultOrgId : string := "default-org".

(** [TASK_STATUS_TRANSITIONS : Record<string, string[]>], in source order. *)
Definition TASK_STATUS_TRANSITIONS : list (string * list string) :=
  [ ("backlog", ["in_progress"; "done"]);
    ("in_progress", ["blocked"; "done"]);
    ("blocked", ["in_progress"]);
    ("done", []) ].

(** Property read [TASK_STATUS_TRANSITIONS[key]]; [None] is [undefined]. *)
Fixpoint record_get {A} (r : list (string * A)) (key : string) : option A :=
  match r with
  | [] => None
  | (k, v) :: r' => if String.eqb k key then Some v else record_get r' key
  end.

(** [Array.prototype.includes] on an array of strings. *)
Definition includes (l : list string) (x : string) : bool :=
  existsb (String.eqb x) l.

(** [USER_ROLES[role].level] *)
Definition USER_ROLES_level (r : UserRole) : Z :=
  match r with
  | admin => 3
  | manager => 2
  | employee => 1
  end.

End Constants.
Export Constants.

(** ** lib/utils/helpers.ts *)

Module Helpers.

(** [const roleHierarchy = { employee: 1, manager: 2, admin: 3 }] *)
Definition roleHierarchy (r : UserRole) : Z :=
  match r with
  | employee => 1
  | manager => 2
  | admin => 3
  end.

(** [hasMinimumRole(userRole, requiredRole)] *)
Definition hasMinimumRole (userRole requiredRole : UserRole) : bool :=
  roleHierarchy userRole >=? roleHierarchy requiredRole.

End Helpers.
Export Helpers.

(** ** Completions: normal return or a thrown [Error] *)

Module Completion.

(** The outcome of evaluating JavaScript code: a value, or a thrown
    [Error] identified by its [message]. *)
Inductive t (A : Type) :=
| Return (a : A)
| Throw (message : string).
Arguments Return {A} a.
Arguments Throw {A} message.

Definition bind {A B} (m : t A) (k : A -> t B) : t B :=
  match m with
  | Return a => k a
  | Throw e => Throw e
  end.

#[global] Instance Completion_ret : MRet t := fun A a => Return a.
#[global] Instance Completion_bind : MBind t := fun A B k m => bind m k.

(** [Array.prototype.map] with a callback that may throw. *)
Definition mapM {A B} (f : A -> t B) : list A -> t (list B) :=
  fix go (l : list A) : t (list B) :=
    match l with
    | [] => Return []
    | a :: l' =>
        match f a with
        | Return b =>
            match go l' with
            | Return bs => Return (b :: bs)
            | Throw e => Throw e
            end
        | Throw e => Throw e
        end
    end.

End Completion.
Import Completion.
Abbreviation Completion := Completion.t.

(** ** lib/firebase/firestore-rest.ts: the fallback wire codec *)

Module Js.

Abbreviation Q := QArith_base.Q.

(** JavaScript values as the codec distinguishes them.  A finite number is
    a rational (every finite double is one); [JNaN] is the not-a-number
    value [parseInt] yields on a string without digits.  A [Date] carries
    its time value in milliseconds since the epoch, [None] for an invalid
    date.  An object is the list of its own enumerable string-keyed
    properties in [Object.entries] order; its prototype is not part of it.
    Infinities, negative zero, bigints, symbols and functions are not
    represented. *)
Inductive JsValue :=
| JUndefined
| JNull
| JString (s : string)
| JNumber (q : Q)
| JNaN
| JBool (b : bool)
| JDate (time : option Z)
| JArray (items : list JsValue)
| JObject (entries : list (string * JsValue)).

(** Property assignment [obj[key] = value]: an existing own property keeps
    its position, a new one is appended. *)
Fixpoint obj_set {A} (obj : list (string * A)) (key : string) (value : A)
  : list (string * A) :=
  match obj with
  | [] => [(key, value)]
  | (k, v) :: obj' =>
      if String.eqb k key then (k, value) :: obj'
      else (k, v) :: obj_set obj' key value
  end.

(** [key in obj] *)
Definition has_key {A} (obj : list (string * A)) (key : string) : bool :=
  existsb (fun kv => String.eqb (fst kv) key) obj.

(** The key at which the assignment [obj[key] = value] reaches the
    prototype accessor of [Object.prototype]: it sets the prototype of
    [obj] when [value] is an object or [null], does nothing otherwise, and
    in neither case gives [obj] a property. *)
Definition protoKey : string := "__proto__".

(** The assignment [obj[key] = value] on an object made by the literal
    [{}], as to its own properties. *)
Definition assign {A} (obj : list (string * A)) (key : string) (value : A)
  : list (string * A) :=
  if String.eqb key protoKey then obj else obj_set obj key value.

(** The test [key !== 'id'] on an entry. *)
Definition notId {B} (kv : string * B) : bool :=
  negb (String.eqb (fst kv) "id").

(** A string of ASCII characters only.  For these one character is one
    UTF-16 code unit, so that [String.length] is the [length] property, and
    the case conversions are those of the letters A to Z. *)
Definition isAscii (s : string) : bool :=
  forallb (fun c => (nat_of_ascii c <? 128)%nat) (list_ascii_of_string s).

(** [Math.floor] on a finite number. *)
Definition Math_floor (q : Q) : Z := Qround.Qfloor q.

(** The sign and decimal digits of an integer. *)
Definition decimalDigits (n : Z) : string :=
  NilZero.string_of_int (Z.to_int n).

(** Exponent notation of a positive integer: first digit, the further
    digits up to the last non-zero one after a point, and the decimal
    exponent, as in [1e+21] and [1.5e+21]. *)
Definition exponentNotation (m : positive) : string :=
  let digits := Pos.to_uint m in
  let exponent := Z.of_nat (Decimal.nb_digits digits) - 1 in
  match NilEmpty.string_of_uint (fst (Decimal.nztail digits)) with
  | String c EmptyString => String c ("e+" +:+ decimalDigits exponent)
  | String c rest => String c ("." +:+ rest +:+ "e+" +:+ decimalDigits exponent)
  | EmptyString => EmptyString
  end.

(** The Number value for a mathematical integer: the nearest double, a
    tie going to the even significand.  Every integer below 2^53 in
    magnitude is a double; from there on the doubles are the 53-bit
    integers times a power of two.  (From 2^1024 - 2^970 on the Number
    value is an infinity, which [JsValue] does not have.) *)
Definition toNumber (z : Z) : Z :=
  let a := Z.abs z in
  if a <? 2 ^ 53 then z
  else
    let ulp := 2 ^ (Z.log2 a - 52) in
    let q := a / ulp in
    let r := a mod ulp in
    let significand :=
      if 2 * r <? ulp then q
      else if ulp <? 2 * r then q + 1
      else if Z.even q then q else q + 1 in
    Z.sgn z * (significand * ulp).

(** An integer that is a double. *)
Definition isDouble (z : Z) : bool := toNumber z =? z.

(** The decimals with the leading digits of [v] down to the place [scale],
    and with these digits plus one: [Some] of the one that reads back as
    the double [v]; if both do, of the closer to [v], and of the one with
    the even last digit when they are as close. *)
Definition shortCandidate (v scale : Z) : option Z :=
  let lo := v / scale * scale in
  let hi := lo + scale in
  let okLo := (0 <? lo) && (toNumber lo =? v) in
  let okHi := toNumber hi =? v in
  if okLo && okHi then
    if v - lo <? hi - v then Some lo
    else if hi - v <? v - lo then Some hi
    else if Z.even (lo / scale) then Some lo else Some hi
  else if okLo then Some lo
  else if okHi then Some hi
  else None.

Fixpoint shortestFrom (places : nat) (v scale : Z) : Z :=
  match places with
  | O => v
  | S places' =>
      match shortCandidate v scale with
      | Some c => c
      | None => shortestFrom places' v (scale / 10)
      end
  end.

(** The integer [Number::toString] prints for the positive integral double
    [m]: of the decimals that read back as [m], one with the fewest
    significant digits, and among these the closest to [m], which is the
    choice the standard recommends where it leaves the last digit open. *)
Definition shortestDecimal (m : positive) : Z :=
  let places := Decimal.nb_digits (Pos.to_uint m) in
  shortestFrom places (Zpos m) (10 ^ (Z.of_nat places - 1)).

(** [String(n)] for an integral double [n]: the sign, then the shortest
    decimal that identifies the double, written with all its digits when
    it is below 10^21 and in exponent notation from there on. *)
Definition Number_toString (n : Z) : string :=
  let render (c : Z) :=
    if c <? 10 ^ 21 then decimalDigits c else exponentNotation (Z.to_pos c) in
  match n with
  | Z0 => "0"
  | Zpos m => render (shortestDecimal m)
  | Zneg m => String "-" (render (shortestDecimal m))
  end.

(** The ASCII members of [StrWhiteSpaceChar]: TAB, LF, VT, FF, CR, SP. *)
Definition isStrWhiteSpaceChar (c : ascii) : bool :=
  let n := nat_of_ascii c in
  ((9 <=? n) && (n <=? 13) || (n =? 32))%nat.

Fixpoint trimStart (s : string) : string :=
  match s with
  | String c s' => if isStrWhiteSpaceChar c then trimStart s' else s
  | EmptyString => s
  end.

Definition digitValue (c : ascii) : option Z :=
  let n := nat_of_ascii c in
  if ((48 <=? n) && (n <=? 57))%nat then Some (Z.of_nat n - 48) else None.

(** The mathematical value of the longest prefix of decimal digits. *)
Fixpoint parseDigits (s : string) (acc : Z) : Z :=
  match s with
  | String c s' =>
      match digitValue c with
      | Some d => parseDigits s' (10 * acc + d)
      | None => acc
      end
  | EmptyString => acc
  end.

(** [parseInt(s, 10)]; [None] is [NaN].  Leading white space is skipped,
    an optional sign is read, then the longest digit prefix; no digit at
    all gives [NaN].  The result is the Number value for the integer read,
    correctly rounded. *)
Definition parseInt (s : string) : option Z :=
  let s1 := trimStart s in
  let '(sign, s2) :=
    match s1 with
    | String "-" r => (-1, r)
    | String "+" r => (1, r)
    | _ => (1, s1)
    end in
  match s2 with
  | String c _ =>
      match digitValue c with
      | Some _ => Some (toNumber (sign * parseDigits s2 0))
      | None => None
      end
  | EmptyString => None
  end.

End Js.
Import Js.

Module Wire.

(** [interface FirestoreValue]: every tag is an optional property, so a
    value may carry none or several of them.  [nullValue] present is
    [Some ()].  [arrayValue?: { values?: FirestoreValue[] }] and
    [mapValue?: { fields: Record<string, FirestoreValue> }]. *)
Inductive FirestoreValue := mkFirestoreValue {
  stringValue : option string;
  integerValue : option string;
  booleanValue : option bool;
  mapValue : option (list (string * FirestoreValue));
  arrayValue : option (option (list FirestoreValue));
  timestampValue : option string;
  nullValue : option unit
}.

(** The object literal [{}] of type [FirestoreValue]. *)
Definition noTag : FirestoreValue :=
  mkFirestoreValue None None None None None None None.

Definition ofString (s : string) : FirestoreValue :=
  mkFirestoreValue (Some s) None None None None None None.
Definition ofInteger (s : string) : FirestoreValue :=
  mkFirestoreValue None (Some s) None None None None None.
Definition ofBoolean (b : bool) : FirestoreValue :=
  mkFirestoreValue None None (Some b) None None None None.
Definition ofMap (fields : list (string * FirestoreValue)) : FirestoreValue :=
  mkFirestoreValue None None None (Some fields) None None None.
Definition ofArray (values : list FirestoreValue) : FirestoreValue :=
  mkFirestoreValue None None None None (Some (Some values)) None None.
Definition ofTimestamp (s : string) : FirestoreValue :=
  mkFirestoreValue None None None None None (Some s) None.
Definition ofNull : FirestoreValue :=
  mkFirestoreValue None None None None None None (Some ()).

Section Codec.

(** The two [Date] primitives of the run time the codec calls:
    [Date.prototype.toISOString] on a valid time value, and the time
    value of [new Date(s)] ([None] for an invalid date). *)
Variable Date_toISOString : Z -> string.
Variable Date_parse : string -> option Z.

(** [parseFirestoreValue(value)]: the tags are tested in this order. *)
Fixpoint parseFirestoreValue (value : FirestoreValue) : JsValue :=
  match stringValue value with
  | Some s => JString s
  | None =>
  match integerValue value with
  | Some s =>
      match parseInt s with
      | Some n => JNumber (QArith_base.inject_Z n)
      | None => JNaN
      end
  | None =>
  match booleanValue value with
  | Some b => JBool b
  | None =>
  match nullValue value with
  | Some _ => JNull
  | None =>
  match timestampValue value with
  | Some s => JDate (Date_parse s)
  | None =>
  match arrayValue value with
  | Some (Some values) => JArray (map parseFirestoreValue values)
  | Some None => JArray []
  | None =>
  match mapValue value with
  | Some fields =>
      JObject
        ((fix loop (entries : list (string * FirestoreValue))
              (result : list (string * JsValue)) :=
            match entries with
            | [] => result
            | (key, val) :: entries' =>
                loop entries' (assign result key (parseFirestoreValue val))
            end) fields [])
  | None => JNull
  end end end end end end end.

(** The loop of [toFirestoreFields] over [Object.entries(obj)], given the
    converter for values. *)
Definition fieldsLoop (convert : JsValue -> Completion FirestoreValue)
  : list (string * JsValue) -> list (string * FirestoreValue) ->
    Completion (list (string * FirestoreValue)) :=
  fix loop entries fields :=
    match entries with
    | [] => Return fields
    | (key, value) :: entries' =>
        if negb (String.eqb key "id") then
          match convert value with
          | Return fv => loop entries' (assign fields key fv)
          | Throw e => Throw e
          end
        else loop entries' fields
    end.

(** [toFirestoreValue(value)].  [toISOString] throws a [RangeError] on an
    invalid date.  The closing [String(value)] branch is for bigints,
    symbols and functions, which [JsValue] does not have. *)
Fixpoint toFirestoreValue (value : JsValue) : Completion FirestoreValue :=
  match value with
  | JNull | JUndefined => Return ofNull
  | JString s => Return (ofString s)
  | JNumber q => Return (ofInteger (Number_toString (Math_floor q)))
  | JNaN => Return (ofInteger "NaN")
  | JBool b => Return (ofBoolean b)
  | JDate (Some t) => Return (ofTimestamp (Date_toISOString t))
  | JDate None => Throw "Invalid time value"
  | JArray items =>
      match mapM toFirestoreValue items with
      | Return values => Return (ofArray values)
      | Throw e => Throw e
      end
  | JObject entries =>
      match fieldsLoop toFirestoreValue entries [] with
      | Return fields => Return (ofMap fields)
      | Throw e => Throw e
      end
  end.

(** [toFirestoreFields(obj)] *)
Definition toFirestoreFields (obj : list (string * JsValue))
  : Completion (list (string * FirestoreValue)) :=
  fieldsLoop toFirestoreValue obj [].

(** The wire value [toFirestoreValue] returns, [{}] if it throws. *)
Definition encoded (x : JsValue) : FirestoreValue :=
  match toFirestoreValue x with
  | Return w => w
  | Throw _ => noTag
  end.

(** [parseFirestoreDocument]'s loop over [Object.entries(doc.fields)]. *)
Fixpoint parseFields (entries : list (string * FirestoreValue))
    (result : list (string * JsValue)) : list (string * JsValue) :=
  match entries with
  | [] => result
  | (key, val) :: entries' =>
      parseFields entries' (assign result key (parseFirestoreValue val))
  end.

End Codec.

End Wire.
Import Wire.

(** ** The run time's [Date] primitives on the ISO 8601 format *)

Module Iso8601.

Definition msPerDay : Z := 86400000.

(** The character of a decimal digit. *)
Definition digitChar (d : Z) : ascii := ascii_of_nat (48 + Z.to_nat d).

(** [v] written with exactly [width] decimal digits. *)
Fixpoint pad (width : nat) (v : Z) : string :=
  match width with
  | O => EmptyString
  | S w => String (digitChar (v / 10 ^ Z.of_nat w)) (pad w (v mod 10 ^ Z.of_nat w))
  end.

(** Day of the 400-year era to year of the era, month and day of month
    (proleptic Gregorian calendar, eras starting on a 1st of March). *)
Definition civilOfEraDay (doe : Z) : Z * Z * Z :=
  let yoe := (doe - doe / 1460 + doe / 36524 - doe / 146096) / 365 in
  let doy := doe - (365 * yoe + yoe / 4 - yoe / 100) in
  let mp := (5 * doy + 2) / 153 in
  let d := doy - (153 * mp + 2) / 5 + 1 in
  let m := if mp <? 10 then mp + 3 else mp - 9 in
  (yoe, m, d).

Definition eraDayOfCivil (yoe m d : Z) : Z :=
  let doy := (153 * (if 2 <? m then m - 3 else m + 9) + 2) / 5 + d - 1 in
  yoe * 365 + yoe / 4 - yoe / 100 + doy.

(** The conversion of an era day gives a date of the calendar and is undone
    by [eraDayOfCivil]. *)
Definition eraDayOk (doe : Z) : bool :=
  let '(yoe, m, d) := civilOfEraDay doe in
  (0 <=? yoe) && (yoe <? 400) && (1 <=? m) && (m <=? 12) && (1 <=? d) && (d <=? 31)
  && (eraDayOfCivil yoe m d =? doe).

(** [check] holds on every integer from [lo] up to [lo + len - 1], by
    halving the range at most [depth] times. *)
Fixpoint rangeAll (depth : nat) (check : Z -> bool) (lo len : Z) : bool :=
  if len <=? 0 then true
  else if len =? 1 then check lo
  else match depth with
       | O => false
       | S depth' =>
           rangeAll depth' check lo (len / 2)
           && rangeAll depth' check (lo + len / 2) (len - len / 2)
       end.

(** Days since 1970-01-01 to year, month, day. *)
Definition civilFromDays (z : Z) : Z * Z * Z :=
  let z' := z + 719468 in
  let era := z' / 146097 in
  let '(yoe, m, d) := civilOfEraDay (z' mod 146097) in
  (yoe + era * 400 + (if m <=? 2 then 1 else 0), m, d).

(** Year, month, day to days since 1970-01-01. *)
Definition daysFromCivil (y m d : Z) : Z :=
  let y' := if m <=? 2 then y - 1 else y in
  (y' / 400) * 146097 + eraDayOfCivil (y' mod 400) m d - 719468.

(** The year of the ISO format: four digits from 0 to 9999, otherwise a sign
    and six digits. *)
Definition yearString (y : Z) : string :=
  if (0 <=? y) && (y <=? 9999) then pad 4 y
  else String (if y <? 0 then "-"%char else "+"%char) (pad 6 (Z.abs y)).

(** [Date.prototype.toISOString] on a valid time value:
    [YYYY-MM-DDTHH:mm:ss.sssZ]. *)
Definition toISOString (t : Z) : string :=
  let '(y, m, d) := civilFromDays (t / msPerDay) in
  let ms := t mod msPerDay in
  yearString y +:+ String "-" (pad 2 m +:+ String "-" (pad 2 d +:+ String "T"
    (pad 2 (ms / 3600000) +:+ String ":" (pad 2 (ms / 60000 mod 60) +:+ String ":"
      (pad 2 (ms / 1000 mod 60) +:+ String "." (pad 3 (ms mod 1000) +:+ "Z")))))).

(** Read exactly [width] decimal digits. *)
Fixpoint readDigits (width : nat) (s : string) (acc : Z) : option (Z * string) :=
  match width with
  | O => Some (acc, s)
  | S w =>
      match s with
      | String c s' =>
          match digitValue c with
          | Some d => readDigits w s' (10 * acc + d)
          | None => None
          end
      | EmptyString => None
      end
  end.

Definition expect (c : ascii) (s : string) : option string :=
  match s with
  | String c' s' => if Ascii.eqb c' c then Some s' else None
  | EmptyString => None
  end.

Definition readYear (s : string) : option (Z * string) :=
  match s with
  | String c r =>
      if Ascii.eqb c "+" then readDigits 6 r 0
      else if Ascii.eqb c "-"
      then '(y, rest) ← readDigits 6 r 0; Some (- y, rest)
      else readDigits 4 s 0
  | EmptyString => None
  end.

(** The time value of [new Date(s)] for a string in the complete form that
    [toISOString] prints; [None] is an invalid date.  The shorter forms and
    the time-zone offsets the run time also reads are not. *)
Definition parse (s : string) : option Z :=
  '(y, s) ← readYear s;
  s ← expect "-" s;
  '(m, s) ← readDigits 2 s 0;
  s ← expect "-" s;
  '(d, s) ← readDigits 2 s 0;
  s ← expect "T" s;
  '(hh, s) ← readDigits 2 s 0;
  s ← expect ":" s;
  '(mm, s) ← readDigits 2 s 0;
  s ← expect ":" s;
  '(ss, s) ← readDigits 2 s 0;
  s ← expect "." s;
  '(ms, s) ← readDigits 3 s 0;
  s ← expect "Z" s;
  match s with
  | EmptyString =>
      if (1 <=? m) && (m <=? 12) && (1 <=? d) && (d <=? 31)
         && (hh <=? 23) && (mm <=? 59) && (ss <=? 59)
      then Some (daysFromCivil y m d * msPerDay
                 + hh * 3600000 + mm * 60000 + ss * 1000 + ms)
      else None
  | _ => None
  end.

End Iso8601.

(** ** The values the codec round trip is stated for *)

Module CodecDomain.

(** [Number.MAX_SAFE_INTEGER] = 2^53 - 1: up to it every integer is a
    double and [String] prints its own decimal digits. *)
Definition MAX_SAFE_INTEGER : Z := 9007199254740991.

(** The largest magnitude of a valid [Date] time value (8.64e15 ms). *)
Definition MAX_TIME_VALUE : Z := 8640000000000000.

Definition validTime (t : Z) : bool := Z.abs t <=? MAX_TIME_VALUE.

(** A JavaScript object has each property name once. *)
Fixpoint distinctKeys {A} (obj : list (string * A)) : bool :=
  match obj with
  | [] => true
  | (k, _) :: obj' => negb (has_key obj' k) && distinctKeys obj'
  end.

(** Values built from integral numbers below 10^21 in magnitude, strings,
    booleans, null, valid timestamps, and nested arrays and maps of these,
    no map having a field named [__proto__]. *)
Fixpoint wireSafe (v : JsValue) : bool :=
  match v with
  | JNull | JString _ | JBool _ => true
  | JUndefined | JNaN | JDate None => false
  | JNumber q =>
      Pos.eqb (QArith_base.Qden q) 1
      && isDouble (QArith_base.Qnum q)
      && (Z.abs (QArith_base.Qnum q) <? 10 ^ 21)
  | JDate (Some t) => validTime t
  | JArray items => forallb wireSafe items
  | JObject entries =>
      distinctKeys entries
      && negb (has_key entries protoKey)
      && forallb (fun kv => wireSafe (snd kv)) entries
  end.

(** No map, at any depth, has a field named [id]. *)
Fixpoint noIdField (v : JsValue) : bool :=
  match v with
  | JArray items => forallb noIdField items
  | JObject entries =>
      negb (has_key entries "id")
      && forallb (fun kv => noIdField (snd kv)) entries
  | _ => true
  end.

(** The value with every field named [id] removed, at every depth. *)
Fixpoint withoutId (v : JsValue) : JsValue :=
  match v with
  | JArray items => JArray (map withoutId items)
  | JObject entries =>
      JObject
        (List.filter (fun kv => negb (String.eqb (fst kv) "id"))
           (map (fun kv => (fst kv, withoutId (snd kv))) entries))
  | _ => v
  end.

(** Some map of the wire value, at any depth, has a field named [id]. *)
Fixpoint wireHasId (w : FirestoreValue) : bool :=
  match mapValue w with
  | Some fields =>
      has_key fields "id" || existsb (fun kv => wireHasId (snd kv)) fields
  | None => false
  end
  ||
  match arrayValue w with
  | Some (Some values) => existsb wireHasId values
  | _ => false
  end.

End CodecDomain.
Import CodecDomain.

(** ** types/index.ts: entities *)

(** A Firestore [Timestamp] and a JavaScript [Date] are both taken as a count
    of milliseconds since the epoch, so [Timestamp.fromDate] is the
    identity. *)
Abbreviation Timestamp := Z (only parsing).
Definition Timestamp_fromDate (d : Z) : Timestamp := d.

(** A field of an [updateDoc] patch that holds an array: a plain array, or
    the [arrayUnion(...)] sentinel. *)
Inductive ArrayField :=
| PlainArray (elements : list string)
| ArrayUnion (elements : list string).

(** The store's [arrayUnion]: each element not yet present is appended. *)
Fixpoint arrayUnion (current elements : list string) : list string :=
  match elements with
  | [] => current
  | e :: elements' =>
      arrayUnion (if includes current e then current else current ++ [e]) elements'
  end.

Definition applyArrayField (current : list string) (f : ArrayField) : list string :=
  match f with
  | PlainArray l => l
  | ArrayUnion l => arrayUnion current l
  end.

(** [patch ?? current]: an optional field of a patch overrides the stored
    one when present. *)
Definition override {A} (patch : option A) (current : A) : A :=
  match patch with
  | Some a => a
  | None => current
  end.

(** The same for a stored field that is itself optional. *)
Definition overrideOpt {A} (patch : option A) (current : option A) : option A :=
  match patch with
  | Some a => Some a
  | None => current
  end.

Module ReminderPreferences.
Record t := mk {
  dailySummary_enabled : bool;
  dailySummary_time : string;
  beforeDue_hours36 : bool;
  beforeDue_hours1 : bool;
  emailEnabled : bool;
  inAppEnabled : bool
}.
End ReminderPreferences.

Module User.

(** [Omit<User, 'id'>]: what a user document stores. *)
Record doc := mkDoc {
  orgId : string;
  email : string;
  displayName : string;
  role : UserRole;
  status : UserStatus;
  managedTeamIds : list string;
  managedProjectIds : list string;
  teamIds : list string;
  projectIds : list string;
  avatarUrl : option string;
  reminderPreferences : option ReminderPreferences.t;
  createdAt : Timestamp;
  updatedAt : Timestamp;
  createdBy : string;
  lastLoginAt : option Timestamp
}.

(** [interface User]: [{ id: docSnap.id, ...docSnap.data() }]. *)
Record t := mk { id : string; data : doc }.

(** The data of an [updateDoc] on a user document ([Partial<User>], or the
    [arrayUnion] patches of the creation batches).  The fields no caller
    ever patches ([id], [orgId], [createdAt], [createdBy]) are left out;
    [p_updatedAt] is always stamped by the writer. *)
Record patch := mkPatch {
  p_email : option string;
  p_displayName : option string;
  p_role : option UserRole;
  p_status : option UserStatus;
  p_managedTeamIds : option ArrayField;
  p_managedProjectIds : option ArrayField;
  p_teamIds : option ArrayField;
  p_projectIds : option ArrayField;
  p_avatarUrl : option string;
  p_reminderPreferences : option ReminderPreferences.t;
  p_lastLoginAt : option Timestamp;
  p_updatedAt : option Timestamp
}.

(** The empty object literal [{}] as a patch. *)
Definition noPatch : patch :=
  mkPatch None None None None None None None None None None None None.

(** What [updateDoc] makes of a stored document: patched fields are
    replaced, the others kept. *)
Definition applyPatch (p : patch) (d : doc) : doc :=
  {| orgId := orgId d;
     email := override (p_email p) (email d);
     displayName := override (p_displayName p) (displayName d);
     role := override (p_role p) (role d);
     status := override (p_status p) (status d);
     managedTeamIds :=
       match p_managedTeamIds p with
       | Some f => applyArrayField (managedTeamIds d) f
       | None => managedTeamIds d
       end;
     managedProjectIds :=
       match p_managedProjectIds p with
       | Some f => applyArrayField (managedProjectIds d) f
       | None => managedProjectIds d
       end;
     teamIds :=
       match p_teamIds p with
       | Some f => applyArrayField (teamIds d) f
       | None => teamIds d
       end;
     projectIds :=
       match p_projectIds p with
       | Some f => applyArrayField (projectIds d) f
       | None => projectIds d
       end;
     avatarUrl := overrideOpt (p_avatarUrl p) (avatarUrl d);
     reminderPreferences :=
       overrideOpt (p_reminderPreferences p) (reminderPreferences d);
     createdAt := createdAt d;
     updatedAt := override (p_updatedAt p) (updatedAt d);
     createdBy := createdBy d;
     lastLoginAt := overrideOpt (p_lastLoginAt p) (lastLoginAt d) |}.

(** [userData.status = 'active'] on the in-memory object. *)
Definition setStatus (s : UserStatus) (u : t) : t :=
  let d := data u in
  mk (id u)
     (mkDoc (orgId d) (email d) (displayName d) (role d) s
        (managedTeamIds d) (managedProjectIds d) (teamIds d) (projectIds d)
        (avatarUrl d) (reminderPreferences d) (createdAt d) (updatedAt d)
        (createdBy d) (lastLoginAt d)).

End User.

Module Team.

Record doc := mkDoc {
  orgId : string;
  name : string;
  description : option string;
  managerIds : list string;
  memberIds : list string;
  createdAt : Timestamp;
  updatedAt : Timestamp;
  createdBy : string
}.

Record t := mk { id : string; data : doc }.

(** [Partial<CreateTeamData>]: the data of [updateTeam]. *)
Record partial := mkPartial {
  p_name : option string;
  p_description : option string;
  p_managerIds : option (list string);
  p_memberIds : option (list string)
}.

(** What [updateDoc] makes of a stored team, for [{ ...data, updatedAt }]. *)
Definition applyPatch (p : partial * Timestamp) (d : doc) : doc :=
  {| orgId := orgId d;
     name := override (p_name (fst p)) (name d);
     description := overrideOpt (p_description (fst p)) (description d);
     managerIds := override (p_managerIds (fst p)) (managerIds d);
     memberIds := override (p_memberIds (fst p)) (memberIds d);
     createdAt := createdAt d;
     updatedAt := snd p;
     createdBy := createdBy d |}.

End Team.

Module Project.

Record doc := mkDoc {
  orgId : string;
  name : string;
  description : option string;
  teamId : option string;
  managerIds : list string;
  memberIds : list string;
  status : ProjectStatus;
  startDate : option Timestamp;
  endDate : option Timestamp;
  createdAt : Timestamp;
  updatedAt : Timestamp;
  createdBy : string
}.

Record t := mk { id : string; data : doc }.

(** [Partial<CreateProjectData>]: the data of [updateProject]. *)
Record partial := mkPartial {
  p_name : option string;
  p_description : option string;
  p_teamId : option string;
  p_managerIds : option (list string);
  p_memberIds : option (list string);
  p_status : option ProjectStatus;
  p_startDate : option Z;
  p_endDate : option Z
}.

(** What [updateDoc] makes of a stored project, for [{ ...data, updatedAt }]
    with the dates of the data turned into timestamps. *)
Definition applyPatch (p : partial * Timestamp) (d : doc) : doc :=
  {| orgId := orgId d;
     name := override (p_name (fst p)) (name d);
     description := overrideOpt (p_description (fst p)) (description d);
     teamId := overrideOpt (p_teamId (fst p)) (teamId d);
     managerIds := override (p_managerIds (fst p)) (managerIds d);
     memberIds := override (p_memberIds (fst p)) (memberIds d);
     status := override (p_status (fst p)) (status d);
     startDate :=
       overrideOpt (option_map Timestamp_fromDate (p_startDate (fst p))) (startDate d);
     endDate :=
       overrideOpt (option_map Timestamp_fromDate (p_endDate (fst p))) (endDate d);
     createdAt := createdAt d;
     updatedAt := snd p;
     createdBy := createdBy d |}.

End Project.

Module ChecklistItem.
Record t := mk {
  id : string;
  text : string;
  completed : bool;
  completedAt : option Timestamp;
  completedBy : option string
}.
End ChecklistItem.

Module AttachmentMeta.
Record t := mk {
  id : string;
  fileName : string;
  fileSize : Z;
  mimeType : string;
  storagePath : string;
  uploadedBy : string;
  uploadedAt : Timestamp
}.
End AttachmentMeta.

Module Task.

(** [Omit<Task, 'id'>].  [status] is declared [TaskStatus]; it is kept as
    the string it is at run time, because [updateTaskStatus] writes a plain
    [string] and [TASK_STATUS_TRANSITIONS] is keyed by strings. *)
Record doc := mkDoc {
  orgId : string;
  title : string;
  description : option string;
  projectId : option string;
  teamId : option string;
  assigneeIds : list string;
  status : string;
  priority : TaskPriority;
  dueDate : option Timestamp;
  tags : list string;
  parentTaskId : option string;
  checklistItems : option (list ChecklistItem.t);
  attachments : option (list AttachmentMeta.t);
  createdBy : string;
  createdAt : Timestamp;
  updatedAt : Timestamp;
  completedAt : option Timestamp
}.

Record t := mk { id : string; data : doc }.

(** The [updateData] object handed to [updateDoc] on a task document.
    [u_dueDate]: [None] leaves the field out, [Some None] is an explicit
    [null], [Some (Some ts)] a timestamp. *)
Record updateData := mkUpdateData {
  u_title : option string;
  u_description : option string;
  u_assigneeIds : option (list string);
  u_status : option string;
  u_priority : option TaskPriority;
  u_dueDate : option (option Timestamp);
  u_tags : option (list string);
  u_checklistItems : option (list ChecklistItem.t);
  u_attachments : option (list AttachmentMeta.t);
  u_updatedAt : option Timestamp;
  u_completedAt : option Timestamp
}.

(** What [updateDoc] makes of a stored task. *)
Definition applyUpdate (u : updateData) (d : doc) : doc :=
  {| orgId := orgId d;
     title := override (u_title u) (title d);
     description := overrideOpt (u_description u) (description d);
     projectId := projectId d;
     teamId := teamId d;
     assigneeIds := override (u_assigneeIds u) (assigneeIds d);
     status := override (u_status u) (status d);
     priority := override (u_priority u) (priority d);
     dueDate := override (u_dueDate u) (dueDate d);
     tags := override (u_tags u) (tags d);
     parentTaskId := parentTaskId d;
     checklistItems := overrideOpt (u_checklistItems u) (checklistItems d);
     attachments := overrideOpt (u_attachments u) (attachments d);
     createdBy := createdBy d;
     createdAt := createdAt d;
     updatedAt := override (u_updatedAt u) (updatedAt d);
     completedAt := overrideOpt (u_completedAt u) (completedAt d) |}.

End Task.

Module Comment.

Record doc := mkDoc {
  orgId : string;
  taskId : string;
  content : string;
  authorId : string;
  mentions : option (list string);
  createdAt : Timestamp;
  updatedAt : Timestamp
}.

Record t := mk { id : string; data : doc }.

End Comment.

Module AuditLog.

(** [type AuditActionType] *)
Inductive AuditActionType :=
| user_created | user_disabled | user_role_changed
| team_created | team_updated | team_deleted
| project_created | project_updated | project_deleted
| task_created | task_updated | task_deleted.

(** [type AuditEntityType] *)
Inductive AuditEntityType := entity_user | entity_team | entity_project | entity_task.

(** [changes?: Record<string, { before: unknown; after: unknown }>] *)
Abbreviation Changes := (list (string * (JsValue * JsValue))) (only parsing).

(** [Omit<AuditLog, 'id' | 'orgId' | 'createdAt'>]: the argument of
    [createAuditLog]. *)
Record input := mkInput {
  actorId : string;
  actorEmail : string;
  actionType : AuditActionType;
  entityType : AuditEntityType;
  entityId : string;
  entityName : option string;
  changes : option Changes;
  ipAddress : option string;
  userAgent : option string
}.

(** The stored document: [{ ...data, orgId, createdAt }]. *)
Record doc := mkDoc {
  data : input;
  orgId : string;
  createdAt : Timestamp
}.

(** [interface AuditLog]: [{ id: doc.id, ...doc.data() }]. *)
Record t := mk { id : string; entry : doc }.

End AuditLog.

Module ReminderSettings.

(** [interface ReminderSettings] as a document of the store.  The only
    writer is a merging [setDoc], which stamps [orgId] and [updatedAt] and
    leaves out what its data leaves out, so every other field may be
    missing.  [dailySummary] is [{ enabled, time }], [beforeDue] is
    [{ hours36, hours1 }]. *)
Record doc := mkDoc {
  orgId : string;
  scope : option string;
  userId : option string;
  dailySummary : option (bool * string);
  beforeDue : option (bool * bool);
  emailEnabled : option bool;
  inAppEnabled : option bool;
  createdAt : option Timestamp;
  updatedAt : Timestamp
}.

Record t := mk { id : string; data : doc }.

(** [Partial<ReminderSettings>]: the data of [updateReminderSettings].
    [orgId] and [updatedAt] are overwritten by the writer, and [id] is
    passed by no caller; they are left out. *)
Record partial := mkPartial {
  p_scope : option string;
  p_userId : option string;
  p_dailySummary : option (bool * string);
  p_beforeDue : option (bool * bool);
  p_emailEnabled : option bool;
  p_inAppEnabled : option bool;
  p_createdAt : option Timestamp
}.

(** What [setDoc(ref, { ...data, orgId, updatedAt }, { merge: true })] makes
    of the document at [ref], which may not exist yet. *)
Definition merged (p : partial) (org : string) (now : Timestamp)
    (current : option doc) : doc :=
  {| orgId := org;
     scope := overrideOpt (p_scope p) (current ≫= scope);
     userId := overrideOpt (p_userId p) (current ≫= userId);
     dailySummary := overrideOpt (p_dailySummary p) (current ≫= dailySummary);
     beforeDue := overrideOpt (p_beforeDue p) (current ≫= beforeDue);
     emailEnabled := overrideOpt (p_emailEnabled p) (current ≫= emailEnabled);
     inAppEnabled := overrideOpt (p_inAppEnabled p) (current ≫= inAppEnabled);
     createdAt := overrideOpt (p_createdAt p) (current ≫= createdAt);
     updatedAt := now |}.

End ReminderSettings.

(** Form types *)

Module CreateUserData.
Record t := mk {
  email : string;
  displayName : string;
  role : UserRole;
  teamIds : option (list string);
  projectIds : option (list string)
}.
End CreateUserData.

Module CreateTeamData.
Record t := mk {
  name : string;
  description : option string;
  managerIds : list string;
  memberIds : list string
}.
End CreateTeamData.

Module CreateProjectData.
Record t := mk {
  name : string;
  description : option string;
  teamId : option string;
  managerIds : list string;
  memberIds : list string;
  status : option ProjectStatus;
  startDate : option Z;
  endDate : option Z
}.
End CreateProjectData.

Module CreateTaskData.
(** [interface CreateTaskData]: there is no [status] and no [completedAt]. *)
Record t := mk {
  title : string;
  description : option string;
  projectId : option string;
  teamId : option string;
  assigneeIds : list string;
  priority : TaskPriority;
  dueDate : option Z;
  tags : option (list string)
}.
End CreateTaskData.

Module UpdateTaskData.
(** [interface UpdateTaskData]; [dueDate?: Date | null]. *)
Record t := mk {
  title : option string;
  description : option string;
  assigneeIds : option (list string);
  status : option TaskStatus;
  priority : option TaskPriority;
  dueDate : option (option Z);
  tags : option (list string);
  checklistItems : option (list ChecklistItem.t);
  attachments : option (list AttachmentMeta.t)
}.

Definition empty : t := mk None None None None None None None None None.
End UpdateTaskData.

(** ** Component state: the auth context, the task detail page, toasts *)

Module Ui.

(** The identity provider's user ([FirebaseUser], as far as it is read). *)
Record FirebaseUser := mkFirebaseUser {
  uid : string;
  fb_email : option string;
  fb_displayName : option string;
  photoURL : option string
}.

(** [interface AuthUser] *)
Record AuthUser := mkAuthUser {
  au_uid : string;
  au_email : option string;
  au_displayName : option string;
  au_photoURL : option string
}.

(** [interface AppUser extends User { authUser: AuthUser }] *)
Record AppUser := mkAppUser { profile : User.t; authUser : AuthUser }.

(** The state of [AuthProvider]. *)
Record AuthContext := mkAuthContext {
  user : option AppUser;
  firebaseUser : option FirebaseUser;
  loading : bool;
  error : option string
}.

(** The initial [useState] values of [AuthProvider]. *)
Definition initialAuthContext : AuthContext := mkAuthContext None None true None.

(** The state of [TaskDetailPage] that [loadTask] and [handleStatusChange]
    read or set. *)
Record TaskDetail := mkTaskDetail {
  task : option Task.t;
  comments : list Comment.t;
  users : list (string * User.t);
  td_loading : bool;
  editData : UpdateTaskData.t
}.

Definition initialTaskDetail : TaskDetail :=
  mkTaskDetail None [] [] true UpdateTaskData.empty.

(** A toast shown through [useToast()]. *)
Inductive Toast :=
| ToastSuccess (message : string)
| ToastError (message : string).

Record t := mk {
  auth : AuthContext;
  taskDetail : TaskDetail;
  toasts : list Toast;
  navigations : list string
}.

Definition initial : t := mk initialAuthContext initialTaskDetail [] [].

End Ui.
Export Ui (FirebaseUser, mkFirebaseUser, uid, fb_email, fb_displayName, photoURL).

(** ** The world the asynchronous code runs in *)

Module Db.

(** A document reference: the collection path and the document id.  Its
    path is [collectionPath/id]. *)
Abbreviation DocRef := (string * string)%type.

Definition refPath (r : DocRef) : string := fst r +:+ "/" +:+ snd r.

(** The document store, one typed map per kind of collection. *)
Record t := mk {
  users : gmap DocRef User.doc;
  teams : gmap DocRef Team.doc;
  projects : gmap DocRef Project.doc;
  tasks : gmap DocRef Task.doc;
  comments : gmap DocRef Comment.doc;
  auditLogs : gmap DocRef AuditLog.doc;
  reminderSettings : gmap DocRef ReminderSettings.doc
}.

Definition empty : t := mk ∅ ∅ ∅ ∅ ∅ ∅ ∅.

(** How a kind of document is read from and written to the store. *)
Record Kind (D : Type) := mkKind {
  docs : t -> gmap DocRef D;
  withDocs : gmap DocRef D -> t -> t
}.
Arguments docs {D}.
Arguments withDocs {D}.

Definition userDocs : Kind User.doc :=
  mkKind _ users
    (fun m s => mk m (teams s) (projects s) (tasks s) (comments s) (auditLogs s)
                  (reminderSettings s)).
Definition teamDocs : Kind Team.doc :=
  mkKind _ teams
    (fun m s => mk (users s) m (projects s) (tasks s) (comments s) (auditLogs s)
                  (reminderSettings s)).
Definition projectDocs : Kind Project.doc :=
  mkKind _ projects
    (fun m s => mk (users s) (teams s) m (tasks s) (comments s) (auditLogs s)
                  (reminderSettings s)).
Definition taskDocs : Kind Task.doc :=
  mkKind _ tasks
    (fun m s => mk (users s) (teams s) (projects s) m (comments s) (auditLogs s)
                  (reminderSettings s)).
Definition commentDocs : Kind Comment.doc :=
  mkKind _ comments
    (fun m s => mk (users s) (teams s) (projects s) (tasks s) m (auditLogs s)
                  (reminderSettings s)).
Definition auditLogDocs : Kind AuditLog.doc :=
  mkKind _ auditLogs
    (fun m s => mk (users s) (teams s) (projects s) (tasks s) (comments s) m
                  (reminderSettings s)).
Definition reminderSettingsDocs : Kind ReminderSettings.doc :=
  mkKind _ reminderSettings
    (fun m s => mk (users s) (teams s) (projects s) (tasks s) (comments s)
                  (auditLogs s) m).

End Db.

Module Runtime.

(** Everything outside the program text that its asynchronous functions
    read or change: the document store; whether the SDK's transport is
    failing (then every store call rejects with that message); the clock,
    as the sequence of values successive [Timestamp.now()] calls return;
    the generator of automatic document ids; the identity provider's
    signed-in user; and the state of the mounted components. *)
Record World := mkWorld {
  db : Db.t;
  sdkFault : option string;
  clock : nat -> Z;
  clockReads : nat;
  autoIds : nat -> string;
  idsDrawn : nat;
  currentUser : option FirebaseUser;
  ui : Ui.t
}.

Definition withDb (s : Db.t) (w : World) : World :=
  mkWorld s (sdkFault w) (clock w) (clockReads w) (autoIds w) (idsDrawn w)
    (currentUser w) (ui w).

Definition withUi (u : Ui.t) (w : World) : World :=
  mkWorld (db w) (sdkFault w) (clock w) (clockReads w) (autoIds w) (idsDrawn w)
    (currentUser w) u.

(** An asynchronous computation: it ends in a value or a rejection, and
    leaves a world behind either way. *)
Definition Async (A : Type) : Type := World -> Completion A * World.

Definition ret {A} (a : A) : Async A := fun w => (Return a, w).

Definition bind {A B} (m : Async A) (k : A -> Async B) : Async B :=
  fun w =>
    match m w with
    | (Return a, w') => k a w'
    | (Throw e, w') => (Throw e, w')
    end.

Definition throw {A} (message : string) : Async A := fun w => (Throw message, w).

(** [try { body } catch (err) { handler(err.message) }] *)
Definition tryCatch {A} (body : Async A) (handler : string -> Async A) : Async A :=
  fun w =>
    match body w with
    | (Return a, w') => (Return a, w')
    | (Throw e, w') => handler e w'
    end.

#[global] Instance Async_ret : MRet Async := @ret.
#[global] Instance Async_bind : MBind Async := fun A B k m => bind m k.

(** [for (const x of xs) { await body(x) }] *)
Fixpoint forEach {A} (xs : list A) (body : A -> Async unit) : Async unit :=
  match xs with
  | [] => ret ()
  | x :: xs' => bind (body x) (fun _ => forEach xs' body)
  end.

(** [Timestamp.now()] *)
Definition Timestamp_now : Async Timestamp :=
  fun w =>
    (Return (clock w (clockReads w)),
     mkWorld (db w) (sdkFault w) (clock w) (S (clockReads w)) (autoIds w)
       (idsDrawn w) (currentUser w) (ui w)).

(** [doc(collection(db, path))]: a reference with a fresh automatic id. *)
Definition newDocRef (collectionPath : string) : Async Db.DocRef :=
  fun w =>
    (Return (collectionPath, autoIds w (idsDrawn w)),
     mkWorld (db w) (sdkFault w) (clock w) (clockReads w) (autoIds w)
       (S (idsDrawn w)) (currentUser w) (ui w)).

(** [doc(db, path, id)] *)
Definition doc (collectionPath id : string) : Db.DocRef := (collectionPath, id).

(** Every call into the store first goes through the transport. *)
Definition transport : Async unit :=
  fun w =>
    match sdkFault w with
    | Some message => (Throw message, w)
    | None => (Return (), w)
    end.

(** Whether an optional field of an object literal has a value, or is
    [undefined]. *)
Definition defined {A} (value : option A) : bool :=
  match value with
  | Some _ => true
  | None => false
  end.

(** The first field whose value is [undefined]. *)
Fixpoint firstUndefined (fields : list (string * bool)) : option string :=
  match fields with
  | [] => None
  | (field, isDefined) :: fields' =>
      if isDefined then firstUndefined fields' else Some field
  end.

Section Documents.

Context {D : Type} (K : Db.Kind D).

(** [getDoc(ref)]: [None] when [!docSnap.exists()]. *)
Definition getDoc (r : Db.DocRef) : Async (option D) :=
  bind transport (fun _ w => (Return (Db.docs K (db w) !! r), w)).

(** [setDoc(ref, data)] *)
Definition setDoc (r : Db.DocRef) (data : D) : Async unit :=
  bind transport (fun _ w =>
    (Return (), withDb (Db.withDocs K (<[r := data]> (Db.docs K (db w))) (db w)) w)).

(** The data of a [setDoc] is checked when the call is made, before
    anything is sent.  The [Firestore] instance of [lib/firebase/config.ts] is
    the one of [getFirestore(app)], which does not ignore [undefined]
    properties: a field whose value is [undefined] is refused with this
    error. *)
Definition unsupportedUndefined (field : string) (r : Db.DocRef) : string :=
  "Function setDoc() called with invalid data. Unsupported field value: undefined (found in field "
  +:+ field +:+ " in document " +:+ Db.refPath r +:+ ")".

(** [setDoc(ref, data)] for an object literal [data] that has optional
    fields: [optional] lists them in the order of the literal, each with
    whether its value is defined. *)
Definition setDocLiteral (r : Db.DocRef) (data : D) (optional : list (string * bool))
  : Async unit :=
  match firstUndefined optional with
  | Some field => throw (unsupportedUndefined field r)
  | None => setDoc r data
  end.

(** [setDoc(ref, data, { merge: true })]: [merged] gives the document from
    the one stored at [ref], if any. *)
Definition setDocMerge (merged : option D -> D) (r : Db.DocRef) : Async unit :=
  bind transport (fun _ w =>
    (Return (),
     withDb (Db.withDocs K (<[r := merged (Db.docs K (db w) !! r)]> (Db.docs K (db w)))
               (db w)) w)).

(** [updateDoc(ref, patch)]: rejects when the document does not exist. *)
Definition updateDoc {P} (apply : P -> D -> D) (r : Db.DocRef) (p : P)
  : Async unit :=
  bind transport (fun _ w =>
    match Db.docs K (db w) !! r with
    | Some d =>
        (Return (),
         withDb (Db.withDocs K (<[r := apply p d]> (Db.docs K (db w))) (db w)) w)
    | None => (Throw ("No document to update: " +:+ Db.refPath r), w)
    end).

(** [deleteDoc(ref)] *)
Definition deleteDoc (r : Db.DocRef) : Async unit :=
  bind transport (fun _ w =>
    (Return (), withDb (Db.withDocs K (delete r (Db.docs K (db w))) (db w)) w)).

(** The updates queued on a [writeBatch], applied in order to a map of
    documents; [None] as soon as one of them addresses a missing
    document. *)
Fixpoint applyUpdates {P} (apply : P -> D -> D) (ops : list (Db.DocRef * P))
    (m : gmap Db.DocRef D) : option (gmap Db.DocRef D) :=
  match ops with
  | [] => Some m
  | (r, p) :: ops' =>
      match m !! r with
      | Some d => applyUpdates apply ops' (<[r := apply p d]> m)
      | None => None
      end
  end.

(** [batch.commit()]: all the queued updates, or none of them. *)
Definition commitUpdates {P} (apply : P -> D -> D) (ops : list (Db.DocRef * P))
  : Async unit :=
  bind transport (fun _ w =>
    match applyUpdates apply ops (Db.docs K (db w)) with
    | Some m => (Return (), withDb (Db.withDocs K m (db w)) w)
    | None => (Throw "No document to update", w)
    end).

(** [getDocs(query(collection(db, path)))]: the documents of a
    collection with their ids. *)
Definition getDocs (collectionPath : string) : Async (list (string * D)) :=
  bind transport (fun _ w =>
    (Return
       (omap (fun kv : Db.DocRef * D =>
                if String.eqb (fst (fst kv)) collectionPath
                then Some (snd (fst kv), snd kv) else None)
          (map_to_list (Db.docs K (db w)))),
     w)).

End Documents.

End Runtime.
Import Runtime.

(** ** lib/firebase/firestore.ts: the org-scoped data layer *)

Module Firestore.

(** Collection paths *)
Definition getUsersPath (orgId : string) : string := "orgs/" +:+ orgId +:+ "/users".
Definition getTeamsPath (orgId : string) : string := "orgs/" +:+ orgId +:+ "/teams".
Definition getProjectsPath (orgId : string) : string :=
  "orgs/" +:+ orgId +:+ "/projects".
Definition getTasksPath (orgId : string) : string := "orgs/" +:+ orgId +:+ "/tasks".
Definition getCommentsPath (orgId taskId : string) : string :=
  "orgs/" +:+ orgId +:+ "/tasks/" +:+ taskId +:+ "/comments".
Definition getAuditLogsPath (orgId : string) : string :=
  "orgs/" +:+ orgId +:+ "/auditLogs".
Definition getReminderSettingsPath (orgId : string) : string :=
  "orgs/" +:+ orgId +:+ "/reminderSettings".

(** Stable insertion sort, for the [orderBy] of a query. *)
Fixpoint insertBy {A} (leb : A -> A -> bool) (x : A) (l : list A) : list A :=
  match l with
  | [] => [x]
  | y :: l' => if leb x y then x :: l else y :: insertBy leb x l'
  end.

Definition sortBy {A} (leb : A -> A -> bool) (l : list A) : list A :=
  fold_right (insertBy leb) [] l.

(** *** Users *)

Definition getUserById (orgId userId : string) : Async (option User.t) :=
  docSnap ← getDoc Db.userDocs (doc (getUsersPath orgId) userId);
  mret (option_map (User.mk userId) docSnap).

(** [getUsers(orgId)] without filters: every user, by display name. *)
Definition getUsers (orgId : string) : Async (list User.t) :=
  snapshot ← getDocs Db.userDocs (getUsersPath orgId);
  mret (map (fun d => User.mk (fst d) (snd d))
          (sortBy (fun a b => String.leb (User.displayName (snd a))
                                (User.displayName (snd b))) snapshot)).

(** [String.prototype.toLowerCase] on a string of ASCII characters: the
    letters A to Z are mapped, nothing else is.  The statements about it are
    made for ASCII strings ([isAscii]), the configured e-mail domains
    included. *)
Fixpoint toLowerCase (s : string) : string :=
  match s with
  | EmptyString => EmptyString
  | String c s' =>
      let n := nat_of_ascii c in
      String (if ((65 <=? n) && (n <=? 90))%nat then ascii_of_nat (n + 32) else c)
        (toLowerCase s')
  end.

Definition createUser (orgId userId : string) (data : CreateUserData.t)
    (createdBy : string) : Async User.t :=
  now ← Timestamp_now;
  let user :=
    {| User.orgId := orgId;
       User.email := toLowerCase (CreateUserData.email data);
       User.displayName := CreateUserData.displayName data;
       User.role := CreateUserData.role data;
       User.status := pending;
       User.managedTeamIds := [];
       User.managedProjectIds := [];
       User.teamIds := default [] (CreateUserData.teamIds data);
       User.projectIds := default [] (CreateUserData.projectIds data);
       User.avatarUrl := None;
       User.reminderPreferences := None;
       User.createdAt := now;
       User.updatedAt := now;
       User.createdBy := createdBy;
       User.lastLoginAt := None |} in
  setDoc Db.userDocs (doc (getUsersPath orgId) userId) user;;
  mret (User.mk userId user).

(** [updateUser(orgId, userId, data)]: [{ ...data, updatedAt: Timestamp.now() }] *)
Definition updateUser (orgId userId : string) (data : User.patch) : Async unit :=
  now ← Timestamp_now;
  updateDoc Db.userDocs User.applyPatch (doc (getUsersPath orgId) userId)
    (User.mkPatch (User.p_email data) (User.p_displayName data) (User.p_role data)
       (User.p_status data) (User.p_managedTeamIds data)
       (User.p_managedProjectIds data) (User.p_teamIds data)
       (User.p_projectIds data) (User.p_avatarUrl data)
       (User.p_reminderPreferences data) (User.p_lastLoginAt data) (Some now)).

Definition statusPatch (s : UserStatus) : User.patch :=
  User.mkPatch None None None (Some s) None None None None None None None None.

Definition disableUser (orgId userId : string) : Async unit :=
  updateUser orgId userId (statusPatch disabled).

Definition activateUser (orgId userId : string) : Async unit :=
  updateUser orgId userId (statusPatch active).

(** *** Teams and projects *)

(** [{ teamIds: arrayUnion(id), updatedAt: now }] and its three siblings. *)
Definition teamIdsUnion (id : string) (now : Timestamp) : User.patch :=
  User.mkPatch None None None None None None (Some (ArrayUnion [id])) None
    None None None (Some now).
Definition managedTeamIdsUnion (id : string) (now : Timestamp) : User.patch :=
  User.mkPatch None None None None (Some (ArrayUnion [id])) None None None
    None None None (Some now).
Definition projectIdsUnion (id : string) (now : Timestamp) : User.patch :=
  User.mkPatch None None None None None None None (Some (ArrayUnion [id]))
    None None None (Some now).
Definition managedProjectIdsUnion (id : string) (now : Timestamp) : User.patch :=
  User.mkPatch None None None None None (Some (ArrayUnion [id])) None None
    None None None (Some now).

(** [createTeam(orgId, data, createdBy)].  The literal has [description:
    data.description], which is [undefined] when the data leaves the
    description out. *)
Definition createTeam (orgId : string) (data : CreateTeamData.t)
    (createdBy : string) : Async Team.t :=
  now ← Timestamp_now;
  teamRef ← newDocRef (getTeamsPath orgId);
  let team :=
    {| Team.orgId := orgId;
       Team.name := CreateTeamData.name data;
       Team.description := CreateTeamData.description data;
       Team.managerIds := CreateTeamData.managerIds data;
       Team.memberIds := CreateTeamData.memberIds data;
       Team.createdAt := now;
       Team.updatedAt := now;
       Team.createdBy := createdBy |} in
  setDocLiteral Db.teamDocs teamRef team
    [("description", defined (CreateTeamData.description data))];;
  (* Update users' teamIds *)
  let batch :=
    map (fun memberId =>
           (doc (getUsersPath orgId) memberId, teamIdsUnion (snd teamRef) now))
        (CreateTeamData.memberIds data)
    ++
    map (fun managerId =>
           (doc (getUsersPath orgId) managerId, managedTeamIdsUnion (snd teamRef) now))
        (CreateTeamData.managerIds data) in
  commitUpdates Db.userDocs User.applyPatch batch;;
  mret (Team.mk (snd teamRef) team).

(** [createProject(orgId, data, createdBy)].  [description], [teamId],
    [startDate] and [endDate] of the literal are [undefined] when the data
    leaves them out. *)
Definition createProject (orgId : string) (data : CreateProjectData.t)
    (createdBy : string) : Async Project.t :=
  now ← Timestamp_now;
  projectRef ← newDocRef (getProjectsPath orgId);
  let project :=
    {| Project.orgId := orgId;
       Project.name := CreateProjectData.name data;
       Project.description := CreateProjectData.description data;
       Project.teamId := CreateProjectData.teamId data;
       Project.managerIds := CreateProjectData.managerIds data;
       Project.memberIds := CreateProjectData.memberIds data;
       Project.status := default project_active (CreateProjectData.status data);
       Project.startDate :=
         option_map Timestamp_fromDate (CreateProjectData.startDate data);
       Project.endDate :=
         option_map Timestamp_fromDate (CreateProjectData.endDate data);
       Project.createdAt := now;
       Project.updatedAt := now;
       Project.createdBy := createdBy |} in
  setDocLiteral Db.projectDocs projectRef project
    [("description", defined (CreateProjectData.description data));
     ("teamId", defined (CreateProjectData.teamId data));
     ("startDate", defined (CreateProjectData.startDate data));
     ("endDate", defined (CreateProjectData.endDate data))];;
  (* Update users' projectIds *)
  let batch :=
    map (fun memberId =>
           (doc (getUsersPath orgId) memberId, projectIdsUnion (snd projectRef) now))
        (CreateProjectData.memberIds data)
    ++
    map (fun managerId =>
           (doc (getUsersPath orgId) managerId,
            managedProjectIdsUnion (snd projectRef) now))
        (CreateProjectData.managerIds data) in
  commitUpdates Db.userDocs User.applyPatch batch;;
  mret (Project.mk (snd projectRef) project).

(** *** Tasks *)

Definition getTaskById (orgId taskId : string) : Async (option Task.t) :=
  docSnap ← getDoc Db.taskDocs (doc (getTasksPath orgId) taskId);
  mret (option_map (Task.mk taskId) docSnap).

(** [createTask(orgId, data, createdBy)].  [description], [projectId],
    [teamId] and [dueDate] of the literal are [undefined] when the data
    leaves them out; a due date is a valid [Date]. *)
Definition createTask (orgId : string) (data : CreateTaskData.t)
    (createdBy : string) : Async Task.t :=
  now ← Timestamp_now;
  taskRef ← newDocRef (getTasksPath orgId);
  let task :=
    {| Task.orgId := orgId;
       Task.title := CreateTaskData.title data;
       Task.description := CreateTaskData.description data;
       Task.projectId := CreateTaskData.projectId data;
       Task.teamId := CreateTaskData.teamId data;
       Task.assigneeIds := CreateTaskData.assigneeIds data;
       Task.status := "backlog";
       Task.priority := CreateTaskData.priority data;
       Task.dueDate := option_map Timestamp_fromDate (CreateTaskData.dueDate data);
       Task.tags := default [] (CreateTaskData.tags data);
       Task.parentTaskId := None;
       Task.checklistItems := None;
       Task.attachments := None;
       Task.createdBy := createdBy;
       Task.createdAt := now;
       Task.updatedAt := now;
       Task.completedAt := None |} in
  setDocLiteral Db.taskDocs taskRef task
    [("description", defined (CreateTaskData.description data));
     ("projectId", defined (CreateTaskData.projectId data));
     ("teamId", defined (CreateTaskData.teamId data));
     ("dueDate", defined (CreateTaskData.dueDate data))];;
  mret (Task.mk (snd taskRef) task).

(** [updateTask(orgId, taskId, data)] *)
Definition updateTask (orgId taskId : string) (data : UpdateTaskData.t)
    : Async unit :=
  updatedAt ← Timestamp_now;
  let spread :=
    {| Task.u_title := UpdateTaskData.title data;
       Task.u_description := UpdateTaskData.description data;
       Task.u_assigneeIds := UpdateTaskData.assigneeIds data;
       Task.u_status := option_map TaskStatus_literal (UpdateTaskData.status data);
       Task.u_priority := UpdateTaskData.priority data;
       Task.u_dueDate :=
         match UpdateTaskData.dueDate data with
         | Some None => Some None
         | Some (Some d) => Some (Some (Timestamp_fromDate d))
         | None => None
         end;
       Task.u_tags := UpdateTaskData.tags data;
       Task.u_checklistItems := UpdateTaskData.checklistItems data;
       Task.u_attachments := UpdateTaskData.attachments data;
       Task.u_updatedAt := Some updatedAt;
       Task.u_completedAt := None |} in
  updateData ←
    (if decide (UpdateTaskData.status data = Some done) then
       completedAt ← Timestamp_now;
       mret
         (Task.mkUpdateData (Task.u_title spread) (Task.u_description spread)
            (Task.u_assigneeIds spread) (Task.u_status spread)
            (Task.u_priority spread) (Task.u_dueDate spread) (Task.u_tags spread)
            (Task.u_checklistItems spread) (Task.u_attachments spread)
            (Task.u_updatedAt spread) (Some completedAt))
     else mret spread);
  updateDoc Db.taskDocs Task.applyUpdate (doc (getTasksPath orgId) taskId) updateData.

(** [updateTaskStatus(orgId, taskId, status)] *)
Definition updateTaskStatus (orgId taskId status : string) : Async unit :=
  updatedAt ← Timestamp_now;
  let initial :=
    Task.mkUpdateData None None None (Some status) None None None None None
      (Some updatedAt) None in
  updateData ←
    (if String.eqb status "done" then
       completedAt ← Timestamp_now;
       mret
         (Task.mkUpdateData None None None (Some status) None None None None None
            (Some updatedAt) (Some completedAt))
     else mret initial);
  updateDoc Db.taskDocs Task.applyUpdate (doc (getTasksPath orgId) taskId) updateData.

(** *** Comments *)

Definition getComments (orgId taskId : string) : Async (list Comment.t) :=
  snapshot ← getDocs Db.commentDocs (getCommentsPath orgId taskId);
  mret (map (fun d => Comment.mk (fst d) (snd d))
          (sortBy (fun a b => Comment.createdAt (snd a) <=? Comment.createdAt (snd b))
             snapshot)).

(** *** Audit logs *)

Section AuditLogs.

(** The SDK's check of the data of an entry, the message it refuses the
    data with when it does: the entry comes from the caller as it is, and an
    [undefined] value in it, among others, is refused. *)
Variable refused : AuditLog.input -> option string.

(** [createAuditLog(orgId, data)]: [{ ...data, orgId, createdAt }] *)
Definition createAuditLog (orgId : string) (data : AuditLog.input) : Async unit :=
  logRef ← newDocRef (getAuditLogsPath orgId);
  now ← Timestamp_now;
  match refused data with
  | Some message => throw message
  | None => setDoc Db.auditLogDocs logRef (AuditLog.mkDoc data orgId now)
  end.

End AuditLogs.

End Firestore.
Import Firestore.

(** ** contexts/AuthContext.tsx: the state of [AuthProvider] *)

Module AuthState.

(** The state setters of [AuthProvider]. *)
Definition modifyAuth (f : Ui.AuthContext -> Ui.AuthContext) : Async unit :=
  fun w =>
    (Return (),
     withUi (Ui.mk (f (Ui.auth (ui w))) (Ui.taskDetail (ui w)) (Ui.toasts (ui w))
               (Ui.navigations (ui w))) w).

Definition setUser (u : option Ui.AppUser) : Async unit :=
  modifyAuth (fun a =>
    Ui.mkAuthContext u (Ui.firebaseUser a) (Ui.loading a) (Ui.error a)).
Definition setFirebaseUser (f : option FirebaseUser) : Async unit :=
  modifyAuth (fun a => Ui.mkAuthContext (Ui.user a) f (Ui.loading a) (Ui.error a)).
Definition setLoading (b : bool) : Async unit :=
  modifyAuth (fun a => Ui.mkAuthContext (Ui.user a) (Ui.firebaseUser a) b (Ui.error a)).
Definition setError (e : option string) : Async unit :=
  modifyAuth (fun a =>
    Ui.mkAuthContext (Ui.user a) (Ui.firebaseUser a) (Ui.loading a) e).

End AuthState.
Import AuthState.

(** ** lib/firebase/auth.ts *)

Module Auth.

(** What the listener that [AuthProvider] subscribes through [onAuthChange]
    does when the identity provider notifies it with [null]: the
    [setFirebaseUser(fbUser)] of the callback, its [else] branch and its
    closing [setLoading(false)].  The provider is mounted around every
    page, so the listener is subscribed whenever code of the application
    runs. *)
Definition authStateListenerOnNull : Async unit :=
  setFirebaseUser None;;
  setUser None;;
  setError None;;
  setLoading false.

(** [signOut()]: the identity provider forgets the signed-in user.  When
    there was one, the auth state changes and the provider notifies the
    subscribed listener with [null]; the listener has run by the time the
    returned promise resolves.  Without a signed-in user nothing changes
    and no listener is notified. *)
Definition signOut : Async unit :=
  fun w =>
    match currentUser w with
    | Some _ =>
        authStateListenerOnNull
          (mkWorld (db w) (sdkFault w) (clock w) (clockReads w) (autoIds w)
             (idsDrawn w) None (ui w))
    | None => (Return (), w)
    end.

End Auth.

(** ** contexts/AuthContext.tsx *)

Module AuthContext.

(** [String.prototype.includes] *)
Fixpoint str_includes (s sub : string) : bool :=
  if Stdlib.Strings.String.prefix sub s then true
  else match s with
       | String _ s' => str_includes s' sub
       | EmptyString => false
       end.

(** [s.split('@')[0]]: the text before the first [@]. *)
Fixpoint beforeAt (s : string) : string :=
  match s with
  | String c s' => if Ascii.eqb c "@" then EmptyString else String c (beforeAt s')
  | EmptyString => EmptyString
  end.

(** A string-or-null operand of [||] or [&&]: truthy when non-empty. *)
Definition truthy (s : option string) : option string :=
  match s with
  | Some EmptyString | None => None
  | Some s' => Some s'
  end.

Definition lastLoginPatch (status : option UserStatus) (now : Timestamp)
  : User.patch :=
  User.mkPatch None None None status None None None None None None (Some now) None.

(** [loadUserData(fbUser)].  The last-login update is started without
    being awaited and its rejection is only logged; it is run in place
    with its rejection dropped. *)
Definition loadUserData (fbUser : FirebaseUser) : Async unit :=
  tryCatch
    ((* Try to get user from Firestore *)
     found ← getUserById defaultOrgId (uid fbUser);
     (* Auto-create user document if it doesn't exist in Firestore *)
     userData ←
       match found, truthy (fb_email fbUser) with
       | None, Some email =>
           tryCatch
             (created ←
                createUser defaultOrgId (uid fbUser)
                  (CreateUserData.mk email
                     (default (beforeAt email) (truthy (fb_displayName fbUser)))
                     employee (Some []) (Some []))
                  (uid fbUser);
              (* Activate the user immediately *)
              now ← Timestamp_now;
              updateUser defaultOrgId (uid fbUser) (lastLoginPatch (Some active) now);;
              mret (Some (User.setStatus active created)))
             (fun createErr => throw createErr)
       | _, _ => mret found
       end;
     match userData with
     | Some u =>
         (* Check if user is disabled *)
         if decide (User.status (User.data u) = disabled) then
           setError
             (Some "Your account has been disabled. Please contact an administrator.");;
           Auth.signOut;;
           setUser None
         else
           (* Update last login (fire and forget) *)
           now ← Timestamp_now;
           tryCatch (updateUser defaultOrgId (uid fbUser) (lastLoginPatch None now))
             (fun _ => mret ());;
           setUser
             (Some (Ui.mkAppUser u
                      (Ui.mkAuthUser (uid fbUser) (fb_email fbUser)
                         (fb_displayName fbUser) (photoURL fbUser))));;
           setError None
     | None => setUser None
     end)
    (fun errorMessage =>
       (if str_includes errorMessage "offline" || str_includes errorMessage "unavailable"
        then setError
               (Some "Unable to connect to server. Please check your internet connection and try again.")
        else if str_includes errorMessage "permission"
        then setError (Some "Permission denied. Please contact administrator.")
        else setError (Some "Failed to load user data. Please try again."));;
       setUser None).

(** The [onAuthChange] callback of [AuthProvider]. *)
Definition onAuthChange (fbUser : option FirebaseUser) : Async unit :=
  setFirebaseUser fbUser;;
  match fbUser with
  | Some fb => loadUserData fb
  | None => setUser None;; setError None
  end;;
  setLoading false.

(** Helper hooks, as functions of the context value. *)
Definition useUser (ctx : Ui.AuthContext) : option User.t :=
  option_map Ui.profile (Ui.user ctx).

Definition roleOf (ctx : Ui.AuthContext) : option UserRole :=
  option_map (fun u => User.role (User.data u)) (useUser ctx).

(** [user?.role === 'admin'] *)
Definition useIsAdmin (ctx : Ui.AuthContext) : bool :=
  bool_decide (roleOf ctx = Some admin).

(** [user?.role === 'manager' || user?.role === 'admin'] *)
Definition useIsManager (ctx : Ui.AuthContext) : bool :=
  bool_decide (roleOf ctx = Some manager) || bool_decide (roleOf ctx = Some admin).

Definition useCanManageTeam (ctx : Ui.AuthContext) (teamId : string) : bool :=
  match useUser ctx with
  | None => false
  | Some user =>
      if decide (User.role (User.data user) = admin) then true
      else if decide (User.role (User.data user) = manager)
      then includes (User.managedTeamIds (User.data user)) teamId
      else false
  end.

Definition useCanManageProject (ctx : Ui.AuthContext) (projectId : string) : bool :=
  match useUser ctx with
  | None => false
  | Some user =>
      if decide (User.role (User.data user) = admin) then true
      else if decide (User.role (User.data user) = manager)
      then includes (User.managedProjectIds (User.data user)) projectId
      else false
  end.

End AuthContext.
Import AuthContext.

(** ** app/(dashboard)/tasks/[id]/page.tsx *)

Module TaskDetailPage.

Definition modifyPage (f : Ui.TaskDetail -> Ui.TaskDetail) : Async unit :=
  fun w =>
    (Return (),
     withUi (Ui.mk (Ui.auth (ui w)) (f (Ui.taskDetail (ui w))) (Ui.toasts (ui w))
               (Ui.navigations (ui w))) w).

Definition setTask (t : option Task.t) : Async unit :=
  modifyPage (fun p =>
    Ui.mkTaskDetail t (Ui.comments p) (Ui.users p) (Ui.td_loading p) (Ui.editData p)).
Definition setComments (c : list Comment.t) : Async unit :=
  modifyPage (fun p =>
    Ui.mkTaskDetail (Ui.task p) c (Ui.users p) (Ui.td_loading p) (Ui.editData p)).
Definition setUsers (u : list (string * User.t)) : Async unit :=
  modifyPage (fun p =>
    Ui.mkTaskDetail (Ui.task p) (Ui.comments p) u (Ui.td_loading p) (Ui.editData p)).
Definition setLoading (b : bool) : Async unit :=
  modifyPage (fun p =>
    Ui.mkTaskDetail (Ui.task p) (Ui.comments p) (Ui.users p) b (Ui.editData p)).
Definition setEditData (e : UpdateTaskData.t) : Async unit :=
  modifyPage (fun p =>
    Ui.mkTaskDetail (Ui.task p) (Ui.comments p) (Ui.users p) (Ui.td_loading p) e).

Definition toast (t : Ui.Toast) : Async unit :=
  fun w =>
    (Return (),
     withUi (Ui.mk (Ui.auth (ui w)) (Ui.taskDetail (ui w)) (Ui.toasts (ui w) ++ [t])
               (Ui.navigations (ui w))) w).

Definition showError (message : string) : Async unit := toast (Ui.ToastError message).
Definition success (message : string) : Async unit := toast (Ui.ToastSuccess message).

(** [router.push(href)] *)
Definition router_push (href : string) : Async unit :=
  fun w =>
    (Return (),
     withUi (Ui.mk (Ui.auth (ui w)) (Ui.taskDetail (ui w)) (Ui.toasts (ui w))
               (Ui.navigations (ui w) ++ [href])) w).

(** [const { user } = useAuth()] and [const isManager = useIsManager()], as
    the page reads them from the context. *)
Definition getContext : Async Ui.AuthContext := fun w => (Return (Ui.auth (ui w)), w).
Definition getPage : Async Ui.TaskDetail := fun w => (Return (Ui.taskDetail (ui w)), w).

(** [user?.id || ''] *)
Definition userIdOrEmpty (ctx : Ui.AuthContext) : string :=
  match useUser ctx with
  | Some u => User.id u
  | None => EmptyString
  end.

(** [usersData.forEach(u => { usersMap[u.id] = u; })] *)
Definition usersMap (usersData : list User.t) : list (string * User.t) :=
  fold_left (fun m u => obj_set m (User.id u) u) usersData [].

(** The [loadTask] effect for the task [id]. *)
Definition loadTask (id : string) : Async unit :=
  ctx ← getContext;
  let isManager := useIsManager ctx in
  tryCatch
    ((* Promise.all of the three reads *)
     taskData ← getTaskById defaultOrgId id;
     commentsData ← getComments defaultOrgId id;
     usersData ← getUsers defaultOrgId;
     match taskData with
     | None => showError "Task not found";; router_push "/tasks"
     | Some taskData =>
         (* Check if user can view this task *)
         if negb isManager
            && negb (includes (Task.assigneeIds (Task.data taskData)) (userIdOrEmpty ctx))
         then showError "You do not have access to this task";; router_push "/tasks"
         else
           setTask (Some taskData);;
           setComments commentsData;;
           (* Create users lookup map *)
           setUsers (usersMap usersData);;
           setEditData
             (UpdateTaskData.mk
                (Some (Task.title (Task.data taskData)))
                (Task.description (Task.data taskData))
                None None
                (Some (Task.priority (Task.data taskData)))
                (option_map Some (Task.dueDate (Task.data taskData)))
                (Some (Task.tags (Task.data taskData)))
                None None)
     end)
    (fun _ => showError "Failed to load task");;
  setLoading false.

(** [{ ...task, status: newStatus }] *)
Definition withStatus (t : Task.t) (s : string) : Task.t :=
  let d := Task.data t in
  Task.mk (Task.id t)
    (Task.mkDoc (Task.orgId d) (Task.title d) (Task.description d) (Task.projectId d)
       (Task.teamId d) (Task.assigneeIds d) s (Task.priority d) (Task.dueDate d)
       (Task.tags d) (Task.parentTaskId d) (Task.checklistItems d)
       (Task.attachments d) (Task.createdBy d) (Task.createdAt d) (Task.updatedAt d)
       (Task.completedAt d)).

(** [handleStatusChange(newStatus)].  Indexing the table with a status it
    has no entry for gives [undefined], and calling [includes] on that is a
    [TypeError]. *)
Definition handleStatusChange (newStatus : TaskStatus) : Async unit :=
  page ← getPage;
  match Ui.task page with
  | None => mret ()
  | Some task =>
      (* Verify transition is allowed *)
      match record_get TASK_STATUS_TRANSITIONS (Task.status (Task.data task)) with
      | None => throw "Cannot read properties of undefined (reading 'includes')"
      | Some allowedTransitions =>
          if negb (includes allowedTransitions (TaskStatus_literal newStatus)) then
            showError ("Cannot transition from " +:+ Task.status (Task.data task)
                       +:+ " to " +:+ TaskStatus_literal newStatus)
          else
            tryCatch
              (updateTaskStatus defaultOrgId (Task.id task) (TaskStatus_literal newStatus);;
               setTask (Some (withStatus task (TaskStatus_literal newStatus)));;
               success "Status updated")
              (fun _ => showError "Failed to update status")
      end
  end.

(** [if (loading) return <PageLoader />; if (!task) return null;]: whether
    the page renders the task, and with it the comment box. *)
Definition rendersTask (page : Ui.TaskDetail) : bool :=
  negb (Ui.td_loading page) && bool_decide (is_Some (Ui.task page)).

(** The gates computed when the page renders a loaded [task]. *)
Definition isAssignee (ctx : Ui.AuthContext) (task : Task.t) : bool :=
  includes (Task.assigneeIds (Task.data task)) (userIdOrEmpty ctx).

Definition canEdit (ctx : Ui.AuthContext) (task : Task.t) : bool :=
  useIsManager ctx || isAssignee ctx task.

Definition canChangeStatus (ctx : Ui.AuthContext) (task : Task.t) : bool :=
  canEdit ctx task && negb (String.eqb (Task.status (Task.data task)) "done").

End TaskDetailPage.
Import TaskDetailPage.

(** ** Vocabulary of the properties *)

Module Spec.

(** The transition table as the specification words it. *)
Definition allowedSet (current : TaskStatus) : list TaskStatus :=
  match current with
  | backlog => [in_progress; done]
  | in_progress => [blocked; done]
  | blocked => [in_progress]
  | done => []
  end.

(** An otherwise identical actor with another role. *)
Definition withRole (r : UserRole) (u : User.t) : User.t :=
  let d := User.data u in
  User.mk (User.id u)
    (User.mkDoc (User.orgId d) (User.email d) (User.displayName d) r (User.status d)
       (User.managedTeamIds d) (User.managedProjectIds d) (User.teamIds d)
       (User.projectIds d) (User.avatarUrl d) (User.reminderPreferences d)
       (User.createdAt d) (User.updatedAt d) (User.createdBy d) (User.lastLoginAt d)).

(** The error [loadUserData] reports for a disabled account. *)
Definition disabledMessage : string :=
  "Your account has been disabled. Please contact an administrator.".

(** The context value of a signed-in, loaded actor. *)
Definition signedIn (u : User.t) : Ui.AuthContext :=
  Ui.mkAuthContext
    (Some (Ui.mkAppUser u (Ui.mkAuthUser (User.id u) (Some (User.email (User.data u)))
                             (Some (User.displayName (User.data u))) None)))
    None false None.

End Spec.
Import Spec.

(** ** A small organization, for closed examples *)

Module Examples.

Definition exampleClock (n : nat) : Z := 1700000000000 + 1000 * Z.of_nat n.

Definition exampleIds (n : nat) : string := "auto" +:+ Number_toString (Z.of_nat n).

Definition userDoc (orgId email name : string) (r : UserRole) (s : UserStatus)
  : User.doc :=
  User.mkDoc orgId email name r s [] [] [] [] None None 1690000000000 1690000000000
    "root" None.

Definition taskDoc (title : string) (assignees : list string) (status : string)
  : Task.doc :=
  Task.mkDoc defaultOrgId title None None None assignees status medium None []
    None None None "m1" 1695000000000 1695000000000 None.

(** Users m1 (manager), e1 and e2 (employees), u1 (employee), u2 (a
    disabled admin); tasks t1 (backlog, assigned to e1) and t2 (blocked,
    assigned to e2). *)
Definition exampleDb : Db.t :=
  Db.mk
    (list_to_map
       [ ((getUsersPath defaultOrgId, "m1"),
          userDoc defaultOrgId "m1@company.com" "Manager One" manager active);
         ((getUsersPath defaultOrgId, "e1"),
          userDoc defaultOrgId "e1@company.com" "Employee One" employee active);
         ((getUsersPath defaultOrgId, "e2"),
          userDoc defaultOrgId "e2@company.com" "Employee Two" employee active);
         ((getUsersPath defaultOrgId, "u1"),
          userDoc defaultOrgId "u1@company.com" "User One" employee active);
         ((getUsersPath defaultOrgId, "u2"),
          userDoc defaultOrgId "u2@company.com" "User Two" admin disabled) ])
    ∅ ∅
    (list_to_map
       [ ((getTasksPath defaultOrgId, "t1"), taskDoc "Write report" ["e1"] "backlog");
         ((getTasksPath defaultOrgId, "t2"), taskDoc "Fix build" ["e2"] "blocked") ])
    ∅ ∅ ∅.

Definition exampleWorld : World :=
  mkWorld exampleDb None exampleClock 0 exampleIds 0 None Ui.initial.

(** The same world with [fbUser] signed in at the identity provider and
    nothing loaded yet. *)
Definition sessionOf (fbUser : FirebaseUser) : World :=
  mkWorld exampleDb None exampleClock 0 exampleIds 0 (Some fbUser) Ui.initial.

(** The same world with the actor [u] signed in and loaded. *)
Definition worldOf (u : User.t) : World :=
  mkWorld exampleDb None exampleClock 0 exampleIds 0
    (Some (mkFirebaseUser (User.id u) (Some (User.email (User.data u)))
             (Some (User.displayName (User.data u))) None))
    (Ui.mk (signedIn u) Ui.initialTaskDetail [] []).

(** The same world with the task [t] already shown on the detail page. *)
Definition showing (t : Task.t) (w : World) : World :=
  withUi (Ui.mk (Ui.auth (ui w))
            (Ui.mkTaskDetail (Some t) [] [] false UpdateTaskData.empty)
            (Ui.toasts (ui w)) (Ui.navigations (ui w))) w.

End Examples.
Import Examples.

Module Workflow.

(** The toast [handleStatusChange] shows for a transition it refuses. *)
Definition invalidTransition (current requested : TaskStatus) : Ui.Toast :=
  Ui.ToastError
    ("Cannot transition from " +:+ TaskStatus_literal current
     +:+ " to " +:+ TaskStatus_literal requested).

(** What [handleStatusChange] does once the transition has passed the
    table: the [try] block with its [catch]. *)
Definition attemptStatusChange (task : Task.t) (newStatus : TaskStatus)
  : Async unit :=
  tryCatch
    (updateTaskStatus defaultOrgId (Task.id task) (TaskStatus_literal newStatus);;
     setTask (Some (withStatus task (TaskStatus_literal newStatus)));;
     success "Status updated")
    (fun _ => showError "Failed to update status").

End Workflow.
Import Workflow.

Module AuditSpec.

(** Value equality of two JavaScript values: arrays element-wise in order,
    objects entry-wise. *)
Fixpoint JsValue_eqb (a b : JsValue) : bool :=
  match a, b with
  | JUndefined, JUndefined | JNull, JNull | JNaN, JNaN => true
  | JString s, JString s' => String.eqb s s'
  | JNumber q, JNumber q' => QArith_base.Qeq_bool q q'
  | JBool x, JBool y => Bool.eqb x y
  | JDate (Some t), JDate (Some t') => Z.eqb t t'
  | JDate None, JDate None => true
  | JArray items, JArray items' =>
      (fix all2 (l l' : list JsValue) : bool :=
         match l, l' with
         | [], [] => true
         | x :: r, y :: r' => JsValue_eqb x y && all2 r r'
         | _, _ => false
         end) items items'
  | JObject entries, JObject entries' =>
      (fix all2 (l l' : list (string * JsValue)) : bool :=
         match l, l' with
         | [], [] => true
         | (k, x) :: r, (k', y) :: r' => String.eqb k k' && JsValue_eqb x y && all2 r r'
         | _, _ => false
         end) entries entries'
  | _, _ => false
  end.

(** A snapshot of an entity: its fields by name. *)
Abbreviation Snapshot := (gmap string JsValue) (only parsing).

(** The value of a field in a snapshot, [undefined] when it is absent. *)
Definition valueAt (snapshot : Snapshot) (field : string) : JsValue :=
  default JUndefined (snapshot !! field).

(** The field is present in at least one of the snapshots and its values
    differ under value equality. *)
Definition differAt (before after : Snapshot) (field : string) : Prop :=
  (is_Some (before !! field) \/ is_Some (after !! field))
  /\ JsValue_eqb (valueAt before field) (valueAt after field) = false.

(** Modelled from the spec: the diff computation of the audit recorder
    (section 4.5), which is not under src/, where [createAuditLog] stores the
    [changes] map its caller supplies and nothing computes one.  For every
    field present in either snapshot, if the values differ under value
    equality, [changes[field] = {before, after}]; fields absent from both
    and unchanged fields are skipped. *)
Definition auditDiff (before after : Snapshot) : gmap string (JsValue * JsValue) :=
  merge
    (fun b a =>
       if JsValue_eqb (default JUndefined b) (default JUndefined a) then None
       else Some (default JUndefined b, default JUndefined a))
    before after.

End AuditSpec.
Import AuditSpec.

Module TenantSpec.

(** The path lies under [orgs/{orgId}/]. *)
Definition underOrg (orgId path : string) : bool :=
  Stdlib.Strings.String.prefix ("orgs/" +:+ orgId +:+ "/") path.

(** An organization id that is one segment of a path: it has no slash. *)
Definition oneSegment (orgId : string) : bool :=
  forallb (fun c => negb (Ascii.eqb c "/")) (list_ascii_of_string orgId).

(** The documents whose path is not under [orgs/{orgId}/] are the same in
    the two stores. *)
Definition sameOutside (orgId : string) (s s' : Db.t) : Prop :=
  forall r, underOrg orgId (Db.refPath r) = false ->
    Db.users s' !! r = Db.users s !! r
    /\ Db.teams s' !! r = Db.teams s !! r
    /\ Db.projects s' !! r = Db.projects s !! r
    /\ Db.tasks s' !! r = Db.tasks s !! r
    /\ Db.comments s' !! r = Db.comments s !! r
    /\ Db.auditLogs s' !! r = Db.auditLogs s !! r
    /\ Db.reminderSettings s' !! r = Db.reminderSettings s !! r.

(** Whatever its outcome, [m] leaves every document outside
    [orgs/{orgId}/] as it was, and adds none there. *)
Definition writesUnder (orgId : string) {A} (m : Async A) : Prop :=
  forall w, sameOutside orgId (db w) (db (snd (m w))).

(** Whatever its outcome, [m] leaves the store as it was. *)
Definition readsOnly {A} (m : Async A) : Prop :=
  forall w, db (snd (m w)) = db w.

(** With the store reachable, [m] gives the document stored in the
    collection [path] under [id], or nothing when there is none. *)
Definition resolvesAt {D T} (K : Db.Kind D) (mk : string -> D -> T)
    (path id : string) (m : Async (option T)) : Prop :=
  forall w, sdkFault w = None ->
    m w = (Return (option_map (mk id) (Db.docs K (db w) !! (path, id))), w).

(** Every item [m] returns is a document stored in the collection [path],
    under the item's id. *)
Definition listsFrom {D T} (K : Db.Kind D) (idOf : T -> string) (dataOf : T -> D)
    (path : string) (m : Async (list T)) : Prop :=
  forall w items, fst (m w) = Return items ->
    forall x, In x items -> Db.docs K (db w) !! (path, idOf x) = Some (dataOf x).

(** A notification either hands [callback] items that are documents stored
    in the collection [path], or fails before [callback] is called. *)
Definition notifiesFrom {D T} (K : Db.Kind D) (idOf : T -> string) (dataOf : T -> D)
    (path : string) (subscribe : (list T -> Async unit) -> Async unit) : Prop :=
  forall callback w,
    (exists items,
       subscribe callback w = callback items w
       /\ forall x, In x items -> Db.docs K (db w) !! (path, idOf x) = Some (dataOf x))
    \/ (exists e, subscribe callback w = (Throw e, w)).

End TenantSpec.
Import TenantSpec.

(** * Further code of the same files *)

(** ** contexts/AuthContext.tsx: [signOut] and [refreshUser] of the provider *)

Module AuthProvider.

(** [signOut()] of the context value. *)
Definition signOut : Async unit :=
  tryCatch (Auth.signOut;; setUser None;; setFirebaseUser None)
    (fun err => throw err).

(** [refreshUser()] *)
Definition refreshUser : Async unit :=
  ctx ← getContext;
  match Ui.firebaseUser ctx with
  | Some firebaseUser => loadUserData firebaseUser
  | None => mret ()
  end.

End AuthProvider.

(** ** lib/firebase/firestore.ts: further reads, deletions and comments *)

Module DataLayer.

(** The documents of a query without [orderBy] come ordered by id. *)
Definition byId {D} (snapshot : list (string * D)) : list (string * D) :=
  sortBy (fun a b => String.leb (fst a) (fst b)) snapshot.

(** [getUserByEmail(orgId, email)]: [where('email', '==',
    email.toLowerCase())], [limit(1)]. *)
Definition getUserByEmail (orgId email : string) : Async (option User.t) :=
  snapshot ← getDocs Db.userDocs (getUsersPath orgId);
  match
    List.filter (fun d => String.eqb (User.email (snd d)) (toLowerCase email))
      (byId snapshot)
  with
  | [] => mret None
  | d :: _ => mret (Some (User.mk (fst d) (snd d)))
  end.

Definition getTeamById (orgId teamId : string) : Async (option Team.t) :=
  docSnap ← getDoc Db.teamDocs (doc (getTeamsPath orgId) teamId);
  mret (option_map (Team.mk teamId) docSnap).

Definition deleteTeam (orgId teamId : string) : Async unit :=
  deleteDoc Db.teamDocs (doc (getTeamsPath orgId) teamId).

Definition getProjectById (orgId projectId : string) : Async (option Project.t) :=
  docSnap ← getDoc Db.projectDocs (doc (getProjectsPath orgId) projectId);
  mret (option_map (Project.mk projectId) docSnap).

Definition deleteProject (orgId projectId : string) : Async unit :=
  deleteDoc Db.projectDocs (doc (getProjectsPath orgId) projectId).

Definition deleteTask (orgId taskId : string) : Async unit :=
  deleteDoc Db.taskDocs (doc (getTasksPath orgId) taskId).

(** [getOverdueTasks(orgId, assigneeId?)]: [where('status', 'in', ['backlog',
    'in_progress', 'blocked'])], [where('dueDate', '<', Timestamp.now())],
    [orderBy('dueDate', 'asc')], and [where('assigneeIds', 'array-contains',
    assigneeId)] when an assignee is given.  A task without a due date
    matches no comparison on [dueDate]; tasks with the same due date come in
    the order of their ids. *)
Definition getOverdueTasks (orgId : string) (assigneeId : option string)
  : Async (list Task.t) :=
  now ← Timestamp_now;
  snapshot ← getDocs Db.taskDocs (getTasksPath orgId);
  let matching (d : string * Task.doc) : option (Timestamp * Task.t) :=
    match Task.dueDate (snd d) with
    | Some due =>
        if includes ["backlog"; "in_progress"; "blocked"] (Task.status (snd d))
           && (due <? now)
           && match truthy assigneeId with
              | Some a => includes (Task.assigneeIds (snd d)) a
              | None => true
              end
        then Some (due, Task.mk (fst d) (snd d))
        else None
    | None => None
    end in
  mret (map snd (sortBy (fun a b => fst a <=? fst b) (omap matching (byId snapshot)))).

(** [createComment(orgId, taskId, content, authorId, mentions?)].  The
    literal has [mentions], which is [undefined] when the call leaves the
    argument out. *)
Definition createComment (orgId taskId content authorId : string)
    (mentions : option (list string)) : Async Comment.t :=
  now ← Timestamp_now;
  commentRef ← newDocRef (getCommentsPath orgId taskId);
  let comment :=
    {| Comment.orgId := orgId;
       Comment.taskId := taskId;
       Comment.content := content;
       Comment.authorId := authorId;
       Comment.mentions := mentions;
       Comment.createdAt := now;
       Comment.updatedAt := now |} in
  setDocLiteral Db.commentDocs commentRef comment
    [("mentions", defined mentions)];;
  mret (Comment.mk (snd commentRef) comment).

Definition deleteComment (orgId taskId commentId : string) : Async unit :=
  deleteDoc Db.commentDocs (doc (getCommentsPath orgId taskId) commentId).

(** [updateTeam(orgId, teamId, data)]: [{ ...data, updatedAt: Timestamp.now() }] *)
Definition updateTeam (orgId teamId : string) (data : Team.partial) : Async unit :=
  now ← Timestamp_now;
  updateDoc Db.teamDocs Team.applyPatch (doc (getTeamsPath orgId) teamId) (data, now).

(** [updateProject(orgId, projectId, data)] *)
Definition updateProject (orgId projectId : string) (data : Project.partial)
  : Async unit :=
  now ← Timestamp_now;
  updateDoc Db.projectDocs Project.applyPatch (doc (getProjectsPath orgId) projectId)
    (data, now).

(** [getReminderSettings(orgId, scope)] *)
Definition getReminderSettings (orgId scope : string)
  : Async (option ReminderSettings.t) :=
  docSnap ←
    getDoc Db.reminderSettingsDocs (doc (getReminderSettingsPath orgId) scope);
  mret (option_map (ReminderSettings.mk scope) docSnap).

(** [updateReminderSettings(orgId, scopeId, data)]:
    [{ ...data, orgId, updatedAt: Timestamp.now() }], merged. *)
Definition updateReminderSettings (orgId scopeId : string)
    (data : ReminderSettings.partial) : Async unit :=
  now ← Timestamp_now;
  setDocMerge Db.reminderSettingsDocs (ReminderSettings.merged data orgId now)
    (doc (getReminderSettingsPath orgId) scopeId).

End DataLayer.

(** ** lib/firebase/firestore.ts: the listings with filters, and the
    subscriptions *)

Module Query.

(** What a [where] compares a field with. *)
Inductive Operand :=
| Str (s : string)
| Strs (l : list string)
| Time (t : Timestamp).

Inductive Direction := asc | desc.

(** [QueryConstraint]: [where(field, op, value)], [orderBy(field,
    direction)], [limit(n)] and [startAfter(snapshot)], the snapshot being
    given by the reference of its document. *)
Inductive QueryConstraint :=
| where_ (field op : string) (value : Operand)
| orderBy (field : string) (direction : Direction)
| limit (n : Z)
| startAfter (cursor : Db.DocRef).

(** The store's evaluation of a query: from the documents of the collection
    queried, with their ids, and the constraints, the documents of the
    snapshot in its order, or the error the query is refused with (a
    constraint may be invalid, or the query may need an index that is
    missing). *)
Definition Engine : Type :=
  forall D : Type, Db.Kind D -> list QueryConstraint -> list (string * D) ->
                   Completion (list (string * D)).

(** A snapshot holds documents of the collection queried. *)
Definition selects (evaluate : Engine) : Prop :=
  forall (D : Type) (K : Db.Kind D) constraints documents snapshot,
    evaluate D K constraints documents = Return snapshot ->
    forall d, In d snapshot -> In d documents.

(** [constraints.push(c)] under [if (value)]. *)
Definition pushIf {A} (value : option A) (c : A -> QueryConstraint)
  : list QueryConstraint :=
  match value with
  | Some a => [c a]
  | None => []
  end.

End Query.

Module Queries.

Import Query.

(** [filters] of [getUsers] *)
Record UserFilters := mkUserFilters {
  uf_role : option string;
  uf_status : option string;
  uf_teamId : option string
}.

(** [filters] of [getProjects] *)
Record ProjectFilters := mkProjectFilters {
  pf_managerId : option string;
  pf_teamId : option string;
  pf_status : option string;
  pf_memberId : option string
}.

(** [status?: string | string[]] *)
Inductive StatusFilter :=
| OneStatus (status : string)
| AnyStatus (statuses : list string).

(** [filters] and [pagination] of [getTasks] *)
Record TaskFilters := mkTaskFilters {
  tf_assigneeId : option string;
  tf_projectId : option string;
  tf_teamId : option string;
  tf_status : option StatusFilter;
  tf_priority : option string;
  tf_dueBefore : option Z;
  tf_dueAfter : option Z
}.

Record Pagination := mkPagination {
  pg_limit : option Z;
  pg_startAfter : option Db.DocRef
}.

(** [filters] of [getAuditLogs] *)
Record AuditLogFilters := mkAuditLogFilters {
  af_entityType : option string;
  af_entityId : option string;
  af_actorId : option string;
  af_startDate : option Z;
  af_endDate : option Z
}.

(** A number under [if]: zero counts as absent. *)
Definition truthyNumber (n : option Z) : option Z :=
  match n with
  | Some v => if v =? 0 then None else Some v
  | None => None
  end.

(** [Array.prototype.sort] with a compare function that is consistent, as
    [localeCompare] is: the sort is stable. *)
Definition sortWith {A} (compare : A -> A -> Z) (l : list A) : list A :=
  sortBy (fun a b => compare a b <=? 0) l.

Section Store.

(** The query evaluation of the Firestore service and the run time's
    [String.prototype.localeCompare]. *)
Variable evaluate : Engine.
Variable localeCompare : string -> string -> Z.

(** [getDocs(query(collection(db, path), ...constraints))] *)
Definition getDocsWhere {D} (K : Db.Kind D) (collectionPath : string)
    (constraints : list QueryConstraint) : Async (list (string * D)) :=
  documents ← getDocs K collectionPath;
  ((fun w => (evaluate D K constraints documents, w)) : Async (list (string * D))).

(** [getUsers(orgId, filters?)] *)
Definition getUsers (orgId : string) (filters : option UserFilters)
  : Async (list User.t) :=
  let constraints :=
    pushIf (truthy (filters ≫= uf_role)) (fun role => where_ "role" "==" (Str role))
    ++ pushIf (truthy (filters ≫= uf_status))
         (fun status => where_ "status" "==" (Str status))
    ++ pushIf (truthy (filters ≫= uf_teamId))
         (fun teamId => where_ "teamIds" "array-contains" (Str teamId))
    ++ [orderBy "displayName" asc] in
  snapshot ← getDocsWhere Db.userDocs (getUsersPath orgId) constraints;
  mret (map (fun d => User.mk (fst d) (snd d)) snapshot).

(** [getTeams(orgId, managerId?)] *)
Definition getTeams (orgId : string) (managerId : option string)
  : Async (list Team.t) :=
  snapshot ←
    match truthy managerId with
    | Some managerId =>
        getDocsWhere Db.teamDocs (getTeamsPath orgId)
          [where_ "managerIds" "array-contains" (Str managerId)]
    | None => getDocsWhere Db.teamDocs (getTeamsPath orgId) []
    end;
  let teams := map (fun d => Team.mk (fst d) (snd d)) snapshot in
  (* Sort client-side to avoid composite index requirement *)
  mret (sortWith (fun a b => localeCompare (Team.name (Team.data a))
                               (Team.name (Team.data b))) teams).

(** [getProjects(orgId, filters?)] *)
Definition getProjects (orgId : string) (filters : option ProjectFilters)
  : Async (list Project.t) :=
  let constraints :=
    pushIf (truthy (filters ≫= pf_managerId))
      (fun managerId => where_ "managerIds" "array-contains" (Str managerId))
    ++ pushIf (truthy (filters ≫= pf_teamId))
         (fun teamId => where_ "teamId" "==" (Str teamId))
    ++ pushIf (truthy (filters ≫= pf_status))
         (fun status => where_ "status" "==" (Str status))
    ++ pushIf (truthy (filters ≫= pf_memberId))
         (fun memberId => where_ "memberIds" "array-contains" (Str memberId)) in
  snapshot ← getDocsWhere Db.projectDocs (getProjectsPath orgId) constraints;
  let projects := map (fun d => Project.mk (fst d) (snd d)) snapshot in
  (* Sort client-side *)
  mret (sortWith (fun a b => localeCompare (Project.name (Project.data a))
                               (Project.name (Project.data b))) projects).

(** [getTasks(orgId, filters?, pagination?)].  An array of statuses counts
    as present even when it is empty. *)
Definition getTasks (orgId : string) (filters : option TaskFilters)
    (pagination : option Pagination) : Async (list Task.t) :=
  let constraints :=
    pushIf (truthy (filters ≫= tf_assigneeId))
      (fun assigneeId => where_ "assigneeIds" "array-contains" (Str assigneeId))
    ++ pushIf (truthy (filters ≫= tf_projectId))
         (fun projectId => where_ "projectId" "==" (Str projectId))
    ++ pushIf (truthy (filters ≫= tf_teamId))
         (fun teamId => where_ "teamId" "==" (Str teamId))
    ++ match filters ≫= tf_status with
       | Some (AnyStatus statuses) => [where_ "status" "in" (Strs statuses)]
       | Some (OneStatus status) =>
           pushIf (truthy (Some status)) (fun status => where_ "status" "==" (Str status))
       | None => []
       end
    ++ pushIf (truthy (filters ≫= tf_priority))
         (fun priority => where_ "priority" "==" (Str priority))
    ++ pushIf (filters ≫= tf_dueBefore)
         (fun dueBefore => where_ "dueDate" "<=" (Time (Timestamp_fromDate dueBefore)))
    ++ pushIf (filters ≫= tf_dueAfter)
         (fun dueAfter => where_ "dueDate" ">=" (Time (Timestamp_fromDate dueAfter)))
    ++ [orderBy "dueDate" asc]
    ++ pushIf (truthyNumber (pagination ≫= pg_limit)) limit
    ++ pushIf (pagination ≫= pg_startAfter) startAfter in
  snapshot ← getDocsWhere Db.taskDocs (getTasksPath orgId) constraints;
  mret (map (fun d => Task.mk (fst d) (snd d)) snapshot).

(** [getAuditLogs(orgId, filters?, pageLimit = 50)] *)
Definition getAuditLogs (orgId : string) (filters : option AuditLogFilters)
    (pageLimit : option Z) : Async (list AuditLog.t) :=
  let constraints :=
    pushIf (truthy (filters ≫= af_entityType))
      (fun entityType => where_ "entityType" "==" (Str entityType))
    ++ pushIf (truthy (filters ≫= af_entityId))
         (fun entityId => where_ "entityId" "==" (Str entityId))
    ++ pushIf (truthy (filters ≫= af_actorId))
         (fun actorId => where_ "actorId" "==" (Str actorId))
    ++ pushIf (filters ≫= af_startDate)
         (fun startDate => where_ "createdAt" ">=" (Time (Timestamp_fromDate startDate)))
    ++ pushIf (filters ≫= af_endDate)
         (fun endDate => where_ "createdAt" "<=" (Time (Timestamp_fromDate endDate)))
    ++ [orderBy "createdAt" desc; limit (default 50 pageLimit)] in
  snapshot ← getDocsWhere Db.auditLogDocs (getAuditLogsPath orgId) constraints;
  mret (map (fun d => AuditLog.mk (fst d) (snd d)) snapshot).

(** One notification of the listener that [subscribeToTasks(orgId,
    assigneeId, callback)] registers with [onSnapshot]: the tasks of the
    query's snapshot at that time are handed to [callback]. *)
Definition subscribeToTasks (orgId assigneeId : string)
    (callback : list Task.t -> Async unit) : Async unit :=
  snapshot ←
    getDocsWhere Db.taskDocs (getTasksPath orgId)
      [where_ "assigneeIds" "array-contains" (Str assigneeId); orderBy "dueDate" asc];
  callback (map (fun d => Task.mk (fst d) (snd d)) snapshot).

(** One notification of the listener of [subscribeToComments(orgId, taskId,
    callback)]. *)
Definition subscribeToComments (orgId taskId : string)
    (callback : list Comment.t -> Async unit) : Async unit :=
  snapshot ←
    getDocsWhere Db.commentDocs (getCommentsPath orgId taskId)
      [orderBy "createdAt" asc];
  callback (map (fun d => Comment.mk (fst d) (snd d)) snapshot).

End Store.

End Queries.

(** ** A second organization, for closed examples *)

Module Tenants.

Definition managerOne : FirebaseUser :=
  mkFirebaseUser "m1" (Some "m1@company.com") (Some "Manager One") None.

(** The example world after m1, a manager of the organization
    [default-org], has signed in and the listener has loaded the account. *)
Definition managerOneSignedIn : World :=
  snd (onAuthChange (Some managerOne) (sessionOf managerOne)).

(** The data of a task of the organization [acme]. *)
Definition acmeTask : CreateTaskData.t :=
  CreateTaskData.mk "Quarterly plan" (Some "For the board") (Some "p7") (Some "tm7")
    ["a7"] high (Some 1700500000000) None.

(** A query evaluation that gives the whole collection, whatever the
    constraints. *)
Definition wholeCollection : Query.Engine :=
  fun D K constraints documents => Return documents.

End Tenants.

(** ** The small organization with a discussion and due dates *)

Module Discussion.

Definition commentDoc (content authorId : string) (createdAt : Timestamp)
  : Comment.doc :=
  Comment.mkDoc defaultOrgId "t1" content authorId None createdAt createdAt.

Definition datedTask (title : string) (assignees : list string) (status : string)
    (due : option Timestamp) : Task.doc :=
  Task.mkDoc defaultOrgId title None None None assignees status medium due []
    None None None "m1" 1695000000000 1695000000000 None.

(** The example organization, with two comments on task t1 (the one stored
    under the smaller id being the later one), and tasks with due dates:
    t3 and t4 are past due at the first clock reading, t5 is past due but
    done, t6 is due later, t1 and t2 have no due date. *)
Definition discussionDb : Db.t :=
  Db.mk (Db.users exampleDb) ∅ ∅
    (list_to_map
       [ ((getTasksPath defaultOrgId, "t1"), taskDoc "Write report" ["e1"] "backlog");
         ((getTasksPath defaultOrgId, "t2"), taskDoc "Fix build" ["e2"] "blocked");
         ((getTasksPath defaultOrgId, "t3"),
          datedTask "File expenses" ["e1"] "in_progress" (Some 1699999000000));
         ((getTasksPath defaultOrgId, "t4"),
          datedTask "Book venue" ["e2"] "backlog" (Some 1699000000000));
         ((getTasksPath defaultOrgId, "t5"),
          datedTask "Send invoice" ["e1"] "done" (Some 1698000000000));
         ((getTasksPath defaultOrgId, "t6"),
          datedTask "Plan offsite" ["e1"] "backlog" (Some 1800000000000)) ])
    (list_to_map
       [ ((getCommentsPath defaultOrgId "t1", "c1"),
          commentDoc "Second remark" "e1" 1699000300000);
         ((getCommentsPath defaultOrgId "t1", "c2"),
          commentDoc "First remark" "m1" 1699000100000) ])
    ∅ ∅.

Definition discussionWorld : World :=
  mkWorld discussionDb None exampleClock 0 exampleIds 0 None Ui.initial.

End Discussion.
Import Discussion.

(** ** lib/firebase/firestore-rest.ts: documents and the REST client *)

(** Strings are taken over the ASCII characters, one character for one
    code unit; the case conversions below are those of the run time on
    them. *)
Module JsString.

(** [String.prototype.split] with a separator of one character: the
    segments between the separators, at least one. *)
Fixpoint split (sep : ascii) (s : string) : list string :=
  match s with
  | EmptyString => [EmptyString]
  | String c s' =>
      if Ascii.eqb c sep then EmptyString :: split sep s'
      else match split sep s' with
           | segment :: segments => String c segment :: segments
           | [] => [String c EmptyString]
           end
  end.

(** [Array.prototype.join] *)
Fixpoint join (sep : string) (l : list string) : string :=
  match l with
  | [] => EmptyString
  | [s] => s
  | s :: l' => s +:+ sep +:+ join sep l'
  end.

(** [String.prototype.toUpperCase] on ASCII letters. *)
Fixpoint toUpperCase (s : string) : string :=
  match s with
  | EmptyString => EmptyString
  | String c s' =>
      let n := nat_of_ascii c in
      String (if ((97 <=? n) && (n <=? 122))%nat then ascii_of_nat (n - 32) else c)
        (toUpperCase s')
  end.

(** The first [n] characters. *)
Fixpoint takeChars (n : nat) (s : string) : string :=
  match n, s with
  | S n', String c s' => String c (takeChars n' s')
  | _, _ => EmptyString
  end.

(** [s.substring(0, end)] for an integer [end]: a negative [end] counts as
    0, one beyond the length as the length. *)
Definition substring0 (s : string) (end_ : Z) : string :=
  takeChars (Z.to_nat end_) s.

End JsString.

Module Rest.

(** [interface FirestoreDocument]; [fields] is read as [doc.fields || {}]. *)
Record FirestoreDocument := mkFirestoreDocument {
  name : string;
  fields : option (list (string * FirestoreValue));
  createTime : string;
  updateTime : string
}.

(** What the client hands to [fetch]: the URL and, of the options, the
    method, the [Authorization] header and the fields of the JSON body. *)
Record Request := mkRequest {
  url : string;
  method : string;
  authorization : string;
  body : option (list (string * FirestoreValue))
}.

(** What the client reads of a [Response]: the status, and the outcomes
    of [text()] and of [json()] taken as a [FirestoreDocument]. *)
Record Response := mkResponse {
  status : Z;
  text : Completion string;
  json : Completion FirestoreDocument
}.

(** [response.ok]: a status from 200 to 299. *)
Definition ok (response : Response) : bool :=
  (200 <=? status response) && (status response <=? 299).

(** A completion as an asynchronous computation. *)
Definition settle {A} (c : Completion A) : Async A := fun w => (c, w).

(** Vocabulary: some [Date] of the value, outside the fields named [id], is
    invalid. *)
Fixpoint hasInvalidDate (v : JsValue) : bool :=
  match v with
  | JDate None => true
  | JArray items => existsb hasInvalidDate items
  | JObject entries => existsb (fun kv => notId kv && hasInvalidDate (snd kv)) entries
  | _ => false
  end.

Section Client.

Variable Date_toISOString : Z -> string.
Variable Date_parse : string -> option Z.

(** [firebaseConfig.projectId]: the environment's value, or the empty
    string. *)
Variable projectId : string.

(** The run time's [fetch]. *)
Variable fetch : Request -> Async Response.

(** [parseFirestoreDocument(doc)] *)
Definition parseFirestoreDocument (doc : FirestoreDocument)
  : list (string * JsValue) :=
  let result := parseFields Date_parse (default [] (fields doc)) [] in
  (* Extract document ID from name *)
  let pathParts := JsString.split "/" (name doc) in
  obj_set result "id" (JString (List.last pathParts EmptyString)).

Definition documentUrl (collectionPath documentId : string) : string :=
  "https://firestore.googleapis.com/v1/projects/" +:+ projectId
  +:+ "/databases/(default)/documents/" +:+ collectionPath +:+ "/" +:+ documentId.

Definition restError (response : Response) (errorText : string) : string :=
  "Firestore REST API error: " +:+ Number_toString (status response)
  +:+ " - " +:+ errorText.

(** [getDocumentViaRest(collectionPath, documentId, idToken)] *)
Definition getDocumentViaRest (collectionPath documentId idToken : string)
  : Async (option (list (string * JsValue))) :=
  if String.eqb projectId EmptyString
  then throw "Firebase projectId is not configured"
  else
    tryCatch
      (response ←
         fetch (mkRequest (documentUrl collectionPath documentId) "GET"
                  ("Bearer " +:+ idToken) None);
       if status response =? 404 then mret None
       else if negb (ok response) then
         errorText ← settle (text response);
         throw (restError response errorText)
       else
         doc ← settle (json response);
         mret (Some (parseFirestoreDocument doc)))
      (fun error => throw error).

(** [setDocumentViaRest(collectionPath, documentId, data, idToken)] *)
Definition setDocumentViaRest (collectionPath documentId : string)
    (data : list (string * JsValue)) (idToken : string)
  : Async (list (string * JsValue)) :=
  if String.eqb projectId EmptyString
  then throw "Firebase projectId is not configured"
  else
    (* Convert data to Firestore format *)
    fields ← settle (toFirestoreFields Date_toISOString data);
    response ←
      fetch (mkRequest (documentUrl collectionPath documentId) "PATCH"
               ("Bearer " +:+ idToken) (Some fields));
    if negb (ok response) then
      errorText ← settle (text response);
      throw (restError response errorText)
    else
      doc ← settle (json response);
      mret (parseFirestoreDocument doc).

End Client.

End Rest.

Module RestExamples.

(** A server that stores what it is sent and answers with the stored
    document, named by the path of the request. *)
Definition echoServer (request : Rest.Request) : Async Rest.Response :=
  mret (Rest.mkResponse 200 (Return EmptyString)
          (Return (Rest.mkFirestoreDocument (Rest.url request) (Rest.body request)
                     "2023-11-14T22:13:20.000Z" "2023-11-14T22:13:20.000Z"))).

(** A server that answers every request with the given status and text. *)
Definition failingServer (status : Z) (text : string) (request : Rest.Request)
  : Async Rest.Response :=
  mret (Rest.mkResponse status (Return text) (Throw "Unexpected end of JSON input")).

End RestExamples.

(** ** lib/utils/helpers.ts: text helpers *)

Module TextHelpers.

(** [isValidEmailDomain(email, allowedDomains)]: [email.split('@')[1]] is
    undefined for an address without an at sign, and then equals no
    domain. *)
Definition isValidEmailDomain (email : string) (allowedDomains : list string) : bool :=
  let domain := option_map toLowerCase (JsString.split "@" email !! 1%nat) in
  existsb (fun d => bool_decide (domain = Some (toLowerCase d))) allowedDomains.

(** [truncate(text, maxLength)] for an integer [maxLength] and an ASCII
    [text], whose [length] is its number of characters. *)
Definition truncate (text : string) (maxLength : Z) : string :=
  if Z.of_nat (String.length text) <=? maxLength then text
  else JsString.substring0 text (maxLength - 3) +:+ "...".

(** [n[0]] as [join] renders it: the first character, nothing for an empty
    string. *)
Definition firstCharacter (n : string) : string :=
  match n with
  | String c _ => String c EmptyString
  | EmptyString => EmptyString
  end.

(** [getInitials(name)] *)
Definition getInitials (name : string) : string :=
  JsString.substring0
    (JsString.toUpperCase
       (JsString.join EmptyString (map firstCharacter (JsString.split " " name))))
    2.

End TextHelpers.

(** ** lib/firebase/auth.ts: registration *)

Module Registration.

(** [APP_CONFIG.allowedEmailDomains] *)
Definition allowedEmailDomains : list string := ["tsb.com.vn"; "company.com"; "gmail.com"].

(** [validateEmailDomain(email)] *)
Definition validateEmailDomain (email : string) : bool :=
  TextHelpers.isValidEmailDomain email allowedEmailDomains.

Section IdentityProvider.

(** The identity provider's calls: [createUserWithEmailAndPassword] giving
    the new user, [updateProfile] giving the user as it is after the update,
    and [sendEmailVerification]. *)
Variable createUserWithEmailAndPassword : string -> string -> Async FirebaseUser.
Variable updateProfile : FirebaseUser -> string -> Async FirebaseUser.
Variable sendEmailVerification : FirebaseUser -> Async unit.

(** [registerUser(email, password, displayName)].  [getAuth()] does not
    throw: the [auth] it tests is initialised to an object in
    [lib/firebase/config.ts] and never set to [null]. *)
Definition registerUser (email password displayName : string) : Async FirebaseUser :=
  if negb (validateEmailDomain email) then
    throw ("Email must be from one of the allowed domains: "
           +:+ JsString.join ", " allowedEmailDomains)
  else
    user ← createUserWithEmailAndPassword email password;
    (* Update display name *)
    user ← updateProfile user displayName;
    (* Send verification email *)
    sendEmailVerification user;;
    mret user.

End IdentityProvider.

End Registration.

(** ** components/layout/Sidebar.tsx and the dashboard layout *)

Module Navigation.

(** [interface NavItem]; a flag that is left out counts as false. *)
Record NavItem := mkNavItem {
  label : string;
  href : string;
  adminOnly : bool;
  managerOnly : bool
}.

Definition navItems : list NavItem :=
  [ mkNavItem "Dashboard" "/dashboard" false false;
    mkNavItem "Tasks" "/tasks" false false;
    mkNavItem "Calendar" "/calendar" false false;
    mkNavItem "Reports" "/reports" false true;
    mkNavItem "Analytics" "/analytics" true false;
    mkNavItem "Teams" "/teams" false true;
    mkNavItem "Projects" "/projects" false true;
    mkNavItem "Users" "/users" true false;
    mkNavItem "Audit Logs" "/audit-logs" true false;
    mkNavItem "Settings" "/settings" false false ].

(** [filteredNavItems] of the sidebar, for the context it is rendered
    in. *)
Definition filteredNavItems (ctx : Ui.AuthContext) : list NavItem :=
  let isAdmin := useIsAdmin ctx in
  let isManager := useIsManager ctx in
  List.filter
    (fun item =>
       if adminOnly item && negb isAdmin then false
       else if managerOnly item && negb isManager then false
       else true)
    navItems.

(** What [DashboardLayout] renders: the page loader, the access-denied
    screen with the error, or the shell around the page. *)
Inductive View :=
| PageLoader
| AccessDenied (error : string)
| Shell (isEmployee : bool).

(** The render of [DashboardLayout], as far as it depends on the auth
    context. *)
Definition DashboardLayout (ctx : Ui.AuthContext) : View :=
  (* Show loader while checking auth *)
  if Ui.loading ctx then PageLoader
  else
    (* Show error state *)
    match truthy (Ui.error ctx) with
    | Some error => AccessDenied error
    | None =>
        match Ui.user ctx with
        | None => PageLoader
        | Some user =>
            Shell (bool_decide (User.role (User.data (Ui.profile user)) = employee))
        end
    end.

(** The effect of [DashboardLayout]: redirect if not authenticated. *)
Definition redirectIfNotAuthenticated : Async unit :=
  ctx ← getContext;
  if negb (Ui.loading ctx) && negb (bool_decide (is_Some (Ui.user ctx)))
  then router_push "/login"
  else mret ().

End Navigation.

(** ** lib/constants.ts: the transition table as a relation *)

Module Transitions.

(** [TASK_STATUS_TRANSITIONS[from].includes(to)], false for a status
    the table has no entry for. *)
Definition allowed (from to : string) : bool :=
  match record_get TASK_STATUS_TRANSITIONS from with
  | Some allowedTransitions => includes allowedTransitions to
  | None => false
  end.

(** A status that can be reached through allowed transitions. *)
Inductive reachable : string -> string -> Prop :=
| reach_here (s : string) : reachable s s
| reach_step (s t u : string) : allowed s t = true -> reachable t u -> reachable s u.

End Transitions.

(** * Properties *)

(** ** Decimal rendering and [parseInt] *)

Section Rounding.

Lemma toNumber_small (z : Z) :
  Z.abs z < 2 ^ 53 -> toNumber z = z.
Proof.
  intros Hz. unfold toNumber.
  destruct (Z.ltb_spec (Z.abs z) (2 ^ 53)); [reflexivity|lia].
Qed.

Lemma toNumber_opp (z : Z) :
  toNumber (- z) = - toNumber z.
Proof.
  unfold toNumber. rewrite Z.abs_opp, Z.sgn_opp.
  destruct (Z.abs z <? 2 ^ 53); [reflexivity|]. cbv zeta.
  rewrite Z.mul_opp_l. reflexivity.
Qed.

(** At 2^53 and beyond rounding stays at or above the power of two below
    the number. *)
Lemma toNumber_large (a : Z) :
  2 ^ 53 <= a ->
  exists e s, 1 <= e /\ e = Z.log2 a - 52 /\ a / 2 ^ e <= s
    /\ toNumber a = s * 2 ^ e /\ 2 ^ 52 <= a / 2 ^ e.
Proof.
  intros Ha.
  assert (Hpos : 0 < a) by (pose proof (Z.pow_pos_nonneg 2 53); lia).
  assert (Hlog : 53 <= Z.log2 a) by (apply Z.log2_le_pow2; assumption).
  destruct (Z.log2_spec a Hpos) as [Hlo Hhi].
  unfold toNumber. rewrite (Z.abs_eq a) by lia.
  destruct (Z.ltb_spec a (2 ^ 53)); [lia|]. cbv zeta.
  rewrite (Z.sgn_pos a Hpos), Z.mul_1_l.
  set (e := Z.log2 a - 52) in *.
  assert (Hulp : 0 < 2 ^ e) by (apply Z.pow_pos_nonneg; lia).
  assert (Hq : 2 ^ 52 <= a / 2 ^ e).
  { apply Z.div_le_lower_bound; [assumption|].
    rewrite <- Z.pow_add_r by lia. replace (e + 52) with (Z.log2 a) by lia.
    exact Hlo. }
  eexists e, _. split; [lia|]. split; [reflexivity|].
  split; [|split; [reflexivity|exact Hq]].
  destruct (2 * (a mod 2 ^ e) <? 2 ^ e); [lia|].
  destruct (2 ^ e <? 2 * (a mod 2 ^ e)); [lia|].
  destruct (Z.even (a / 2 ^ e)); lia.
Qed.

Lemma toNumber_large_ge (a : Z) :
  2 ^ 53 <= a -> 2 ^ 53 <= toNumber a.
Proof.
  intros Ha. destruct (toNumber_large a Ha) as (e & s & He & _ & Hs & -> & Hq).
  assert (Hulp : 2 ^ 1 <= 2 ^ e) by (apply Z.pow_le_mono_r; lia).
  change (2 ^ 1) with 2 in Hulp. change (2 ^ 53) with (2 ^ 52 * 2).
  apply Z.mul_le_mono_nonneg; lia.
Qed.

Lemma toNumber_pos (c : Z) :
  0 < toNumber c -> 0 < c.
Proof.
  intros Hc. destruct (Z.lt_trichotomy c 0) as [Hn|[->|Hp]]; [|discriminate|exact Hp].
  exfalso. destruct (Z.le_gt_cases (2 ^ 53) (- c)) as [Hbig|Hsmall].
  - pose proof (toNumber_large_ge (- c) Hbig) as H.
    rewrite toNumber_opp in H. change (2 ^ 53) with 9007199254740992 in H. lia.
  - rewrite toNumber_small in Hc by lia. lia.
Qed.

(** Only the integer itself reads as a double below 2^53. *)
Lemma toNumber_safe (c v : Z) :
  0 < v < 2 ^ 53 -> toNumber c = v -> c = v.
Proof.
  intros Hv Hc.
  assert (Hpos : 0 < c) by (apply toNumber_pos; lia).
  destruct (Z.le_gt_cases (2 ^ 53) c) as [Hbig|Hsmall].
  - pose proof (toNumber_large_ge c Hbig). lia.
  - rewrite toNumber_small in Hc by lia. exact Hc.
Qed.

(** From 10^21 on a decimal reads as a double that is at least 10^21. *)
Lemma toNumber_ge_1e21 (c : Z) :
  10 ^ 21 <= c -> 10 ^ 21 <= toNumber c.
Proof.
  intros Hc.
  assert (Hbig : 2 ^ 53 <= c)
    by (change (2 ^ 53) with 9007199254740992;
        change (10 ^ 21) with 1000000000000000000000 in Hc; lia).
  destruct (toNumber_large c Hbig) as (e & s & He & Hlog & Hs & -> & Hq).
  assert (Hulp : 0 < 2 ^ e) by (apply Z.pow_pos_nonneg; lia).
  destruct (Z.le_gt_cases e 21) as [Hsmall|Hlarge].
  - (* 2^e divides 10^21 *)
    assert (Hdiv : 10 ^ 21 = 2 ^ (21 - e) * 5 ^ 21 * 2 ^ e).
    { rewrite <- Z.mul_assoc, (Z.mul_comm (5 ^ 21)), Z.mul_assoc.
      rewrite <- Z.pow_add_r by lia. replace (21 - e + e) with 21 by lia.
      reflexivity. }
    assert (Hfloor : 2 ^ (21 - e) * 5 ^ 21 <= c / 2 ^ e).
    { apply Z.div_le_lower_bound; [assumption|]. rewrite Z.mul_comm, <- Hdiv.
      exact Hc. }
    rewrite Hdiv. apply Z.mul_le_mono_nonneg_r; lia.
  - assert (Hpow : 2 ^ 22 <= 2 ^ e) by (apply Z.pow_le_mono_r; lia).
    apply Z.le_trans with (2 ^ 52 * 2 ^ 22); [vm_compute; discriminate|].
    apply Z.mul_le_mono_nonneg; lia.
Qed.

Lemma shortCandidate_reads (v scale c : Z) :
  shortCandidate v scale = Some c -> toNumber c = v.
Proof.
  unfold shortCandidate.
  destruct (0 <? v / scale * scale); cbn [andb];
    destruct (Z.eqb_spec (toNumber (v / scale * scale)) v);
    destruct (Z.eqb_spec (toNumber (v / scale * scale + scale)) v); cbn [andb];
    repeat match goal with |- context [if ?b then _ else _] => destruct b end;
    intros [= <-]; assumption.
Qed.

Lemma shortestFrom_reads (places : nat) (v scale : Z) :
  toNumber v = v -> toNumber (shortestFrom places v scale) = v.
Proof.
  intros Hv. revert scale. induction places as [|places IH]; intros scale;
    cbn [shortestFrom]; [exact Hv|].
  destruct (shortCandidate v scale) as [c|] eqn:E; [|apply IH].
  exact (shortCandidate_reads _ _ _ E).
Qed.

Lemma shortestDecimal_reads (m : positive) :
  isDouble (Zpos m) = true -> toNumber (shortestDecimal m) = Zpos m.
Proof.
  intros Hm. apply Z.eqb_eq in Hm. apply shortestFrom_reads. exact Hm.
Qed.
End Rounding.

Section NumberRoundTrip.

Local Open Scope string_scope.

(** Evaluate [digitValue] on the literal characters in the goal. *)
Ltac eval_digits :=
  repeat match goal with
    | |- context [digitValue ?c] =>
        let v := eval vm_compute in (digitValue c) in
        change (digitValue c) with v
    end.

Lemma parseDigits_uint_acc (d : Decimal.uint) (acc : positive) :
  parseDigits (NilEmpty.string_of_uint d) (Zpos acc) = Zpos (Pos.of_uint_acc d acc).
Proof.
  revert acc. induction d; intros acc;
    cbn [parseDigits NilEmpty.string_of_uint Pos.of_uint_acc];
    try reflexivity;
    eval_digits; cbv iota; rewrite <- IHd; f_equal; lia.
Qed.

Lemma parseDigits_uint (d : Decimal.uint) :
  parseDigits (NilEmpty.string_of_uint d) 0 = Z.of_N (Pos.of_uint d).
Proof.
  induction d; cbn [parseDigits NilEmpty.string_of_uint Pos.of_uint];
    try reflexivity; eval_digits; cbv iota;
    try exact IHd; apply (parseDigits_uint_acc d).
Qed.

(** The rendering of a positive number starts with a digit. *)
Lemma string_of_uint_head (d : Decimal.uint) :
  d <> Decimal.Nil ->
  exists c s, NilEmpty.string_of_uint d = String c s
    /\ isStrWhiteSpaceChar c = false /\ c <> "-"%char /\ c <> "+"%char
    /\ is_Some (digitValue c).
Proof.
  destruct d; intros Hd; try congruence; simpl;
    eexists _, _; (split; [reflexivity|]);
    repeat split; try discriminate; eexists; reflexivity.
Qed.

(** [parseInt] on the digits of a positive integer, after an optional
    minus sign. *)
Lemma parseInt_digits (p : positive) :
  parseInt (NilEmpty.string_of_uint (Pos.to_uint p)) = Some (toNumber (Zpos p))
  /\ parseInt (String "-" (NilEmpty.string_of_uint (Pos.to_uint p)))
     = Some (toNumber (Zneg p)).
Proof.
  pose proof (DecimalPos.Unsigned.to_uint_nonnil p) as Hn.
  destruct (string_of_uint_head _ Hn) as (c & s & E & Hws & Hm & Hp & [v Hv]).
  assert (Hsel : (match c with
                  | "-"%char => (-1, s) | "+"%char => (1, s) | _ => (1, String c s)
                  end) = (1, String c s)).
  { clear -Hm Hp. destruct c as [[] [] [] [] [] [] [] []]; try reflexivity; congruence. }
  assert (Hd : parseDigits (String c s) 0 = Zpos p).
  { rewrite <- E, parseDigits_uint, DecimalPos.Unsigned.of_to. reflexivity. }
  split.
  - unfold parseInt. rewrite E. cbn [trimStart]. rewrite Hws, Hsel, Hv, Hd.
    rewrite Z.mul_1_l. reflexivity.
  - unfold parseInt. cbn [trimStart].
    change (isStrWhiteSpaceChar "-") with false. cbv iota.
    rewrite E, Hv, Hd. reflexivity.
Qed.

Lemma string_of_uint_to_uint (p : positive) :
  NilZero.string_of_uint (Pos.to_uint p) = NilEmpty.string_of_uint (Pos.to_uint p).
Proof.
  pose proof (DecimalPos.Unsigned.to_uint_nonnil p) as Hn.
  unfold NilZero.string_of_uint. destruct (Pos.to_uint p); congruence.
Qed.

Lemma decimalDigits_neg (p : positive) :
  decimalDigits (Zneg p) = String "-" (decimalDigits (Zpos p)).
Proof. reflexivity. Qed.

Lemma parseInt_decimalDigits (n : Z) :
  parseInt (decimalDigits n) = Some (toNumber n).
Proof.
  destruct n as [|p|p].
  - reflexivity.
  - unfold decimalDigits. cbn [Z.to_int NilZero.string_of_int].
    rewrite string_of_uint_to_uint. apply parseInt_digits.
  - unfold decimalDigits. cbn [Z.to_int NilZero.string_of_int].
    rewrite string_of_uint_to_uint. apply parseInt_digits.
Qed.

(** What [String] prints for an integral double below 10^21 is the digits
    of an integer that reads back as the double. *)
Lemma Number_toString_digits (n : Z) :
  isDouble n = true -> Z.abs n < 10 ^ 21 ->
  exists c, toNumber c = n /\ Number_toString n = decimalDigits c.
Proof.
  intros Hd Hn. destruct n as [|m|m].
  - exists 0. split; reflexivity.
  - pose proof (shortestDecimal_reads m Hd) as Hc.
    exists (shortestDecimal m). split; [exact Hc|].
    unfold Number_toString.
    destruct (Z.ltb_spec (shortestDecimal m) (10 ^ 21)) as [|Hbig]; [reflexivity|].
    apply toNumber_ge_1e21 in Hbig. lia.
  - assert (Hd' : isDouble (Zpos m) = true).
    { apply Z.eqb_eq in Hd. apply Z.eqb_eq.
      change (Zpos m) with (- Zneg m). rewrite toNumber_opp, Hd. reflexivity. }
    pose proof (shortestDecimal_reads m Hd') as Hc.
    assert (Hpos : 0 < shortestDecimal m) by (apply toNumber_pos; lia).
    exists (- shortestDecimal m). split.
    + rewrite toNumber_opp, Hc. reflexivity.
    + unfold Number_toString.
      destruct (Z.ltb_spec (shortestDecimal m) (10 ^ 21)) as [|Hbig].
      * destruct (shortestDecimal m) as [|c|c]; try lia. reflexivity.
      * apply toNumber_ge_1e21 in Hbig. lia.
Qed.

(** Below 10^21 an integral double survives [String] then [parseInt]. *)
Lemma parseInt_Number_toString (n : Z) :
  isDouble n = true -> Z.abs n < 10 ^ 21 ->
  parseInt (Number_toString n) = Some n.
Proof.
  intros Hd Hn. destruct (Number_toString_digits n Hd Hn) as (c & Hc & ->).
  rewrite parseInt_decimalDigits, Hc. reflexivity.
Qed.

(** [String] prints a safe integer with its own digits. *)
Lemma Number_toString_safe (n : Z) :
  Z.abs n < 2 ^ 53 -> Number_toString n = decimalDigits n.
Proof.
  intros Hn.
  assert (Hd : isDouble n = true) by (apply Z.eqb_eq, toNumber_small, Hn).
  assert (Hlt : Z.abs n < 10 ^ 21)
    by (change (2 ^ 53) with 9007199254740992 in Hn;
        change (10 ^ 21) with 1000000000000000000000; lia).
  destruct (Number_toString_digits n Hd Hlt) as (c & Hc & ->).
  f_equal. destruct n as [|m|m].
  - destruct (Z.lt_trichotomy c 0) as [Hneg|[->|Hpos]]; [|reflexivity|].
    + change 0 with (- 0) in Hc. 
      assert (H : toNumber (- c) = 0) by (rewrite toNumber_opp, Hc; reflexivity).
      pose proof (toNumber_large_ge (- c)) as Hbig.
      destruct (Z.le_gt_cases (2 ^ 53) (- c)) as [Hb|Hs].
      * specialize (Hbig Hb). change (2 ^ 53) with 9007199254740992 in Hbig. lia.
      * rewrite toNumber_small in H by lia. lia.
    + destruct (Z.le_gt_cases (2 ^ 53) c) as [Hb|Hs].
      * pose proof (toNumber_large_ge c Hb) as Hbig.
        change (2 ^ 53) with 9007199254740992 in Hbig. lia.
      * rewrite toNumber_small in Hc by lia. exact Hc.
  - apply toNumber_safe; [lia|exact Hc].
  - assert (H : - c = Zpos m).
    { apply toNumber_safe; [lia|]. rewrite toNumber_opp, Hc. reflexivity. }
    lia.
Qed.

End NumberRoundTrip.

(** ** ISO 8601 dates *)

Section IsoRoundTrip.

Import Iso8601.

Lemma digit_cases (d : Z) :
  0 <= d <= 9 ->
  d = 0 \/ d = 1 \/ d = 2 \/ d = 3 \/ d = 4 \/ d = 5 \/ d = 6 \/ d = 7 \/ d = 8 \/ d = 9.
Proof. lia. Qed.

Lemma digitValue_digitChar (d : Z) :
  0 <= d <= 9 ->
  digitValue (digitChar d) = Some d
  /\ Ascii.eqb (digitChar d) "+" = false /\ Ascii.eqb (digitChar d) "-" = false.
Proof.
  intros Hd. destruct (digit_cases d Hd) as [->|[->|[->|[->|[->|[->|[->|[->|[->| ->]]]]]]]]];
    repeat split; reflexivity.
Qed.

(** One step of the option monad, and the separator that follows. *)
Ltac opt_step :=
  repeat (change (Some ?x ≫= ?f) with (f x); cbv beta iota);
  repeat (cbn [expect]; change (Ascii.eqb ?c ?c) with true; cbv beta iota;
          repeat (change (Some ?x ≫= ?f) with (f x); cbv beta iota)).

Lemma readDigits_pad (width : nat) :
  forall v rest acc,
    0 <= v < 10 ^ Z.of_nat width ->
    readDigits width (pad width v +:+ rest) acc
    = Some (acc * 10 ^ Z.of_nat width + v, rest).
Proof.
  induction width as [|w IH]; intros v rest acc Hv.
  - simpl in *. f_equal. f_equal. lia.
  - rewrite Nat2Z.inj_succ, Z.pow_succ_r in * by lia.
    assert (Hpos : 0 < 10 ^ Z.of_nat w) by (apply Z.pow_pos_nonneg; lia).
    cbn [pad readDigits]. change (String ?c ?s +:+ rest) with (String c (s +:+ rest)).
    cbn [readDigits].
    assert (Hq : 0 <= v / 10 ^ Z.of_nat w <= 9).
    { split; [apply Z.div_pos; lia|].
      assert (v / 10 ^ Z.of_nat w < 10); [|lia].
      apply Z.div_lt_upper_bound; lia. }
    destruct (digitValue_digitChar _ Hq) as [-> _].
    rewrite IH by (apply Z.mod_pos_bound; lia).
    f_equal. f_equal.
    pose proof (Z.div_mod v (10 ^ Z.of_nat w) ltac:(lia)). nia.
Qed.

Lemma rangeAll_spec (depth : nat) (check : Z -> bool) :
  forall lo len x,
    rangeAll depth check lo len = true -> lo <= x < lo + len -> check x = true.
Proof.
  induction depth as [|depth IH]; intros lo len x; cbn [rangeAll];
    destruct (Z.leb_spec len 0); try lia;
    destruct (Z.eqb_spec len 1); try discriminate;
    try (intros Hc Hx; replace x with lo by lia; exact Hc).
  intros Hc Hx. apply andb_prop in Hc as [Hl Hr].
  pose proof (Z.div_mod len 2 ltac:(lia)).
  pose proof (Z.mod_pos_bound len 2 ltac:(lia)).
  destruct (Z.lt_ge_cases x (lo + len / 2)).
  - apply (IH _ _ _ Hl). lia.
  - apply (IH _ _ _ Hr). lia.
Qed.

Lemma all_era_days : rangeAll 18 eraDayOk 0 146097 = true.
Proof. vm_compute. reflexivity. Qed.

Lemma eraDayOk_all (doe : Z) : 0 <= doe < 146097 -> eraDayOk doe = true.
Proof. intros H. apply (rangeAll_spec _ _ _ _ _ all_era_days). lia. Qed.

Lemma civil_of_days (z : Z) :
  exists y m d,
    civilFromDays z = (y, m, d)
    /\ daysFromCivil y m d = z
    /\ 1 <= m <= 12 /\ 1 <= d <= 31
    /\ ((z + 719468) / 146097) * 400 <= y <= ((z + 719468) / 146097) * 400 + 400.
Proof.
  unfold civilFromDays, daysFromCivil.
  pose proof (Z.mod_pos_bound (z + 719468) 146097 ltac:(lia)) as Hdoe.
  pose proof (eraDayOk_all _ Hdoe) as Hok. unfold eraDayOk in Hok.
  destruct (civilOfEraDay ((z + 719468) mod 146097)) as [[yoe m] d].
  repeat (apply andb_prop in Hok as [Hok ?]).
  eexists _, _, _. split; [reflexivity|].
  set (era := (z + 719468) / 146097) in *.
  assert (Hy : (if m <=? 2
                then yoe + era * 400 + (if m <=? 2 then 1 else 0) - 1
                else yoe + era * 400 + (if m <=? 2 then 1 else 0))
               = yoe + era * 400) by (destruct (m <=? 2); lia).
  rewrite Hy.
  assert (Hq : (yoe + era * 400) / 400 = era)
    by (rewrite Z.div_add by lia; rewrite Z.div_small by lia; lia).
  assert (Hr : (yoe + era * 400) mod 400 = yoe)
    by (rewrite Z.mod_add by lia; apply Z.mod_small; lia).
  rewrite Hq, Hr.
  assert (eraDayOfCivil yoe m d = (z + 719468) mod 146097) by lia.
  pose proof (Z.div_mod (z + 719468) 146097 ltac:(lia)).
  repeat split; try lia; destruct (m <=? 2); subst era; lia.
Qed.

Lemma readYear_yearString (y : Z) (rest : string) :
  Z.abs y < 1000000 ->
  readYear (yearString y +:+ rest) = Some (y, rest).
Proof.
  intros Hy. unfold yearString.
  destruct ((0 <=? y) && (y <=? 9999)) eqn:E.
  - apply andb_prop in E as [H0 H1].
    assert (Hq : 0 <= y / 10 ^ Z.of_nat 3 <= 9).
    { change (10 ^ Z.of_nat 3) with 1000. split; [apply Z.div_pos; lia|].
      assert (y / 1000 < 10); [apply Z.div_lt_upper_bound; lia|lia]. }
    destruct (digitValue_digitChar _ Hq) as (_ & Hplus & Hminus).
    pose proof (readDigits_pad 4 y rest 0 ltac:(simpl; lia)) as Hread.
    unfold readYear. cbn [pad] in *.
    change (String ?c ?s +:+ rest) with (String c (s +:+ rest)) in *.
    cbv beta iota. rewrite Hplus, Hminus, Hread, Z.mul_0_l. reflexivity.
  - pose proof (readDigits_pad 6 (Z.abs y) rest 0 ltac:(simpl; lia)) as Hread.
    unfold readYear. change (String ?c ?s +:+ rest) with (String c (s +:+ rest)).
    cbv beta iota. destruct (y <? 0) eqn:Hneg.
    + change (Ascii.eqb "-" "+") with false. change (Ascii.eqb "-" "-") with true.
      cbv iota. rewrite Hread. cbn [mbind option_bind].
      apply Z.ltb_lt in Hneg.
      apply f_equal. apply (f_equal (fun a => (a, rest))). lia.
    + change (Ascii.eqb "+" "+") with true. cbv iota. rewrite Hread.
      apply Z.ltb_ge in Hneg.
      apply f_equal. apply (f_equal (fun a => (a, rest))). lia.
Qed.

(** A valid time value survives [toISOString] followed by [new Date]. *)
Lemma parse_toISOString (t : Z) :
  validTime t = true -> parse (toISOString t) = Some t.
Proof.
  unfold validTime, MAX_TIME_VALUE. intros Ht. apply Z.leb_le in Ht.
  unfold toISOString.
  destruct (civil_of_days (t / msPerDay)) as (y & m & d & -> & Hdays & Hm & Hd & Hy).
  unfold msPerDay in *.
  pose proof (Z.mod_pos_bound t 86400000 ltac:(lia)) as Hms.
  pose proof (Z.div_mod t 86400000 ltac:(lia)) as Ht'.
  set (ms := t mod 86400000) in *. set (days := t / 86400000) in *.
  assert (Hdays' : -100000000 <= days <= 100000000) by lia.
  assert (Hyear : Z.abs y < 1000000).
  { pose proof (Z.div_mod (days + 719468) 146097 ltac:(lia)).
    pose proof (Z.mod_pos_bound (days + 719468) 146097 ltac:(lia)). lia. }
  unfold parse.
  rewrite readYear_yearString by assumption. opt_step.
  rewrite readDigits_pad by (simpl; lia). opt_step.
  rewrite readDigits_pad by (simpl; lia). opt_step.
  assert (Hhh : 0 <= ms / 3600000 <= 23).
  { split; [apply Z.div_pos; lia|].
    assert (ms / 3600000 < 24); [apply Z.div_lt_upper_bound; lia|lia]. }
  pose proof (Z.mod_pos_bound (ms / 60000) 60 ltac:(lia)) as Hmm.
  pose proof (Z.mod_pos_bound (ms / 1000) 60 ltac:(lia)) as Hss.
  pose proof (Z.mod_pos_bound ms 1000 ltac:(lia)) as Hmmm.
  rewrite readDigits_pad by (simpl; lia). opt_step.
  rewrite readDigits_pad by (simpl; lia). opt_step.
  rewrite readDigits_pad by (simpl; lia). opt_step.
  rewrite readDigits_pad by (simpl; lia). opt_step.
  replace ((1 <=? 0 * 10 ^ Z.of_nat 2 + m) && (0 * 10 ^ Z.of_nat 2 + m <=? 12)
           && (1 <=? 0 * 10 ^ Z.of_nat 2 + d) && (0 * 10 ^ Z.of_nat 2 + d <=? 31)
           && (0 * 10 ^ Z.of_nat 2 + ms / 3600000 <=? 23)
           && (0 * 10 ^ Z.of_nat 2 + ms / 60000 mod 60 <=? 59)
           && (0 * 10 ^ Z.of_nat 2 + ms / 1000 mod 60 <=? 59)) with true.
  - f_equal. unfold msPerDay. rewrite !Z.mul_0_l, !Z.add_0_l.
    pose proof (Z.div_mod ms 1000 ltac:(lia)).
    pose proof (Z.div_mod (ms / 1000) 60 ltac:(lia)).
    pose proof (Z.div_mod (ms / 60000) 60 ltac:(lia)).
    assert (ms / 60000 = ms / 1000 / 60) by (rewrite Z.div_div by lia; reflexivity).
    assert (ms / 3600000 = ms / 60000 / 60) by (rewrite Z.div_div by lia; reflexivity).
    lia.
  - symmetry. repeat (apply andb_true_intro; split); apply Z.leb_le; lia.
Qed.

End IsoRoundTrip.

(** ** Objects as property lists *)

Section PropertyLists.

Context {A : Type}.
Implicit Types (obj : list (string * A)) (k : string) (v : A).

Lemma obj_set_fresh obj k v :
  has_key obj k = false -> obj_set obj k v = obj ++ [(k, v)].
Proof.
  induction obj as [|[k' v'] obj IH]; simpl; intros H; [reflexivity|].
  apply orb_false_elim in H as [H1 H2]. rewrite H1. f_equal. auto.
Qed.

Lemma has_key_app obj1 obj2 k :
  has_key (obj1 ++ obj2) k = has_key obj1 k || has_key obj2 k.
Proof. unfold has_key. apply existsb_app. Qed.

Lemma has_key_In obj k :
  has_key obj k = true <-> exists v, In (k, v) obj.
Proof.
  unfold has_key. rewrite existsb_exists. split.
  - intros [[k' v] [Hin Heq]]. simpl in Heq. apply String.eqb_eq in Heq.
    subst. eauto.
  - intros [v Hin]. exists (k, v). split; [assumption|]. apply String.eqb_refl.
Qed.

Lemma has_key_false_In obj k k' v :
  has_key obj k = false -> In (k', v) obj -> k' <> k.
Proof.
  intros Hf Hin ->. assert (has_key obj k = true) by (apply has_key_In; eauto).
  congruence.
Qed.

Lemma In_obj_set obj k v kv :
  In kv (obj_set obj k v) -> kv = (k, v) \/ In kv obj.
Proof.
  induction obj as [|[k' v'] obj IH]; simpl.
  - intros [<-|[]]. auto.
  - destruct (String.eqb k' k) eqn:E; simpl.
    + apply String.eqb_eq in E. subst. intros [<-|H]; auto.
    + intros [<-|H]; auto. destruct (IH H); auto.
Qed.

Lemma has_key_obj_set obj k v k' :
  has_key (obj_set obj k v) k' = has_key obj k' || String.eqb k k'.
Proof.
  induction obj as [|[k0 v0] obj IH]; simpl.
  - apply orb_false_r.
  - destruct (String.eqb k0 k) eqn:E; simpl.
    + apply String.eqb_eq in E. subst.
      destruct (String.eqb k k'); simpl; [reflexivity|]. now rewrite orb_false_r.
    + rewrite IH. now rewrite orb_assoc.
Qed.

Lemma assign_ordinary obj k v :
  k <> protoKey -> assign obj k v = obj_set obj k v.
Proof.
  intros Hk. unfold assign. apply String.eqb_neq in Hk. now rewrite Hk.
Qed.


End PropertyLists.

(** ** Induction over nested values *)

Lemma JsValue_nested_ind (P : JsValue -> Prop) :
  P JUndefined -> P JNull -> (forall s, P (JString s)) ->
  (forall q, P (JNumber q)) -> P JNaN -> (forall b, P (JBool b)) ->
  (forall t, P (JDate t)) ->
  (forall items, Forall P items -> P (JArray items)) ->
  (forall entries, Forall (fun kv => P (snd kv)) entries -> P (JObject entries)) ->
  forall v, P v.
Proof.
  intros Hu Hn Hs Hq Hnan Hb Hd Ha Ho.
  fix IH 1. intros [| |s|q| |b|t|items|entries].
  - exact Hu.
  - exact Hn.
  - exact (Hs s).
  - exact (Hq q).
  - exact Hnan.
  - exact (Hb b).
  - exact (Hd t).
  - apply Ha. induction items as [|x items IHitems]; constructor.
    + apply IH.
    + exact IHitems.
  - apply Ho. induction entries as [|[k x] entries IHentries]; constructor.
    + simpl. apply IH.
    + exact IHentries.
Qed.

Lemma withoutId_noIdField (x : JsValue) :
  noIdField x = true -> withoutId x = x.
Proof.
  induction x as [| | | | | | |items IH|entries IH] using JsValue_nested_ind;
    simpl; intros Hx; try reflexivity.
  - f_equal. induction IH as [|y items Hy _ IHitems]; simpl in *; [reflexivity|].
    apply andb_prop in Hx as [H1 H2]. f_equal; auto.
  - f_equal. apply andb_prop in Hx as [H1 H2].
    apply negb_true_iff in H1.
    induction IH as [|[k y] entries Hy _ IHentries]; simpl in *; [reflexivity|].
    apply andb_prop in H2 as [H2 H3]. apply orb_false_elim in H1 as [H0 H1].
    rewrite H0. simpl. f_equal; [f_equal|]; auto.
Qed.

(** ** The codec *)

Section CodecFacts.

Variable toISO : Z -> string.
Variable dateParse : string -> option Z.

Local Abbreviation enc := (toFirestoreValue toISO).
Local Abbreviation dec := (parseFirestoreValue dateParse).

(** The anonymous loop of the [mapValue] case is [parseFields]. *)
Lemma parseFirestoreValue_map fields :
  dec (ofMap fields) = JObject (parseFields dateParse fields []).
Proof.
  reflexivity.
Qed.

Lemma parseFirestoreValue_array values :
  dec (ofArray values) = JArray (map dec values).
Proof. reflexivity. Qed.

Lemma parseFields_distinct fields result :
  distinctKeys fields = true ->
  has_key fields protoKey = false ->
  (forall k v, In (k, v) fields -> has_key result k = false) ->
  parseFields dateParse fields result
  = result ++ map (fun f => (fst f, dec (snd f))) fields.
Proof.
  revert result. induction fields as [|[k v] fields IH]; intros result Hd Hp Hr; simpl.
  - now rewrite app_nil_r.
  - simpl in Hd. apply andb_prop in Hd as [Hk Hd]. apply negb_true_iff in Hk.
    simpl in Hp. apply orb_false_elim in Hp as [Hp0 Hp].
    rewrite assign_ordinary by (now apply String.eqb_neq).
    rewrite obj_set_fresh by (eapply Hr; left; reflexivity).
    rewrite IH; [now rewrite <- app_assoc|assumption|assumption|].
    intros k' v' Hin. rewrite has_key_app. simpl.
    rewrite (Hr k' v') by (right; assumption). simpl.
    rewrite orb_false_r. apply String.eqb_neq.
    intros ->. exact (has_key_false_In _ _ _ _ Hk Hin eq_refl).
Qed.

Lemma fieldsLoop_distinct (g : JsValue -> FirestoreValue) entries acc :
  distinctKeys entries = true ->
  has_key entries protoKey = false ->
  (forall k v, In (k, v) entries -> has_key acc k = false) ->
  (forall k v, In (k, v) entries -> k <> "id" -> enc v = Return (g v)) ->
  fieldsLoop enc entries acc
  = Return (acc ++ map (fun kv => (fst kv, g (snd kv))) (List.filter notId entries)).
Proof.
  revert acc. induction entries as [|[k v] entries IH]; intros acc Hd Hp Hacc Hg; simpl.
  - now rewrite app_nil_r.
  - simpl in Hd. apply andb_prop in Hd as [Hk Hd]. apply negb_true_iff in Hk.
    simpl in Hp. apply orb_false_elim in Hp as [Hp0 Hp].
    unfold notId at 1. simpl. destruct (String.eqb k "id") eqn:E; simpl.
    + apply IH; auto.
      * intros; eapply Hacc; right; eauto.
      * intros; eapply Hg; [right|]; eauto.
    + apply String.eqb_neq in E.
      rewrite (Hg k v) by (auto; left; reflexivity).
      rewrite assign_ordinary by (now apply String.eqb_neq).
      rewrite obj_set_fresh by (eapply Hacc; left; reflexivity).
      rewrite IH; [now rewrite <- app_assoc|assumption|assumption| |].
      * intros k' v' Hin. rewrite has_key_app. simpl.
        rewrite (Hacc k' v') by (right; assumption). simpl.
        rewrite orb_false_r. apply String.eqb_neq.
        intros ->. exact (has_key_false_In _ _ _ _ Hk Hin eq_refl).
      * intros; eapply Hg; [right|]; eauto.
Qed.

Lemma has_key_map_filter {B C} (f : B -> C) (p : string * B -> bool)
    (obj : list (string * B)) k :
  has_key obj k = false ->
  has_key (map (fun kv => (fst kv, f (snd kv))) (List.filter p obj)) k = false.
Proof.
  induction obj as [|[k' v] obj IH]; simpl; [reflexivity|].
  intros H. apply orb_false_elim in H as [H0 H].
  destruct (p (k', v)); simpl; [rewrite H0|]; auto.
Qed.

Lemma distinctKeys_map_filter {B C} (f : B -> C) (p : string -> bool)
    (obj : list (string * B)) :
  distinctKeys obj = true ->
  distinctKeys (map (fun kv => (fst kv, f (snd kv)))
                  (List.filter (fun kv => p (fst kv)) obj)) = true.
Proof.
  induction obj as [|[k v] obj IH]; simpl; [reflexivity|].
  intros Hd. apply andb_prop in Hd as [Hk Hd]. apply negb_true_iff in Hk.
  destruct (p k); simpl; auto.
  rewrite IH by assumption. rewrite andb_true_r. apply negb_true_iff.
  destruct (has_key (map _ _) k) eqn:E; [|reflexivity].
  apply has_key_In in E as [c Hin]. apply in_map_iff in Hin as [[k' v'] [Heq Hin]].
  simpl in Heq. injection Heq as -> _. apply filter_In in Hin as [Hin _].
  exfalso. eapply has_key_false_In; eauto.
Qed.

(** Encoding never fails on the claimed domain and decoding gives back the
    value without its [id] fields, provided a valid time value survives
    [toISOString] followed by [new Date]. *)
Hypothesis date_law :
  forall t, validTime t = true -> dateParse (toISO t) = Some t.

Local Abbreviation encoded := (Wire.encoded toISO).

Lemma encode_decode (x : JsValue) :
  wireSafe x = true -> enc x = Return (encoded x) /\ dec (encoded x) = withoutId x.
Proof.
  unfold Wire.encoded.
  induction x as [| |s|q| |b|t|items IH|entries IH] using JsValue_nested_ind;
    intros Hx; try discriminate; try (split; reflexivity).
  - (* an integral number *)
    destruct q as [n d]. cbn [wireSafe QArith_base.Qden QArith_base.Qnum] in Hx.
    apply andb_prop in Hx as [Hx Hn]. apply andb_prop in Hx as [Hd Hdouble].
    apply Pos.eqb_eq in Hd. subst d. apply Z.ltb_lt in Hn.
    cbn [toFirestoreValue]. split; [reflexivity|].
    unfold ofInteger. cbn [parseFirestoreValue stringValue integerValue].
    unfold Math_floor. cbn [Qround.Qfloor QArith_base.Qnum QArith_base.Qden].
    rewrite Z.div_1_r, parseInt_Number_toString by assumption. reflexivity.
  - (* a timestamp *)
    destruct t as [t|]; [|discriminate]. simpl in Hx.
    cbn [toFirestoreValue]. split; [reflexivity|].
    unfold ofTimestamp. simpl. now rewrite date_law.
  - (* an array *)
    simpl in Hx. cbn [toFirestoreValue withoutId].
    assert (E : mapM enc items = Return (map encoded items)
                /\ map dec (map encoded items) = map withoutId items).
    { unfold Wire.encoded.
      induction IH as [|y items Hy _ IHitems]; simpl in *; [auto|].
      apply andb_prop in Hx as [H1 H2].
      destruct (Hy H1) as [E1 E2]. destruct (IHitems H2) as [E3 E4].
      rewrite E1 in *. rewrite E3. split; [reflexivity|].
      rewrite E2. f_equal. exact E4. }
    destruct E as [E1 E2]. rewrite E1. split; [reflexivity|].
    rewrite parseFirestoreValue_array. now rewrite E2.
  - (* a map *)
    simpl in Hx. apply andb_prop in Hx as [Hd Hs]. apply andb_prop in Hd as [Hd Hp].
    apply negb_true_iff in Hp.
    cbn [toFirestoreValue withoutId].
    rewrite (fieldsLoop_distinct encoded); [|assumption|assumption|reflexivity|].
    + cbn [app]. split; [reflexivity|].
      rewrite parseFirestoreValue_map.
      rewrite parseFields_distinct;
        [|apply (distinctKeys_map_filter encoded (fun k => negb (String.eqb k "id")));
          assumption
         |apply has_key_map_filter; assumption
         |reflexivity].
      simpl. f_equal. clear Hd Hp.
      induction IH as [|[k y] entries Hy _ IHentries]; simpl in *; [reflexivity|].
      apply andb_prop in Hs as [H1 H2]. unfold notId at 1. simpl.
      destruct (negb (String.eqb k "id")); simpl.
      * f_equal; [|now apply IHentries].
        f_equal. destruct (Hy H1) as [E1 E2]. unfold Wire.encoded.
        destruct (enc y); [exact E2|discriminate].
      * now apply IHentries.
    + intros k v Hin _. rewrite List.Forall_forall in IH.
      rewrite forallb_forall in Hs.
      destruct (IH (k, v) Hin (Hs _ Hin)) as [E _]. simpl in E.
      unfold Wire.encoded. destruct (enc v); [reflexivity|discriminate].
Qed.

End CodecFacts.

Section CodecPayload.

Variable toISO : Z -> string.
Local Abbreviation enc := (toFirestoreValue toISO).

Lemma fieldsLoop_no_id entries :
  forall acc fields,
  (forall k v w, In (k, v) entries -> enc v = Return w -> wireHasId w = false) ->
  has_key acc "id" = false ->
  (forall f, In f acc -> wireHasId (snd f) = false) ->
  fieldsLoop enc entries acc = Return fields ->
  has_key fields "id" = false /\ (forall f, In f fields -> wireHasId (snd f) = false).
Proof.
  induction entries as [|[k v] entries IH]; intros acc fields Henc Hacc Hin; simpl.
  - intros [= <-]. auto.
  - destruct (String.eqb k "id") eqn:E; simpl.
    + apply IH; auto. intros; eapply Henc; [right|]; eauto.
    + destruct (enc v) as [w|e] eqn:Ev; [|discriminate].
      unfold assign. destruct (String.eqb k protoKey).
      * apply IH; auto. intros; eapply Henc; [right|]; eauto.
      * apply IH.
        -- intros; eapply Henc; [right|]; eauto.
        -- rewrite has_key_obj_set, Hacc, E. reflexivity.
        -- intros f Hf. apply In_obj_set in Hf as [->|Hf]; [|auto].
           simpl. eapply Henc; [left; reflexivity|exact Ev].
Qed.

Lemma mapM_inv {A B} (f : A -> Completion B) (l : list A) (bs : list B) :
  mapM f l = Return bs -> Forall2 (fun a b => f a = Return b) l bs.
Proof.
  revert bs. induction l as [|a l IH]; simpl; intros bs.
  - intros [= <-]. constructor.
  - destruct (f a) as [b|] eqn:Ea; [|discriminate].
    destruct (mapM f l) as [bs'|]; [|discriminate].
    intros [= <-]. constructor; auto.
Qed.

(** No map of an encoded value has a field named [id]. *)
Lemma encode_no_id (x : JsValue) :
  forall w, enc x = Return w -> wireHasId w = false.
Proof.
  induction x as [| |s|q| |b|t|items IH|entries IH] using JsValue_nested_ind;
    intros w; cbn [toFirestoreValue]; try (intros [= <-]; reflexivity).
  - destruct t; [intros [= <-]; reflexivity|discriminate].
  - destruct (mapM enc items) as [values|] eqn:E; [|discriminate].
    intros [= <-]. apply mapM_inv in E. simpl.
    induction E as [|y v items values Hy _ IHE]; [reflexivity|].
    apply Forall_cons_1 in IH as [IHy IHitems]. simpl.
    rewrite (IHy _ Hy). simpl. auto.
  - destruct (fieldsLoop enc entries []) as [fields|] eqn:E; [|discriminate].
    intros [= <-].
    apply fieldsLoop_no_id in E as [E1 E2]; [| |reflexivity|intros f []].
    + simpl. rewrite E1. simpl. rewrite orb_false_r.
      destruct (existsb _ fields) eqn:Ex; [|reflexivity].
      apply existsb_exists in Ex as [f [Hf Hw]]. rewrite (E2 f Hf) in Hw.
      discriminate.
    + intros k v w Hin Hv. rewrite List.Forall_forall in IH.
      exact (IH (k, v) Hin w Hv).
Qed.

Lemma toFirestoreFields_no_id obj fields :
  toFirestoreFields toISO obj = Return fields -> has_key fields "id" = false.
Proof.
  unfold toFirestoreFields. intros E.
  apply fieldsLoop_no_id in E as [E _]; auto.
  - intros k v w _ Hv. eapply encode_no_id; eauto.
  - intros f [].
Qed.

End CodecPayload.

(** C3 (as amended).  For every value built from integral numbers below
    10^21 in magnitude, strings, booleans, null, valid timestamps and nested
    arrays and maps of these, no map having a field named [__proto__],
    encoding succeeds and decoding the encoded wire form gives the value
    with every field named [id] removed, at every depth; so it reproduces
    the value exactly when no map in it has a field named [id].  No map of
    an encoded payload, at any depth, has a field named [id], whatever the
    value encoded.  The [Date] primitives of the run time are parameters,
    assumed to round-trip valid time values. *)
Theorem codec_round_trip_modulo_id
    (toISO : Z -> string) (dateParse : string -> option Z)
    (date_law : forall t, validTime t = true -> dateParse (toISO t) = Some t) :
  (forall x, wireSafe x = true ->
     exists w, toFirestoreValue toISO x = Return w
       /\ parseFirestoreValue dateParse w = withoutId x
       /\ (noIdField x = true -> parseFirestoreValue dateParse w = x))
  /\ (forall x w, toFirestoreValue toISO x = Return w -> wireHasId w = false)
  /\ (forall obj fields,
        toFirestoreFields toISO obj = Return fields -> has_key fields "id" = false).
Proof.
  split; [|split].
  - intros x Hx.
    destruct (encode_decode toISO dateParse date_law x Hx) as [E1 E2].
    exists (encoded toISO x). split; [exact E1|]. split; [exact E2|].
    intros Hid. rewrite E2. now apply withoutId_noIdField.
  - apply encode_no_id.
  - apply toFirestoreFields_no_id.
Qed.

(** A task-like object without [id], with an estimate of 2^53 + 2, survives
    the round trip; the payload of one with [id] has no such field. *)
Lemma codec_round_trip_modulo_id_witness :
  (exists w,
     toFirestoreValue Iso8601.toISOString
       (JObject [("title", JString "Write report");
                 ("estimate", JNumber (QArith_base.inject_Z 9007199254740994));
                 ("dueDate", JDate (Some 1700000000000));
                 ("tags", JArray [JString "q4"; JNull; JBool true])]) = Return w
     /\ parseFirestoreValue Iso8601.parse w
        = JObject [("title", JString "Write report");
                   ("estimate", JNumber (QArith_base.inject_Z 9007199254740994));
                   ("dueDate", JDate (Some 1700000000000));
                   ("tags", JArray [JString "q4"; JNull; JBool true])])
  /\ forall fields,
       toFirestoreFields Iso8601.toISOString
         [("id", JString "t1"); ("title", JString "Write report")] = Return fields ->
       has_key fields "id" = false.
Proof.
  pose proof (codec_round_trip_modulo_id Iso8601.toISOString Iso8601.parse
                parse_toISOString) as [Hrt [_ Hid]].
  split.
  - destruct (Hrt (JObject [("title", JString "Write report");
                            ("estimate", JNumber (QArith_base.inject_Z 9007199254740994));
                            ("dueDate", JDate (Some 1700000000000));
                            ("tags", JArray [JString "q4"; JNull; JBool true])])
                eq_refl) as (w & E1 & _ & E3).
    exists w. split; [exact E1|]. apply E3. reflexivity.
  - intros fields. apply Hid.
Defined.

(** C3 as stated fails on the integral number 10^21, a double, which is
    printed as [1e+21] and read back as 1; and on a map with an own field
    named [__proto__] (as [JSON.parse] makes one), which the encoder's
    assignment turns into the prototype of the payload, so that the field is
    gone after decoding.  Neither value has a field named [id]. *)
Lemma codec_round_trip_counterexample :
  isDouble (10 ^ 21) = true
  /\ toFirestoreValue Iso8601.toISOString (JNumber (QArith_base.inject_Z (10 ^ 21)))
     = Return (ofInteger "1e+21")
  /\ parseFirestoreValue Iso8601.parse (ofInteger "1e+21")
     = JNumber (QArith_base.inject_Z 1)
  /\ JNumber (QArith_base.inject_Z 1) <> JNumber (QArith_base.inject_Z (10 ^ 21))
  /\ toFirestoreValue Iso8601.toISOString
       (JObject [("__proto__", JString "x"); ("title", JString "a")])
     = Return (ofMap [("title", ofString "a")])
  /\ parseFirestoreValue Iso8601.parse (ofMap [("title", ofString "a")])
     = JObject [("title", JString "a")]
  /\ JObject [("title", JString "a")]
     <> JObject [("__proto__", JString "x"); ("title", JString "a")]
  /\ noIdField (JObject [("__proto__", JString "x"); ("title", JString "a")]) = true.
Proof. repeat split; try reflexivity; discriminate. Qed.

(** ** Role hierarchy *)

Lemma hasMinimumRole_rank (userRole requiredRole : UserRole) :
  hasMinimumRole userRole requiredRole = true
  <-> roleHierarchy userRole >= roleHierarchy requiredRole.
Proof. unfold hasMinimumRole. rewrite Z.geb_le. lia. Qed.

Lemma useIsManager_signedIn (u : User.t) :
  useIsManager (signedIn u) = hasMinimumRole (User.role (User.data u)) manager.
Proof. destruct u as [i [? ? ? [] ? ? ? ? ? ? ? ? ? ? ?]]; reflexivity. Qed.

Lemma useIsAdmin_signedIn (u : User.t) :
  useIsAdmin (signedIn u) = hasMinimumRole (User.role (User.data u)) admin.
Proof. destruct u as [i [? ? ? [] ? ? ? ? ? ? ? ? ? ? ?]]; reflexivity. Qed.

(** C7.  The ranks are employee = 1, manager = 2, admin = 3 (the same order
    as the [level]s of [USER_ROLES]), distinct roles have distinct ranks, and
    [hasMinimumRole] passes exactly when the actor's rank is at least the
    required one.  Hence whatever a minimum-role check, a role hook
    ([useIsAdmin], [useIsManager], [useCanManageTeam], [useCanManageProject])
    or the task page's [canEdit] gate grants to an actor of role [r1], it
    grants to the otherwise identical actor of any role [r2] ranked at least
    as high. *)
Theorem role_rank_check_and_monotonicity :
  (roleHierarchy employee = 1 /\ roleHierarchy manager = 2 /\ roleHierarchy admin = 3)
  /\ (forall r, USER_ROLES_level r = roleHierarchy r)
  /\ (forall r1 r2, roleHierarchy r1 = roleHierarchy r2 -> r1 = r2)
  /\ (forall userRole requiredRole,
        hasMinimumRole userRole requiredRole = true
        <-> roleHierarchy userRole >= roleHierarchy requiredRole)
  /\ (forall r1 r2, roleHierarchy r1 <= roleHierarchy r2 ->
        (forall required,
           hasMinimumRole r1 required = true -> hasMinimumRole r2 required = true)
        /\ (forall u : User.t,
              (useIsAdmin (signedIn (withRole r1 u)) = true ->
               useIsAdmin (signedIn (withRole r2 u)) = true)
              /\ (useIsManager (signedIn (withRole r1 u)) = true ->
                  useIsManager (signedIn (withRole r2 u)) = true)
              /\ (forall teamId,
                    useCanManageTeam (signedIn (withRole r1 u)) teamId = true ->
                    useCanManageTeam (signedIn (withRole r2 u)) teamId = true)
              /\ (forall projectId,
                    useCanManageProject (signedIn (withRole r1 u)) projectId = true ->
                    useCanManageProject (signedIn (withRole r2 u)) projectId = true)
              /\ (forall task,
                    canEdit (signedIn (withRole r1 u)) task = true ->
                    canEdit (signedIn (withRole r2 u)) task = true))).
Proof.
  split; [repeat split|]. split; [intros []; reflexivity|].
  split; [intros [] []; simpl; intros; congruence || lia|].
  split; [apply hasMinimumRole_rank|].
  intros r1 r2 Hle. split.
  - intros required. rewrite !hasMinimumRole_rank. lia.
  - intros u. repeat split; try intros x;
      destruct r1, r2; simpl in Hle; try lia; try (intros; assumption);
      try discriminate; try reflexivity;
      unfold canEdit, useIsManager, roleOf; simpl; try discriminate;
      try reflexivity.
Qed.

(** An employee's grant carries over to a manager; an admin passes every
    minimum-role check. *)
Lemma role_rank_check_and_monotonicity_witness :
  hasMinimumRole manager employee = true /\ hasMinimumRole admin manager = true.
Proof.
  destruct role_rank_check_and_monotonicity as (_ & _ & _ & _ & Hmono).
  split.
  - apply (proj1 (Hmono employee manager ltac:(simpl; lia)) employee). reflexivity.
  - apply (proj1 (Hmono manager admin ltac:(simpl; lia)) manager). reflexivity.
Defined.

(** ** Running asynchronous code *)

(** Unfold the monad down to functions on worlds. *)
Ltac async_unfold :=
  unfold mbind, mret, Async_bind, Async_ret, Runtime.bind, Runtime.ret,
    Runtime.throw, Runtime.tryCatch, getDoc, setDocLiteral, setDoc, updateDoc, deleteDoc,
    commitUpdates, getDocs, transport, Timestamp_now, newDocRef, doc, withDb,
    withUi in *.

(** ** Task creation *)

(** C10.  Whatever the creation input, a task that [createTask] creates
    has the status [backlog] and no [completedAt], and is stored as such
    under a fresh id among the organization's tasks, every other task being
    left alone; [CreateTaskData] has no field through which a caller could
    choose either.  The creation succeeds exactly when the store is
    reachable and the data sets [description], [projectId], [teamId] and
    [dueDate] (left out, they are written as [undefined], which the store's
    client refuses); when it fails, nothing is stored. *)
Theorem createTask_starts_in_backlog
    (orgId : string) (data : CreateTaskData.t) (createdBy : string) (w : World) :
  let supplied :=
    defined (CreateTaskData.description data) && defined (CreateTaskData.projectId data)
    && defined (CreateTaskData.teamId data) && defined (CreateTaskData.dueDate data) in
  match createTask orgId data createdBy w with
  | (Return t, w') =>
      Task.status (Task.data t) = TaskStatus_literal backlog
      /\ Task.completedAt (Task.data t) = None
      /\ Task.id t = autoIds w (idsDrawn w)
      /\ Db.tasks (db w') !! (getTasksPath orgId, Task.id t) = Some (Task.data t)
      /\ (forall r, r <> (getTasksPath orgId, Task.id t) ->
            Db.tasks (db w') !! r = Db.tasks (db w) !! r)
      /\ sdkFault w = None /\ supplied = true
  | (Throw e, w') => db w' = db w /\ (sdkFault w = Some e \/ supplied = false)
  end.
Proof.
  unfold createTask. async_unfold. cbn -[lookup insert].
  destruct (CreateTaskData.description data), (CreateTaskData.projectId data),
    (CreateTaskData.teamId data), (CreateTaskData.dueDate data);
    cbn -[lookup insert]; auto;
    destruct (sdkFault w) as [e|] eqn:E; cbn -[lookup insert]; auto.
  repeat split; try apply lookup_insert_eq.
  intros r Hr. now rewrite lookup_insert_ne.
Qed.

(** A task created with every field set starts in the backlog. *)
Lemma createTask_starts_in_backlog_witness :
  exists t w',
    createTask defaultOrgId
      (CreateTaskData.mk "Plan release" (Some "Cut the release branch") (Some "p1")
         (Some "team1") ["e1"] high (Some 1700600000000) None)
      "m1" exampleWorld = (Return t, w')
    /\ Task.status (Task.data t) = "backlog"
    /\ Task.completedAt (Task.data t) = None.
Proof.
  pose proof (createTask_starts_in_backlog defaultOrgId
                (CreateTaskData.mk "Plan release" (Some "Cut the release branch")
                   (Some "p1") (Some "team1") ["e1"] high (Some 1700600000000) None)
                "m1" exampleWorld) as H.
  cbv zeta in H.
  destruct (createTask defaultOrgId _ "m1" exampleWorld) as [[t|e] w'].
  - exists t, w'. destruct H as (Hs & Hc & _). auto.
  - destruct H as (_ & [H|H]); discriminate.
Defined.

(** ** Status updates *)

Lemma updateTaskStatus_run (orgId taskId status : string) (w : World) :
  updateTaskStatus orgId taskId status w =
  let w1 :=
    mkWorld (db w) (sdkFault w) (clock w)
      (if String.eqb status "done" then S (S (clockReads w)) else S (clockReads w))
      (autoIds w) (idsDrawn w) (currentUser w) (ui w) in
  match sdkFault w with
  | Some e => (Throw e, w1)
  | None =>
      match Db.tasks (db w) !! (getTasksPath orgId, taskId) with
      | Some d =>
          (Return (),
           withDb
             (Db.withDocs Db.taskDocs
                (<[(getTasksPath orgId, taskId) :=
                     Task.applyUpdate
                       (Task.mkUpdateData None None None (Some status) None None None
                          None None (Some (clock w (clockReads w)))
                          (if String.eqb status "done"
                           then Some (clock w (S (clockReads w))) else None)) d]>
                   (Db.tasks (db w))) (db w)) w1)
      | None =>
          (Throw ("No document to update: "
                  +:+ Db.refPath (getTasksPath orgId, taskId)), w1)
      end
  end.
Proof.
  unfold updateTaskStatus. async_unfold. simpl.
  destruct (String.eqb status "done"); simpl;
    destruct (sdkFault w); simpl; try reflexivity;
    destruct (Db.tasks (db w) !! (getTasksPath orgId, taskId)); reflexivity.
Qed.

Lemma updateTask_run (orgId taskId : string) (data : UpdateTaskData.t) (w : World) :
  updateTask orgId taskId data w =
  let isDone :=
    match UpdateTaskData.status data with Some done => true | _ => false end in
  let w1 :=
    mkWorld (db w) (sdkFault w) (clock w)
      (if isDone then S (S (clockReads w)) else S (clockReads w))
      (autoIds w) (idsDrawn w) (currentUser w) (ui w) in
  match sdkFault w with
  | Some e => (Throw e, w1)
  | None =>
      match Db.tasks (db w) !! (getTasksPath orgId, taskId) with
      | Some d =>
          (Return (),
           withDb
             (Db.withDocs Db.taskDocs
                (<[(getTasksPath orgId, taskId) :=
                     Task.applyUpdate
                       (Task.mkUpdateData (UpdateTaskData.title data)
                          (UpdateTaskData.description data)
                          (UpdateTaskData.assigneeIds data)
                          (option_map TaskStatus_literal (UpdateTaskData.status data))
                          (UpdateTaskData.priority data)
                          (match UpdateTaskData.dueDate data with
                           | Some None => Some None
                           | Some (Some dd) => Some (Some (Timestamp_fromDate dd))
                           | None => None
                           end)
                          (UpdateTaskData.tags data)
                          (UpdateTaskData.checklistItems data)
                          (UpdateTaskData.attachments data)
                          (Some (clock w (clockReads w)))
                          (if isDone then Some (clock w (S (clockReads w))) else None))
                       d]>
                   (Db.tasks (db w))) (db w)) w1)
      | None =>
          (Throw ("No document to update: "
                  +:+ Db.refPath (getTasksPath orgId, taskId)), w1)
      end
  end.
Proof.
  unfold updateTask.
  destruct (UpdateTaskData.status data) as [[]|];
    (destruct (decide _) as [?|?]; [try discriminate|try congruence]);
    async_unfold; cbn -[insert lookup]; unfold Runtime.bind;
    destruct (sdkFault w) eqn:Ef; cbn -[insert lookup]; rewrite ?Ef;
    try reflexivity;
    destruct (Db.tasks (db w) !! (getTasksPath orgId, taskId)); reflexivity.
Qed.

(** C2.  When [updateTaskStatus] succeeds, or [updateTask] succeeds with a
    status in its data, the stored task's status is the requested one; its
    [completedAt] is the clock reading taken for it when the requested status
    is [done], and is what it was before otherwise, so a [completedAt] that
    was set stays set.  Both succeed whenever the transport is up and the
    task exists. *)
Theorem status_update_sets_status_and_completedAt
    (orgId taskId : string) (w : World) :
  let r := (getTasksPath orgId, taskId) in
  (forall status w',
     updateTaskStatus orgId taskId status w = (Return (), w') ->
     exists d d',
       Db.tasks (db w) !! r = Some d /\ Db.tasks (db w') !! r = Some d'
       /\ Task.status d' = status
       /\ Task.completedAt d'
          = (if String.eqb status "done" then Some (clock w (S (clockReads w)))
             else Task.completedAt d)
       /\ (is_Some (Task.completedAt d) -> is_Some (Task.completedAt d')))
  /\ (forall data s w',
        UpdateTaskData.status data = Some s ->
        updateTask orgId taskId data w = (Return (), w') ->
        exists d d',
          Db.tasks (db w) !! r = Some d /\ Db.tasks (db w') !! r = Some d'
          /\ Task.status d' = TaskStatus_literal s
          /\ Task.completedAt d'
             = (if decide (s = done) then Some (clock w (S (clockReads w)))
                else Task.completedAt d)
          /\ (is_Some (Task.completedAt d) -> is_Some (Task.completedAt d')))
  /\ (sdkFault w = None -> is_Some (Db.tasks (db w) !! r) ->
      (forall status, exists w', updateTaskStatus orgId taskId status w = (Return (), w'))
      /\ (forall data, exists w', updateTask orgId taskId data w = (Return (), w'))).
Proof.
  intros r. subst r. split; [|split].
  - intros status w'. rewrite updateTaskStatus_run. cbv zeta.
    destruct (sdkFault w); [discriminate|].
    destruct (Db.tasks (db w) !! _) as [d|] eqn:E; [|discriminate].
    intros [= <-]. exists d. eexists. split; [reflexivity|].
    split; [apply lookup_insert_eq|]. simpl. split; [reflexivity|].
    destruct (String.eqb status "done"); simpl; eauto.
  - intros data s w' Hs. rewrite updateTask_run. cbv zeta.
    destruct (sdkFault w); [discriminate|].
    destruct (Db.tasks (db w) !! _) as [d|] eqn:E; [|discriminate].
    intros [= <-]. exists d. eexists. split; [reflexivity|].
    split; [apply lookup_insert_eq|]. simpl. rewrite Hs. simpl.
    split; [reflexivity|].
    destruct (decide (s = done)) as [->|Hs']; [simpl; eauto|].
    destruct s; try congruence; simpl; eauto.
  - intros Hf [d Hd]. split.
    + intros status. rewrite updateTaskStatus_run. cbv zeta. rewrite Hf, Hd. eauto.
    + intros data. rewrite updateTask_run. cbv zeta. rewrite Hf, Hd. eauto.
Qed.

(** Scenario B at the store: the backlog task t1 is moved to [done]; it gets
    [completedAt], the second clock reading of the call. *)
Lemma status_update_sets_status_and_completedAt_witness :
  exists d',
    Db.tasks (db (snd (updateTaskStatus defaultOrgId "t1" "done" exampleWorld)))
      !! (getTasksPath defaultOrgId, "t1") = Some d'
    /\ Task.status d' = "done"
    /\ Task.completedAt d' = Some 1700000001000.
Proof.
  destruct (status_update_sets_status_and_completedAt defaultOrgId "t1" exampleWorld)
    as [H _].
  destruct (H "done" (snd (updateTaskStatus defaultOrgId "t1" "done" exampleWorld)))
    as (d & d' & _ & Hd' & Hs & Hc & _).
  - reflexivity.
  - exists d'. split; [exact Hd'|]. split; [exact Hs|]. rewrite Hc. reflexivity.
Defined.

(** ** The status workflow *)

(** The string-keyed table is the specification's table. *)
Lemma transitions_table (current : TaskStatus) :
  record_get TASK_STATUS_TRANSITIONS (TaskStatus_literal current)
  = Some (map TaskStatus_literal (allowedSet current)).
Proof. destruct current; reflexivity. Qed.

Lemma includes_allowedSet (current requested : TaskStatus) :
  includes (map TaskStatus_literal (allowedSet current)) (TaskStatus_literal requested)
  = bool_decide (requested ∈ allowedSet current).
Proof.
  destruct current, requested; reflexivity.
Qed.

Lemma attemptStatusChange_toasts (task : Task.t) (requested : TaskStatus) (w : World) :
  Ui.toasts (ui (snd (attemptStatusChange task requested w)))
  = Ui.toasts (ui w) ++ [Ui.ToastSuccess "Status updated"]
  \/ Ui.toasts (ui (snd (attemptStatusChange task requested w)))
     = Ui.toasts (ui w) ++ [Ui.ToastError "Failed to update status"].
Proof.
  unfold attemptStatusChange, tryCatch, mbind, Async_bind, Runtime.bind.
  rewrite updateTaskStatus_run. cbv zeta.
  destruct (sdkFault w); [right; reflexivity|].
  destruct (Db.tasks (db w) !! _); [left|right]; reflexivity.
Qed.

(** C1.  For a task shown on the detail page whose status is [current], a
    request for [requested] is refused with the invalid-transition toast,
    nothing else changing, when [requested] is not in the allowed set of
    [current]; otherwise the handler goes on to the store update.  So the
    request is accepted exactly when [requested] is in the allowed set; no
    status allows itself, and [done] allows nothing. *)
Theorem status_change_accepted_iff_allowed
    (w : World) (task : Task.t) (current requested : TaskStatus)
    (Hshown : Ui.task (Ui.taskDetail (ui w)) = Some task)
    (Hstatus : Task.status (Task.data task) = TaskStatus_literal current) :
  let out := handleStatusChange requested w in
  let refused :=
    (Return (),
     withUi (Ui.mk (Ui.auth (ui w)) (Ui.taskDetail (ui w))
               (Ui.toasts (ui w) ++ [invalidTransition current requested])
               (Ui.navigations (ui w))) w) in
  (requested ∈ allowedSet current -> out = attemptStatusChange task requested w)
  /\ (requested ∉ allowedSet current -> out = refused)
  /\ (requested ∈ allowedSet current <-> out <> refused)
  /\ (current ∉ allowedSet current)
  /\ allowedSet done = [].
Proof.
  intros out refused.
  assert (Hrun : out = if bool_decide (requested ∈ allowedSet current)
                       then attemptStatusChange task requested w else refused).
  { subst out refused. unfold handleStatusChange, getPage.
    unfold mbind at 1. unfold Async_bind, Runtime.bind. rewrite Hshown, Hstatus.
    rewrite transitions_table, includes_allowedSet.
    destruct (bool_decide _); reflexivity. }
  assert (Hdiff : attemptStatusChange task requested w <> refused).
  { intros Heq. apply (f_equal (fun o => Ui.toasts (ui (snd o)))) in Heq.
    subst refused. simpl in Heq.
    destruct (attemptStatusChange_toasts task requested w) as [E|E];
      rewrite E in Heq; apply app_inj_tail in Heq as [_ Heq];
      unfold invalidTransition in Heq; simpl in Heq; discriminate. }
  split; [|split; [|split; [|split]]].
  - intros Hin. rewrite Hrun, bool_decide_eq_true_2 by assumption. reflexivity.
  - intros Hnin. rewrite Hrun, bool_decide_eq_false_2 by assumption. reflexivity.
  - rewrite Hrun. case_bool_decide as Hd; split; intros H.
    + exact Hdiff.
    + assumption.
    + contradiction.
    + exfalso. apply H. reflexivity.
  - destruct current; simpl; rewrite ?elem_of_cons, elem_of_nil;
      intuition discriminate.
  - reflexivity.
Qed.

(** Scenarios A and B on the page: for the blocked task t2 a request for
    [done] is refused; for the backlog task t1 it is accepted, and the store
    then has t1 as [done]. *)
Lemma status_change_accepted_iff_allowed_witness :
  Ui.toasts
    (ui (snd (handleStatusChange done
                (showing (Task.mk "t2" (taskDoc "Fix build" ["e2"] "blocked"))
                   exampleWorld))))
  = [Ui.ToastError "Cannot transition from blocked to done"]
  /\ option_map Task.status
       (Db.tasks
          (db (snd (handleStatusChange done
                      (showing (Task.mk "t1" (taskDoc "Write report" ["e1"] "backlog"))
                         exampleWorld))))
        !! (getTasksPath defaultOrgId, "t1"))
     = Some "done".
Proof.
  split.
  - destruct (status_change_accepted_iff_allowed
                (showing (Task.mk "t2" (taskDoc "Fix build" ["e2"] "blocked")) exampleWorld)
                (Task.mk "t2" (taskDoc "Fix build" ["e2"] "blocked")) blocked done
                eq_refl eq_refl) as (_ & Hrefused & _).
    rewrite Hrefused; [reflexivity|]. simpl.
    rewrite ?elem_of_cons, elem_of_nil. intuition discriminate.
  - destruct (status_change_accepted_iff_allowed
                (showing (Task.mk "t1" (taskDoc "Write report" ["e1"] "backlog")) exampleWorld)
                (Task.mk "t1" (taskDoc "Write report" ["e1"] "backlog")) backlog done
                eq_refl eq_refl) as (Haccepted & _).
    rewrite Haccepted; [reflexivity|]. simpl.
    rewrite ?elem_of_cons. auto.
Defined.

(** ** Write batches *)

Section Batches.

Context {D P : Type} (apply : P -> D -> D).
Implicit Types (ops : list (Db.DocRef * P)) (m : gmap Db.DocRef D).

Lemma applyUpdates_total ops m :
  (forall r p, In (r, p) ops -> is_Some (m !! r)) ->
  is_Some (applyUpdates apply ops m).
Proof.
  revert m. induction ops as [|[r p] ops IH]; intros m Hex; simpl; [eauto|].
  destruct (Hex r p (or_introl eq_refl)) as [d Hd]. rewrite Hd.
  apply IH. intros r' p' Hin.
  destruct (decide (r = r')) as [->|Hne].
  - rewrite lookup_insert_eq. eauto.
  - rewrite lookup_insert_ne by assumption. eapply Hex. right. eassumption.
Qed.

Variable Q : D -> Prop.

Lemma applyUpdates_preserves ops :
  (forall r p d, In (r, p) ops -> Q d -> Q (apply p d)) ->
  forall m m' r d,
    applyUpdates apply ops m = Some m' -> m !! r = Some d -> Q d ->
    exists d', m' !! r = Some d' /\ Q d'.
Proof.
  induction ops as [|[r0 p0] ops IH]; intros Hpres m m' r d; simpl.
  - intros [= <-]. eauto.
  - destruct (m !! r0) as [d0|] eqn:E0; [|discriminate].
    intros Hrun Hr HQ.
    assert (Hpres' : forall r p d, In (r, p) ops -> Q d -> Q (apply p d))
      by (intros; eapply Hpres; [right|]; eauto).
    destruct (decide (r0 = r)) as [->|Hne].
    + eapply (IH Hpres' _ _ _ _ Hrun); [apply lookup_insert_eq|].
      rewrite Hr in E0. injection E0 as <-.
      eapply Hpres; [left; reflexivity|assumption].
    + eapply (IH Hpres' _ _ _ _ Hrun); [|exact HQ].
      rewrite lookup_insert_ne by assumption. exact Hr.
Qed.

Lemma applyUpdates_establishes ops :
  (forall r p d, In (r, p) ops -> Q d -> Q (apply p d)) ->
  forall m m' r p,
    In (r, p) ops -> (forall d, Q (apply p d)) ->
    applyUpdates apply ops m = Some m' ->
    exists d', m' !! r = Some d' /\ Q d'.
Proof.
  induction ops as [|[r0 p0] ops IH]; intros Hpres m m' r p; simpl; [intros []|].
  intros Hin Hest. destruct (m !! r0) as [d0|] eqn:E0; [|discriminate].
  intros Hrun.
  assert (Hpres' : forall r p d, In (r, p) ops -> Q d -> Q (apply p d))
    by (intros; eapply Hpres; [right|]; eauto).
  destruct Hin as [[= -> ->]|Hin].
  - eapply (applyUpdates_preserves ops Hpres' _ _ _ _ Hrun);
      [apply lookup_insert_eq|apply Hest].
  - eapply IH; eauto.
Qed.

End Batches.

Lemma includes_In (l : list string) (x : string) : includes l x = true <-> In x l.
Proof.
  unfold includes. rewrite existsb_exists. split.
  - intros [y [Hin Heq]]. apply String.eqb_eq in Heq. now subst.
  - intros Hin. exists x. split; [assumption|apply String.eqb_refl].
Qed.

Lemma arrayUnion_keeps (current elements : list string) (x : string) :
  In x current -> In x (arrayUnion current elements).
Proof.
  revert current. induction elements as [|e elements IH]; intros current Hin; simpl;
    [assumption|].
  apply IH. destruct (includes current e); [assumption|].
  apply in_or_app. now left.
Qed.

Lemma arrayUnion_adds (current : list string) (x : string) :
  In x (arrayUnion current [x]).
Proof.
  simpl. destruct (includes current x) eqn:E.
  - now apply includes_In.
  - apply in_or_app. right. now left.
Qed.

(** ** Back-references written on creation *)

Lemma back_reference_batch (path : string) (pa pb : User.patch)
    (QA QB : User.doc -> Prop) (members managers : list string)
    (m : gmap Db.DocRef User.doc) :
  (forall d, QA (User.applyPatch pa d)) ->
  (forall d, QB (User.applyPatch pb d)) ->
  (forall d, QA d -> QA (User.applyPatch pb d)) ->
  (forall d, QB d -> QB (User.applyPatch pa d)) ->
  (forall uid, In uid (managers ++ members) -> is_Some (m !! (path, uid))) ->
  exists m',
    applyUpdates User.applyPatch
      (map (fun memberId => (doc path memberId, pa)) members
       ++ map (fun managerId => (doc path managerId, pb)) managers) m = Some m'
    /\ (forall e, In e members -> exists u, m' !! (path, e) = Some u /\ QA u)
    /\ (forall g, In g managers -> exists u, m' !! (path, g) = Some u /\ QB u).
Proof.
  intros HA HB HAB HBA Hex.
  set (ops := map _ members ++ map _ managers).
  assert (Hops : forall r p, In (r, p) ops ->
            exists uid, r = (path, uid)
              /\ ((p = pa /\ In uid members) \/ (p = pb /\ In uid managers))).
  { intros r p Hin. apply in_app_or in Hin as [Hin|Hin];
      apply in_map_iff in Hin as (uid & [= <- <-] & Hin); eauto. }
  destruct (applyUpdates_total User.applyPatch ops m) as [m' Hm'].
  { intros r p Hin. destruct (Hops r p Hin) as (uid & -> & [[_ H]|[_ H]]);
      apply Hex, in_or_app; auto. }
  exists m'. split; [exact Hm'|]. split.
  - intros e He.
    eapply (applyUpdates_establishes User.applyPatch QA ops) with (p := pa);
      [|apply in_or_app; left; apply in_map_iff; eauto|apply HA|exact Hm'].
    intros r p d Hin HQ. destruct (Hops r p Hin) as (uid & _ & [[-> _]|[-> _]]); auto.
  - intros g Hg.
    eapply (applyUpdates_establishes User.applyPatch QB ops) with (p := pb);
      [|apply in_or_app; right; apply in_map_iff; eauto|apply HB|exact Hm'].
    intros r p d Hin HQ. destruct (Hops r p Hin) as (uid & _ & [[-> _]|[-> _]]); auto.
Qed.

Lemma applyUpdates_missing {D P} (apply : P -> D -> D) (ops : list (Db.DocRef * P))
    (m : gmap Db.DocRef D) (r : Db.DocRef) (p : P) :
  In (r, p) ops -> m !! r = None -> applyUpdates apply ops m = None.
Proof.
  revert m. induction ops as [|[r0 p0] ops IH]; intros m Hin Hm; [destruct Hin|].
  simpl. destruct (m !! r0) as [d0|] eqn:E0; [|reflexivity].
  destruct Hin as [[= -> ->]|Hin]; [congruence|].
  apply IH; [assumption|]. rewrite lookup_insert_ne; [assumption|congruence].
Qed.

(** C9 (as amended).  With the store reachable, creating a team whose data
    sets the description (a project: the description, team id, start and
    end date) and whose listed managers and members all have user documents
    succeeds, stores the new entity under a fresh id, and leaves that id in
    [managedTeamIds] ([managedProjectIds]) of every listed manager and in
    [teamIds] ([projectIds]) of every listed member.  When a listed manager
    or member has no user document, the creation is rejected after the
    entity has been stored: the entity is there and no user document is
    changed, so no listed user has the back-reference. *)
Theorem creation_writes_back_references
    (orgId createdBy : string) (w : World) (Hup : sdkFault w = None) :
  (forall data : CreateTeamData.t,
     defined (CreateTeamData.description data) = true ->
     ((forall uid,
         In uid (CreateTeamData.managerIds data ++ CreateTeamData.memberIds data) ->
         is_Some (Db.users (db w) !! (getUsersPath orgId, uid))) ->
      exists team w',
        createTeam orgId data createdBy w = (Return team, w')
        /\ Team.id team = autoIds w (idsDrawn w)
        /\ Db.teams (db w') !! (getTeamsPath orgId, Team.id team) = Some (Team.data team)
        /\ (forall g, In g (CreateTeamData.managerIds data) ->
              exists u, Db.users (db w') !! (getUsersPath orgId, g) = Some u
                        /\ In (Team.id team) (User.managedTeamIds u))
        /\ (forall e, In e (CreateTeamData.memberIds data) ->
              exists u, Db.users (db w') !! (getUsersPath orgId, e) = Some u
                        /\ In (Team.id team) (User.teamIds u)))
     /\ (forall uid,
           In uid (CreateTeamData.managerIds data ++ CreateTeamData.memberIds data) ->
           Db.users (db w) !! (getUsersPath orgId, uid) = None ->
           exists e w',
             createTeam orgId data createdBy w = (Throw e, w')
             /\ is_Some (Db.teams (db w') !! (getTeamsPath orgId, autoIds w (idsDrawn w)))
             /\ Db.users (db w') = Db.users (db w)))
  /\ (forall data : CreateProjectData.t,
        defined (CreateProjectData.description data)
        && defined (CreateProjectData.teamId data)
        && defined (CreateProjectData.startDate data)
        && defined (CreateProjectData.endDate data) = true ->
        ((forall uid,
            In uid (CreateProjectData.managerIds data
                    ++ CreateProjectData.memberIds data) ->
            is_Some (Db.users (db w) !! (getUsersPath orgId, uid))) ->
         exists project w',
           createProject orgId data createdBy w = (Return project, w')
           /\ Project.id project = autoIds w (idsDrawn w)
           /\ Db.projects (db w') !! (getProjectsPath orgId, Project.id project)
              = Some (Project.data project)
           /\ (forall g, In g (CreateProjectData.managerIds data) ->
                 exists u, Db.users (db w') !! (getUsersPath orgId, g) = Some u
                           /\ In (Project.id project) (User.managedProjectIds u))
           /\ (forall e, In e (CreateProjectData.memberIds data) ->
                 exists u, Db.users (db w') !! (getUsersPath orgId, e) = Some u
                           /\ In (Project.id project) (User.projectIds u)))
        /\ (forall uid,
              In uid (CreateProjectData.managerIds data
                      ++ CreateProjectData.memberIds data) ->
              Db.users (db w) !! (getUsersPath orgId, uid) = None ->
              exists e w',
                createProject orgId data createdBy w = (Throw e, w')
                /\ is_Some (Db.projects (db w')
                              !! (getProjectsPath orgId, autoIds w (idsDrawn w)))
                /\ Db.users (db w') = Db.users (db w))).
Proof.
  split.
  - intros data Hdesc. split.
    + intros Hex.
      destruct (back_reference_batch (getUsersPath orgId)
                  (teamIdsUnion (autoIds w (idsDrawn w)) (clock w (clockReads w)))
                  (managedTeamIdsUnion (autoIds w (idsDrawn w)) (clock w (clockReads w)))
                  (fun d => In (autoIds w (idsDrawn w)) (User.teamIds d))
                  (fun d => In (autoIds w (idsDrawn w)) (User.managedTeamIds d))
                  (CreateTeamData.memberIds data) (CreateTeamData.managerIds data)
                  (Db.users (db w)))
        as (m' & Hm' & Hmem & Hman); auto.
      { intros d. apply arrayUnion_adds. }
      { intros d. apply arrayUnion_adds. }
      unfold createTeam. async_unfold. cbn [firstUndefined]. rewrite Hdesc.
      repeat (progress (unfold Runtime.bind; cbn -[applyUpdates]; rewrite ?Hup)).
      unfold doc in Hm'. rewrite Hm'. eexists _, _. split; [reflexivity|].
      cbn. split; [reflexivity|]. split; [apply lookup_insert_eq|]. auto.
    + intros uid Hin Hnone.
      assert (Hops : applyUpdates User.applyPatch
                (map (fun memberId =>
                        ((getUsersPath orgId, memberId),
                         teamIdsUnion (autoIds w (idsDrawn w)) (clock w (clockReads w))))
                   (CreateTeamData.memberIds data)
                 ++ map (fun managerId =>
                           ((getUsersPath orgId, managerId),
                            managedTeamIdsUnion (autoIds w (idsDrawn w))
                              (clock w (clockReads w))))
                      (CreateTeamData.managerIds data))
                (Db.users (db w)) = None).
      { apply in_app_or in Hin as [Hin|Hin].
        - eapply applyUpdates_missing; [|exact Hnone].
          apply in_or_app. right. apply in_map_iff. eauto.
        - eapply applyUpdates_missing; [|exact Hnone].
          apply in_or_app. left. apply in_map_iff. eauto. }
      unfold createTeam. async_unfold. cbn [firstUndefined]. rewrite Hdesc.
      repeat (progress (unfold Runtime.bind; cbn -[applyUpdates lookup insert];
                        rewrite ?Hup)).
      rewrite Hops. eexists _, _. split; [reflexivity|].
      cbn -[lookup insert]. split; [|reflexivity].
      rewrite lookup_insert_eq. eauto.
  - intros data Hopt. repeat (apply andb_prop in Hopt as [Hopt ?]). split.
    + intros Hex.
      destruct (back_reference_batch (getUsersPath orgId)
                  (projectIdsUnion (autoIds w (idsDrawn w)) (clock w (clockReads w)))
                  (managedProjectIdsUnion (autoIds w (idsDrawn w)) (clock w (clockReads w)))
                  (fun d => In (autoIds w (idsDrawn w)) (User.projectIds d))
                  (fun d => In (autoIds w (idsDrawn w)) (User.managedProjectIds d))
                  (CreateProjectData.memberIds data) (CreateProjectData.managerIds data)
                  (Db.users (db w)))
        as (m' & Hm' & Hmem & Hman); auto.
      { intros d. apply arrayUnion_adds. }
      { intros d. apply arrayUnion_adds. }
      unfold createProject. async_unfold. cbn [firstUndefined].
      repeat match goal with H : defined _ = true |- _ => rewrite H; clear H end.
      repeat (progress (unfold Runtime.bind; cbn -[applyUpdates]; rewrite ?Hup)).
      unfold doc in Hm'. rewrite Hm'. eexists _, _. split; [reflexivity|].
      cbn. split; [reflexivity|]. split; [apply lookup_insert_eq|]. auto.
    + intros uid Hin Hnone.
      assert (Hops : applyUpdates User.applyPatch
                (map (fun memberId =>
                        ((getUsersPath orgId, memberId),
                         projectIdsUnion (autoIds w (idsDrawn w))
                           (clock w (clockReads w))))
                   (CreateProjectData.memberIds data)
                 ++ map (fun managerId =>
                           ((getUsersPath orgId, managerId),
                            managedProjectIdsUnion (autoIds w (idsDrawn w))
                              (clock w (clockReads w))))
                      (CreateProjectData.managerIds data))
                (Db.users (db w)) = None).
      { apply in_app_or in Hin as [Hin|Hin].
        - eapply applyUpdates_missing; [|exact Hnone].
          apply in_or_app. right. apply in_map_iff. eauto.
        - eapply applyUpdates_missing; [|exact Hnone].
          apply in_or_app. left. apply in_map_iff. eauto. }
      unfold createProject. async_unfold. cbn [firstUndefined].
      repeat match goal with H : defined _ = true |- _ => rewrite H; clear H end.
      repeat (progress (unfold Runtime.bind; cbn -[applyUpdates lookup insert];
                        rewrite ?Hup)).
      rewrite Hops. eexists _, _. split; [reflexivity|].
      cbn -[lookup insert]. split; [|reflexivity].
      rewrite lookup_insert_eq. eauto.
Qed.

(** Scenario E, with a description: a team with manager m1 and members e1
    and e2. *)
Lemma creation_writes_back_references_witness :
  exists team w',
    createTeam defaultOrgId
      (CreateTeamData.mk "Platform" (Some "Platform engineering") ["m1"] ["e1"; "e2"])
      "m1" exampleWorld = (Return team, w')
    /\ Team.id team = "auto0"
    /\ (exists u, Db.users (db w') !! (getUsersPath defaultOrgId, "m1") = Some u
                  /\ In (Team.id team) (User.managedTeamIds u))
    /\ (exists u, Db.users (db w') !! (getUsersPath defaultOrgId, "e1") = Some u
                  /\ In (Team.id team) (User.teamIds u))
    /\ (exists u, Db.users (db w') !! (getUsersPath defaultOrgId, "e2") = Some u
                  /\ In (Team.id team) (User.teamIds u)).
Proof.
  destruct (proj1 (creation_writes_back_references defaultOrgId "m1" exampleWorld
                     eq_refl)
              (CreateTeamData.mk "Platform" (Some "Platform engineering") ["m1"]
                 ["e1"; "e2"]) eq_refl) as [Hok _].
  destruct Hok as (team & w' & Hrun & Hid & _ & Hman & Hmem).
  - intros uid [<-|[<-|[<-|[]]]]; vm_compute; eauto.
  - exists team, w'. split; [exact Hrun|]. split; [rewrite Hid; reflexivity|].
    split; [apply Hman; simpl; auto|].
    split; apply Hmem; simpl; auto.
Defined.

(** C9 as stated fails: a team is created with the manager m1 and the
    members e1 and "ghost", of whom the last has no user document.  The
    team is stored, the creation is rejected, and neither m1 nor e1 has the
    new team's id. *)
Lemma creation_partial_write_counterexample :
  (exists e,
     fst (createTeam defaultOrgId
            (CreateTeamData.mk "Platform" (Some "Platform engineering") ["m1"]
               ["e1"; "ghost"])
            "m1" exampleWorld)
     = Throw e)
  /\ option_map Team.managerIds
       (Db.teams
          (db (snd (createTeam defaultOrgId
                      (CreateTeamData.mk "Platform" (Some "Platform engineering") ["m1"]
                         ["e1"; "ghost"])
                      "m1" exampleWorld)))
        !! (getTeamsPath defaultOrgId, "auto0"))
     = Some ["m1"]
  /\ option_map User.managedTeamIds
       (Db.users
          (db (snd (createTeam defaultOrgId
                      (CreateTeamData.mk "Platform" (Some "Platform engineering") ["m1"]
                         ["e1"; "ghost"])
                      "m1" exampleWorld)))
        !! (getUsersPath defaultOrgId, "m1"))
     = Some []
  /\ option_map User.teamIds
       (Db.users
          (db (snd (createTeam defaultOrgId
                      (CreateTeamData.mk "Platform" (Some "Platform engineering") ["m1"]
                         ["e1"; "ghost"])
                      "m1" exampleWorld)))
        !! (getUsersPath defaultOrgId, "e1"))
     = Some [].
Proof. split; [eexists; reflexivity|]. repeat split; reflexivity. Qed.

(** ** Access to a task *)

Lemma loadTask_run (id : string) (w : World) (taskData : Task.doc) :
  sdkFault w = None ->
  Db.tasks (db w) !! (getTasksPath defaultOrgId, id) = Some taskData ->
  exists commentsData usersData,
    loadTask id w =
    if negb (useIsManager (Ui.auth (ui w)))
       && negb (includes (Task.assigneeIds taskData) (userIdOrEmpty (Ui.auth (ui w))))
    then
      (Return (),
       withUi (Ui.mk (Ui.auth (ui w))
                 (Ui.mkTaskDetail (Ui.task (Ui.taskDetail (ui w)))
                    (Ui.comments (Ui.taskDetail (ui w)))
                    (Ui.users (Ui.taskDetail (ui w))) false
                    (Ui.editData (Ui.taskDetail (ui w))))
                 (Ui.toasts (ui w) ++ [Ui.ToastError "You do not have access to this task"])
                 (Ui.navigations (ui w) ++ ["/tasks"])) w)
    else
      (Return (),
       withUi (Ui.mk (Ui.auth (ui w))
                 (Ui.mkTaskDetail (Some (Task.mk id taskData)) commentsData usersData
                    false
                    (UpdateTaskData.mk (Some (Task.title taskData))
                       (Task.description taskData) None None
                       (Some (Task.priority taskData))
                       (option_map Some (Task.dueDate taskData))
                       (Some (Task.tags taskData)) None None))
                 (Ui.toasts (ui w)) (Ui.navigations (ui w))) w).
Proof.
  destruct w as [store fault clk reads ids drawn cu u]. cbn. intros -> Htask.
  eexists _, _.
  unfold loadTask, getContext, getTaskById, getComments, getUsers.
  unfold showError, toast, router_push, setTask, setComments, setUsers,
    setEditData, TaskDetailPage.setLoading, modifyPage.
  async_unfold.
  repeat (progress (unfold Runtime.bind;
                    cbn -[lookup map_to_list omap sortBy usersMap includes
                          useIsManager userIdOrEmpty];
                    rewrite ?Htask)).
  destruct (negb _ && negb _); reflexivity.
Qed.

Lemma useIsManager_rank (ctx : Ui.AuthContext) (actor : Ui.AppUser) :
  Ui.user ctx = Some actor ->
  useIsManager ctx = hasMinimumRole (User.role (User.data (Ui.profile actor))) manager.
Proof.
  intros H. unfold useIsManager, roleOf, useUser. rewrite H. simpl.
  destruct (User.role _); reflexivity.
Qed.



(** ** Disabled accounts *)

(** What a context without a user grants: nothing through the role hooks,
    and on the task page only what an empty-string assignee would get. *)
Lemma no_user_no_grant (ctx : Ui.AuthContext) :
  Ui.user ctx = None ->
  useIsAdmin ctx = false /\ useIsManager ctx = false
  /\ (forall teamId, useCanManageTeam ctx teamId = false)
  /\ (forall projectId, useCanManageProject ctx projectId = false)
  /\ (forall required, ~ exists r, roleOf ctx = Some r /\ hasMinimumRole r required = true)
  /\ (forall task, ~ In EmptyString (Task.assigneeIds (Task.data task)) ->
        canEdit ctx task = false /\ canChangeStatus ctx task = false).
Proof.
  intros H.
  unfold canChangeStatus, canEdit, isAssignee, userIdOrEmpty, useIsAdmin,
    useIsManager, useCanManageTeam, useCanManageProject, roleOf, useUser.
  rewrite H. simpl.
  split; [reflexivity|]. split; [reflexivity|]. split; [reflexivity|].
  split; [reflexivity|]. split.
  - intros required (r & Hr & _). discriminate.
  - intros task Hne.
    destruct (includes _ _) eqn:E; [|split; reflexivity].
    apply includes_In in E. contradiction.
Qed.

Lemma loadUserData_disabled (fbUser : FirebaseUser) (w : World) (d : User.doc) :
  sdkFault w = None ->
  Db.users (db w) !! (getUsersPath defaultOrgId, uid fbUser) = Some d ->
  User.status d = disabled ->
  loadUserData fbUser w =
  (Return (),
   mkWorld (db w) (sdkFault w) (clock w) (clockReads w) (autoIds w) (idsDrawn w) None
     (Ui.mk
        (match currentUser w with
         | Some _ => Ui.mkAuthContext None None false None
         | None =>
             Ui.mkAuthContext None (Ui.firebaseUser (Ui.auth (ui w)))
               (Ui.loading (Ui.auth (ui w))) (Some disabledMessage)
         end)
        (Ui.taskDetail (ui w)) (Ui.toasts (ui w)) (Ui.navigations (ui w)))).
Proof.
  destruct w as [store fault clk reads ids drawn cu u]. cbn. intros -> Hdoc Hst.
  unfold loadUserData, getUserById, setError, setUser, modifyAuth, Auth.signOut,
    Auth.authStateListenerOnNull, setFirebaseUser, AuthState.setLoading, modifyAuth.
  async_unfold.
  repeat (progress (unfold Runtime.bind; cbn -[str_includes lookup];
                    rewrite ?Hdoc, ?Hst)).
  destruct cu; reflexivity.
Qed.

Lemma loadUserData_fault_no_user (fbUser : FirebaseUser) (w : World) (e : string) :
  sdkFault w = Some e ->
  fst (loadUserData fbUser w) = Return ()
  /\ Ui.user (Ui.auth (ui (snd (loadUserData fbUser w)))) = None
  /\ db (snd (loadUserData fbUser w)) = db w
  /\ currentUser (snd (loadUserData fbUser w)) = currentUser w.
Proof.
  destruct w as [store fault clk reads ids drawn cu u]. cbn. intros ->.
  unfold loadUserData, getUserById, setError, setUser, modifyAuth.
  async_unfold.
  repeat (progress (unfold Runtime.bind; cbn -[str_includes lookup])).
  destruct (str_includes e "offline" || str_includes e "unavailable");
    [|destruct (str_includes e "permission")];
    repeat (progress (unfold Runtime.bind; cbn -[str_includes lookup]));
    repeat split.
Qed.

(** Whatever the world, [loadUserData] never leaves a disabled account in
    the auth context. *)
Lemma loadUserData_user_not_disabled (fbUser : FirebaseUser) (w : World) :
  match Ui.user (Ui.auth (ui (snd (loadUserData fbUser w)))) with
  | Some u => User.status (User.data (Ui.profile u)) <> disabled
  | None => True
  end.
Proof.
  destruct (sdkFault w) as [e|] eqn:Hf.
  { destruct (loadUserData_fault_no_user fbUser w e Hf) as (_ & -> & _). exact I. }
  destruct (Db.users (db w) !! (getUsersPath defaultOrgId, uid fbUser)) as [d|] eqn:Hdoc.
  - destruct (decide (User.status d = disabled)) as [Hd|Hd].
    + rewrite (loadUserData_disabled fbUser w d Hf Hdoc Hd). cbn.
      destruct (currentUser w); exact I.
    + destruct w as [store fault clk reads ids drawn cu u]. cbn in Hf, Hdoc. subst fault.
      unfold loadUserData, getUserById, updateUser, setError, setUser, modifyAuth.
      async_unfold.
      repeat (progress (unfold Runtime.bind; cbn -[str_includes lookup insert];
                        rewrite ?Hdoc)).
      destruct (decide (User.status d = disabled)) as [Hd'|_]; [contradiction|].
      repeat (progress (unfold Runtime.bind; cbn -[str_includes lookup insert];
                        rewrite ?Hdoc)).
      exact Hd.
  - destruct w as [store fault clk reads ids drawn cu u]. cbn in Hf, Hdoc. subst fault.
    unfold loadUserData, getUserById, createUser, updateUser, setError, setUser,
      modifyAuth.
    async_unfold.
    repeat (progress (unfold Runtime.bind; cbn -[str_includes lookup insert];
                      rewrite ?Hdoc)).
    destruct (truthy (fb_email fbUser)) as [email|];
      repeat (progress (unfold Runtime.bind; cbn -[str_includes lookup insert];
                        rewrite ?lookup_insert_eq));
      [|exact I].
    destruct (decide (active = disabled)) as [Hd|_]; [discriminate|].
    repeat (progress (unfold Runtime.bind; cbn -[str_includes lookup insert];
                      rewrite ?lookup_insert_eq)).
    discriminate.
Qed.

(** The load of a disabled account, reachable store or not. *)
Lemma loadUserData_disabled_no_user (fbUser : FirebaseUser) (w : World) (d : User.doc) :
  Db.users (db w) !! (getUsersPath defaultOrgId, uid fbUser) = Some d ->
  User.status d = disabled ->
  fst (loadUserData fbUser w) = Return ()
  /\ Ui.user (Ui.auth (ui (snd (loadUserData fbUser w)))) = None
  /\ db (snd (loadUserData fbUser w)) = db w
  /\ (sdkFault w = None -> currentUser (snd (loadUserData fbUser w)) = None).
Proof.
  intros Hdoc Hst. destruct (sdkFault w) as [e|] eqn:Hf.
  - destruct (loadUserData_fault_no_user fbUser w e Hf) as (H1 & H2 & H3 & _).
    repeat split; try assumption. discriminate.
  - rewrite (loadUserData_disabled fbUser w d Hf Hdoc Hst). cbn.
    destruct (currentUser w); repeat split.
Qed.

(** The listener that [signOut] notifies is the callback of the provider,
    called with [null]. *)
Lemma authStateListenerOnNull_callback (w : World) :
  Auth.authStateListenerOnNull w = onAuthChange None w.
Proof. reflexivity. Qed.

Lemma disableUser_keeps_ui (orgId userId : string) (w : World) :
  ui (snd (disableUser orgId userId w)) = ui w.
Proof.
  unfold disableUser, updateUser. async_unfold. cbn -[lookup insert].
  destruct (sdkFault w); cbn -[lookup insert]; [reflexivity|].
  destruct (Db.users (db w) !! _); reflexivity.
Qed.




(** ** The audit diff *)

Lemma JsValue_eqb_array (xs ys : list JsValue) :
  JsValue_eqb (JArray xs) (JArray ys) = true
  <-> Forall2 (fun x y => JsValue_eqb x y = true) xs ys.
Proof.
  cbn [JsValue_eqb]. revert ys.
  induction xs as [|x xs IH]; intros [|y ys]; split; intros H;
    try discriminate; try (inversion H; fail); try constructor.
  - now apply andb_prop in H as [H _].
  - apply IH. now apply andb_prop in H as [_ H].
  - inversion H as [|? ? ? ? Hxy Hrest]; subst.
    apply andb_true_intro. split; [exact Hxy|now apply IH].
Qed.

Lemma JsValue_eqb_refl (x : JsValue) : JsValue_eqb x x = true.
Proof.
  induction x as [| |s|q| |b|t|items IH|entries IH] using JsValue_nested_ind;
    cbn [JsValue_eqb]; try reflexivity.
  - apply String.eqb_refl.
  - apply QArith_base.Qeq_bool_iff. reflexivity.
  - destruct b; reflexivity.
  - destruct t as [t|]; [apply Z.eqb_refl|reflexivity].
  - induction IH as [|y items Hy _ IHitems]; [reflexivity|].
    now rewrite Hy, IHitems.
  - induction IH as [|[k y] entries Hy _ IHentries]; [reflexivity|].
    simpl in Hy. now rewrite String.eqb_refl, Hy, IHentries.
Qed.

Lemma auditDiff_lookup (before after : gmap string JsValue) (field : string) :
  auditDiff before after !! field
  = if bool_decide (is_Some (before !! field) \/ is_Some (after !! field))
    then if JsValue_eqb (valueAt before field) (valueAt after field) then None
         else Some (valueAt before field, valueAt after field)
    else None.
Proof.
  unfold auditDiff, valueAt. rewrite lookup_merge.
  destruct (before !! field) as [b|], (after !! field) as [a|];
    cbn [diag_None default]; case_bool_decide as Hp; try reflexivity;
    try (exfalso; apply Hp; eauto; fail);
    destruct Hp as [[? H]|[? H]]; discriminate.
Qed.


(** ** Organization scope *)

Lemma append_assoc (a b c : string) : (a +:+ b) +:+ c = a +:+ (b +:+ c).
Proof.
  induction a as [|x a IH]; [reflexivity|].
  change (String x ((a +:+ b) +:+ c) = String x (a +:+ (b +:+ c))).
  f_equal. exact IH.
Qed.

Lemma prefix_append (s t : string) : Stdlib.Strings.String.prefix s (s +:+ t) = true.
Proof.
  induction s as [|x s IH].
  - destruct t; reflexivity.
  - change (Stdlib.Strings.String.prefix (String x s) (String x (s +:+ t)) = true).
    simpl. destruct (ascii_dec x x); [exact IH|congruence].
Qed.

Lemma underOrg_collection (orgId collection rest : string) :
  underOrg orgId (("orgs/" +:+ orgId +:+ "/" +:+ collection) +:+ rest) = true.
Proof.
  unfold underOrg.
  replace (("orgs/" +:+ orgId +:+ "/" +:+ collection) +:+ rest)
    with (("orgs/" +:+ orgId +:+ "/") +:+ (collection +:+ rest)).
  - apply prefix_append.
  - rewrite !append_assoc. reflexivity.
Qed.

Lemma In_insertBy {A} (leb : A -> A -> bool) (x y : A) (l : list A) :
  In y (insertBy leb x l) <-> y = x \/ In y l.
Proof.
  induction l as [|z l IH]; simpl; [intuition|].
  destruct (leb x z); simpl; [intuition|]. rewrite IH. intuition.
Qed.

Lemma In_sortBy {A} (leb : A -> A -> bool) (y : A) (l : list A) :
  In y (sortBy leb l) <-> In y l.
Proof.
  induction l as [|x l IH]; simpl; [reflexivity|].
  rewrite In_insertBy, IH. intuition.
Qed.

Lemma getDocs_run {D} (K : Db.Kind D) (collectionPath : string) (w : World) :
  sdkFault w = None ->
  exists snapshot,
    getDocs K collectionPath w = (Return snapshot, w)
    /\ forall id d, In (id, d) snapshot <-> Db.docs K (db w) !! (collectionPath, id) = Some d.
Proof.
  intros Hup. unfold getDocs. async_unfold. rewrite Hup. eexists. split; [reflexivity|].
  intros id d. rewrite <- list_elem_of_In, list_elem_of_omap. split.
  - intros ([[c i] d'] & Hin & Heq). simpl in Heq.
    destruct (String.eqb c collectionPath) eqn:E; [|discriminate].
    apply String.eqb_eq in E. injection Heq as -> ->. subst c.
    now apply elem_of_map_to_list in Hin.
  - intros Hd. exists ((collectionPath, id), d). split.
    + now apply elem_of_map_to_list.
    + simpl. now rewrite String.eqb_refl.
Qed.

Lemma getUsers_run (orgId : string) (w : World) :
  sdkFault w = None ->
  exists us,
    getUsers orgId w = (Return us, w)
    /\ forall u, In u us
         <-> Db.users (db w) !! (getUsersPath orgId, User.id u) = Some (User.data u).
Proof.
  intros Hup.
  destruct (getDocs_run Db.userDocs (getUsersPath orgId) w Hup) as (snapshot & Hrun & Hin).
  unfold getUsers, mbind, Async_bind, Runtime.bind. rewrite Hrun.
  eexists. split; [reflexivity|]. intros [id d]. simpl.
  rewrite <- Hin, in_map_iff. split.
  - intros ([id' d'] & [= -> ->] & H). now apply In_sortBy in H.
  - intros H. exists (id, d). split; [reflexivity|]. now apply In_sortBy.
Qed.

Lemma getComments_run (orgId taskId : string) (w : World) :
  sdkFault w = None ->
  exists cs,
    getComments orgId taskId w = (Return cs, w)
    /\ forall c, In c cs
         <-> Db.comments (db w) !! (getCommentsPath orgId taskId, Comment.id c)
             = Some (Comment.data c).
Proof.
  intros Hup.
  destruct (getDocs_run Db.commentDocs (getCommentsPath orgId taskId) w Hup)
    as (snapshot & Hrun & Hin).
  unfold getComments, mbind, Async_bind, Runtime.bind. rewrite Hrun.
  eexists. split; [reflexivity|]. intros [id d]. simpl.
  rewrite <- Hin, in_map_iff. split.
  - intros ([id' d'] & [= -> ->] & H). now apply In_sortBy in H.
  - intros H. exists (id, d). split; [reflexivity|]. now apply In_sortBy.
Qed.

Lemma loadTask_not_found (id : string) (w : World) :
  sdkFault w = None ->
  Db.tasks (db w) !! (getTasksPath defaultOrgId, id) = None ->
  Ui.task (Ui.taskDetail (ui (snd (loadTask id w)))) = Ui.task (Ui.taskDetail (ui w))
  /\ Ui.toasts (ui (snd (loadTask id w)))
     = Ui.toasts (ui w) ++ [Ui.ToastError "Task not found"].
Proof.
  destruct w as [store fault clk reads ids drawn cu u]. cbn. intros -> Htask.
  unfold loadTask, getContext, getTaskById, getComments, getUsers.
  unfold showError, toast, router_push, setTask, setComments, setUsers,
    setEditData, TaskDetailPage.setLoading, modifyPage.
  async_unfold.
  repeat (progress (unfold Runtime.bind;
                    cbn -[lookup map_to_list omap sortBy usersMap includes
                          useIsManager userIdOrEmpty];
                    rewrite ?Htask)).
  split; reflexivity.
Qed.

(** * Further properties of the same files *)

(** ** Sign-in: [loadUserData] and the auth listener *)

Lemma bind_run {A B} (m : Async A) (k : A -> Async B) (w : World) :
  (m ≫= k) w =
  match m w with
  | (Return a, w') => k a w'
  | (Throw e, w') => (Throw e, w')
  end.
Proof. reflexivity. Qed.

Lemma updateUser_run (orgId userId : string) (data : User.patch) (w : World) :
  updateUser orgId userId data w =
  let w1 :=
    mkWorld (db w) (sdkFault w) (clock w) (S (clockReads w)) (autoIds w) (idsDrawn w)
      (currentUser w) (ui w) in
  match sdkFault w with
  | Some e => (Throw e, w1)
  | None =>
      match Db.users (db w) !! (getUsersPath orgId, userId) with
      | Some d =>
          (Return (),
           withDb
             (Db.withDocs Db.userDocs
                (<[(getUsersPath orgId, userId) :=
                     User.applyPatch
                       (User.mkPatch (User.p_email data) (User.p_displayName data)
                          (User.p_role data) (User.p_status data)
                          (User.p_managedTeamIds data) (User.p_managedProjectIds data)
                          (User.p_teamIds data) (User.p_projectIds data)
                          (User.p_avatarUrl data) (User.p_reminderPreferences data)
                          (User.p_lastLoginAt data) (Some (clock w (clockReads w)))) d]>
                   (Db.users (db w))) (db w)) w1)
      | None =>
          (Throw ("No document to update: "
                  +:+ Db.refPath (getUsersPath orgId, userId)), w1)
      end
  end.
Proof.
  unfold updateUser. async_unfold. simpl.
  destruct (sdkFault w); simpl; try reflexivity;
    destruct (Db.users (db w) !! (getUsersPath orgId, userId)); reflexivity.
Qed.

(** Unfold [loadUserData] down to functions on worlds and run it. *)
Ltac load_unfold :=
  unfold loadUserData, getUserById, createUser, updateUser, setError, setUser,
    modifyAuth;
  async_unfold.

Ltac load_run :=
  repeat (progress (unfold Runtime.bind; cbn -[str_includes lookup insert toLowerCase];
                    rewrite ?lookup_insert_eq)).

(** The store is failing: nothing is read or written, and the failure is
    reported through the context. *)
Lemma loadUserData_fault (fbUser : FirebaseUser) (w : World) (e : string) :
  sdkFault w = Some e ->
  loadUserData fbUser w =
  (Return (),
   withUi
     (Ui.mk
        (Ui.mkAuthContext None (Ui.firebaseUser (Ui.auth (ui w)))
           (Ui.loading (Ui.auth (ui w)))
           (Some
              (if str_includes e "offline" || str_includes e "unavailable"
               then "Unable to connect to server. Please check your internet connection and try again."
               else if str_includes e "permission"
               then "Permission denied. Please contact administrator."
               else "Failed to load user data. Please try again.")))
        (Ui.taskDetail (ui w)) (Ui.toasts (ui w)) (Ui.navigations (ui w))) w).
Proof.
  destruct w as [store fault clk reads ids drawn cu u]. cbn. intros ->.
  load_unfold. load_run.
  destruct (str_includes e "offline" || str_includes e "unavailable");
    [|destruct (str_includes e "permission")]; load_run; reflexivity.
Qed.

(** An existing account that is not disabled. *)
Lemma loadUserData_existing (fbUser : FirebaseUser) (w : World) (d : User.doc) :
  sdkFault w = None ->
  Db.users (db w) !! (getUsersPath defaultOrgId, uid fbUser) = Some d ->
  User.status d <> disabled ->
  loadUserData fbUser w =
  (Return (),
   mkWorld
     (Db.withDocs Db.userDocs
        (<[(getUsersPath defaultOrgId, uid fbUser) :=
             User.applyPatch
               (User.mkPatch None None None None None None None None None None
                  (Some (clock w (clockReads w)))
                  (Some (clock w (S (clockReads w))))) d]>
           (Db.users (db w))) (db w))
     None (clock w) (S (S (clockReads w))) (autoIds w) (idsDrawn w) (currentUser w)
     (Ui.mk
        (Ui.mkAuthContext
           (Some (Ui.mkAppUser (User.mk (uid fbUser) d)
                    (Ui.mkAuthUser (uid fbUser) (fb_email fbUser)
                       (fb_displayName fbUser) (photoURL fbUser))))
           (Ui.firebaseUser (Ui.auth (ui w))) (Ui.loading (Ui.auth (ui w))) None)
        (Ui.taskDetail (ui w)) (Ui.toasts (ui w)) (Ui.navigations (ui w)))).
Proof.
  destruct w as [store fault clk reads ids drawn cu u]. cbn. intros -> Hdoc Hst.
  load_unfold. load_run. rewrite Hdoc. load_run.
  destruct (decide (User.status d = disabled)) as [?|_]; [contradiction|].
  load_run. rewrite Hdoc. load_run. reflexivity.
Qed.

(** X1.  First sign-in.  With the store up, no user document under the
    signing-in user's id and a non-empty ASCII e-mail address at the identity
    provider, [loadUserData] creates the document and loads it: the account
    is an active employee of the configured organization, created by itself,
    with the lower-cased address, the provider's display name or else the
    part of the address before the at sign, and no team, project or managed
    entity; the same role and status are in the auth context, and no error
    is reported. *)
Theorem first_sign_in_provisions_active_employee
    (fbUser : FirebaseUser) (w : World) (email : string)
    (Hup : sdkFault w = None)
    (Hnew : Db.users (db w) !! (getUsersPath defaultOrgId, uid fbUser) = None)
    (Hemail : truthy (fb_email fbUser) = Some email)
    (Hascii : isAscii email = true) :
  exists w' d' u,
    loadUserData fbUser w = (Return (), w')
    /\ Db.users (db w') !! (getUsersPath defaultOrgId, uid fbUser) = Some d'
    /\ User.role d' = employee /\ User.status d' = active
    /\ User.orgId d' = defaultOrgId
    /\ User.email d' = toLowerCase email
    /\ User.displayName d' = default (beforeAt email) (truthy (fb_displayName fbUser))
    /\ User.createdBy d' = uid fbUser
    /\ User.managedTeamIds d' = [] /\ User.managedProjectIds d' = []
    /\ User.teamIds d' = [] /\ User.projectIds d' = []
    /\ Ui.user (Ui.auth (ui w')) = Some u
    /\ User.id (Ui.profile u) = uid fbUser
    /\ User.role (User.data (Ui.profile u)) = employee
    /\ User.status (User.data (Ui.profile u)) = active
    /\ Ui.error (Ui.auth (ui w')) = None.
Proof.
  destruct w as [store fault clk reads ids drawn cu ux]. cbn in Hup, Hnew. subst fault.
  load_unfold. load_run. rewrite Hnew. load_run. rewrite Hemail. load_run.
  destruct (decide (active = disabled)) as [?|_]; [discriminate|].
  load_run. eexists _, _, _. split; [reflexivity|].
  cbn. rewrite lookup_insert_eq. repeat split.
Qed.

(** A new colleague signs in for the first time. *)
Lemma first_sign_in_provisions_active_employee_witness :
  exists w' d',
    loadUserData (mkFirebaseUser "n1" (Some "New.Colleague@Company.com") None None)
      exampleWorld = (Return (), w')
    /\ Db.users (db w') !! (getUsersPath defaultOrgId, "n1") = Some d'
    /\ User.role d' = employee /\ User.status d' = active
    /\ User.email d' = "new.colleague@company.com"
    /\ User.displayName d' = "New.Colleague".
Proof.
  destruct (first_sign_in_provisions_active_employee
              (mkFirebaseUser "n1" (Some "New.Colleague@Company.com") None None)
              exampleWorld "New.Colleague@Company.com" eq_refl eq_refl eq_refl eq_refl)
    as (w' & d' & u & Hrun & Hdoc & Hrole & Hst & _ & Hmail & Hname & _).
  exists w', d'. split; [exact Hrun|]. split; [exact Hdoc|].
  split; [exact Hrole|]. split; [exact Hst|]. split; [exact Hmail|exact Hname].
Defined.

(** X2.  Sign-in to an existing account that is not disabled, with the
    store up: the stored profile goes into the auth context as it was read,
    no error is reported, the user stays signed in at the identity provider,
    and the only write is the last-login stamp on that document, which
    changes [lastLoginAt] and [updatedAt] and nothing else. *)
Theorem sign_in_loads_stored_profile
    (fbUser : FirebaseUser) (w : World) (d : User.doc)
    (Hup : sdkFault w = None)
    (Hdoc : Db.users (db w) !! (getUsersPath defaultOrgId, uid fbUser) = Some d)
    (Hstatus : User.status d <> disabled) :
  exists w',
    loadUserData fbUser w = (Return (), w')
    /\ Ui.user (Ui.auth (ui w'))
       = Some (Ui.mkAppUser (User.mk (uid fbUser) d)
                 (Ui.mkAuthUser (uid fbUser) (fb_email fbUser) (fb_displayName fbUser)
                    (photoURL fbUser)))
    /\ Ui.error (Ui.auth (ui w')) = None
    /\ currentUser w' = currentUser w
    /\ Db.users (db w') !! (getUsersPath defaultOrgId, uid fbUser)
       = Some (User.applyPatch
                 (User.mkPatch None None None None None None None None None None
                    (Some (clock w (clockReads w)))
                    (Some (clock w (S (clockReads w))))) d)
    /\ (forall r, r <> (getUsersPath defaultOrgId, uid fbUser) ->
          Db.users (db w') !! r = Db.users (db w) !! r)
    /\ Db.tasks (db w') = Db.tasks (db w) /\ Db.teams (db w') = Db.teams (db w)
    /\ Db.projects (db w') = Db.projects (db w).
Proof.
  eexists. split; [apply (loadUserData_existing fbUser w d Hup Hdoc Hstatus)|].
  cbn. repeat split.
  - apply lookup_insert_eq.
  - intros r Hr. now rewrite lookup_insert_ne.
Qed.

(** The manager m1 signs in. *)
Lemma sign_in_loads_stored_profile_witness :
  exists w',
    loadUserData (mkFirebaseUser "m1" (Some "m1@company.com") (Some "Manager One") None)
      exampleWorld = (Return (), w')
    /\ option_map (fun u => User.role (User.data (Ui.profile u)))
         (Ui.user (Ui.auth (ui w'))) = Some manager
    /\ option_map User.lastLoginAt
         (Db.users (db w') !! (getUsersPath defaultOrgId, "m1"))
       = Some (Some 1700000000000).
Proof.
  destruct (sign_in_loads_stored_profile
              (mkFirebaseUser "m1" (Some "m1@company.com") (Some "Manager One") None)
              exampleWorld
              (userDoc defaultOrgId "m1@company.com" "Manager One" manager active)
              eq_refl eq_refl ltac:(discriminate))
    as (w' & Hrun & Huser & _ & _ & Hstored & _).
  exists w'. split; [exact Hrun|]. rewrite Huser. split; [reflexivity|].
  cbn [uid] in Hstored. rewrite Hstored. reflexivity.
Defined.

(** X3.  Whatever the world and whoever signs in, [loadUserData] never
    removes a user document and never changes the role, the status, the
    organization or the e-mail address of an existing one. *)
Theorem sign_in_never_changes_role_or_status
    (fbUser : FirebaseUser) (w : World) (r : Db.DocRef) (d : User.doc)
    (Hdoc : Db.users (db w) !! r = Some d) :
  exists d',
    Db.users (db (snd (loadUserData fbUser w))) !! r = Some d'
    /\ User.role d' = User.role d /\ User.status d' = User.status d
    /\ User.orgId d' = User.orgId d /\ User.email d' = User.email d.
Proof.
  destruct (sdkFault w) as [e|] eqn:Hf.
  { rewrite (loadUserData_fault fbUser w e Hf). cbn. eauto 6. }
  destruct (Db.users (db w) !! (getUsersPath defaultOrgId, uid fbUser)) as [d0|] eqn:Hd0.
  - destruct (decide (User.status d0 = disabled)) as [Hdis|Hact].
    + rewrite (loadUserData_disabled fbUser w d0 Hf Hd0 Hdis). cbn. eauto 6.
    + rewrite (loadUserData_existing fbUser w d0 Hf Hd0 Hact). cbn.
      destruct (decide (r = (getUsersPath defaultOrgId, uid fbUser))) as [->|Hne].
      * rewrite lookup_insert_eq. rewrite Hd0 in Hdoc. injection Hdoc as ->.
        eexists. split; [reflexivity|]. repeat split.
      * rewrite lookup_insert_ne by congruence. eauto 6.
  - assert (Hne : r <> (getUsersPath defaultOrgId, uid fbUser)) by congruence.
    destruct w as [store fault clk reads ids drawn cu ux]. cbn in Hf, Hd0, Hdoc.
    subst fault. load_unfold. load_run. rewrite Hd0. load_run.
    destruct (truthy (fb_email fbUser)) as [email|]; load_run; [|eauto 6].
    destruct (decide (active = disabled)) as [?|_]; [discriminate|].
    load_run. rewrite !lookup_insert_ne by congruence. eauto 6.
Qed.

(** The manager m1 is still a manager after the employee e1 has signed in. *)
Lemma sign_in_never_changes_role_or_status_witness :
  exists d',
    Db.users
      (db (snd (loadUserData
                  (mkFirebaseUser "e1" (Some "e1@company.com") (Some "Employee One") None)
                  exampleWorld)))
      !! (getUsersPath defaultOrgId, "m1") = Some d'
    /\ User.role d' = manager /\ User.status d' = active.
Proof.
  destruct (sign_in_never_changes_role_or_status
              (mkFirebaseUser "e1" (Some "e1@company.com") (Some "Employee One") None)
              exampleWorld (getUsersPath defaultOrgId, "m1")
              (userDoc defaultOrgId "m1@company.com" "Manager One" manager active)
              eq_refl)
    as (d' & Hd' & Hrole & Hst & _).
  exists d'. split; [exact Hd'|]. split; [exact Hrole|exact Hst].
Defined.

(** X4.  While the store is failing, [loadUserData] still returns: it
    reads no clock and writes nothing, leaves the identity provider's session
    alone, puts no user into the context and reports the failure there; the
    message is the connection one exactly when the error mentions [offline] or
    [unavailable]. *)
Theorem sign_in_reports_store_failure
    (fbUser : FirebaseUser) (w : World) (e : string)
    (Hfault : sdkFault w = Some e) :
  exists w' message,
    loadUserData fbUser w = (Return (), w')
    /\ db w' = db w /\ clockReads w' = clockReads w /\ currentUser w' = currentUser w
    /\ Ui.user (Ui.auth (ui w')) = None
    /\ Ui.error (Ui.auth (ui w')) = Some message
    /\ (message = "Unable to connect to server. Please check your internet connection and try again."
        <-> str_includes e "offline" || str_includes e "unavailable" = true)
    /\ (message = "Permission denied. Please contact administrator."
        \/ message = "Failed to load user data. Please try again."
        \/ message = "Unable to connect to server. Please check your internet connection and try again.").
Proof.
  eexists _, _. split; [apply (loadUserData_fault fbUser w e Hfault)|].
  cbn. repeat (split; [reflexivity|]).
  destruct (str_includes e "offline" || str_includes e "unavailable");
    [|destruct (str_includes e "permission")]; (split; [split; intros; congruence|]); auto.
Qed.

(** The store reports that the client is offline. *)
Lemma sign_in_reports_store_failure_witness :
  Ui.error
    (Ui.auth
       (ui (snd (loadUserData
                   (mkFirebaseUser "m1" (Some "m1@company.com") None None)
                   (mkWorld exampleDb (Some "Failed to get document because the client is offline.")
                      exampleClock 0 exampleIds 0 None Ui.initial)))))
  = Some "Unable to connect to server. Please check your internet connection and try again.".
Proof.
  destruct (sign_in_reports_store_failure
              (mkFirebaseUser "m1" (Some "m1@company.com") None None)
              (mkWorld exampleDb (Some "Failed to get document because the client is offline.")
                 exampleClock 0 exampleIds 0 None Ui.initial)
              "Failed to get document because the client is offline." eq_refl)
    as (w' & message & Hrun & _ & _ & _ & _ & Herr & Hconn & _).
  rewrite Hrun. cbn [snd]. rewrite Herr. f_equal. apply Hconn. reflexivity.
Defined.

(** Every run of [loadUserData] returns.  It leaves the provider's
    [loading] and [firebaseUser] state alone unless it signs a disabled
    account out, which empties the context; a user it leaves in the context
    is the signing-in one and is not disabled. *)
Lemma loadUserData_settles (fbUser : FirebaseUser) (w : World) :
  exists w',
    loadUserData fbUser w = (Return (), w')
    /\ ((Ui.loading (Ui.auth (ui w')) = Ui.loading (Ui.auth (ui w))
         /\ Ui.firebaseUser (Ui.auth (ui w')) = Ui.firebaseUser (Ui.auth (ui w)))
        \/ Ui.auth (ui w') = Ui.mkAuthContext None None false None)
    /\ (forall u, Ui.user (Ui.auth (ui w')) = Some u ->
          User.id (Ui.profile u) = uid fbUser
          /\ User.status (User.data (Ui.profile u)) <> disabled
          /\ Ui.error (Ui.auth (ui w')) = None
          /\ Ui.loading (Ui.auth (ui w')) = Ui.loading (Ui.auth (ui w))
          /\ Ui.firebaseUser (Ui.auth (ui w')) = Ui.firebaseUser (Ui.auth (ui w))).
Proof.
  destruct (sdkFault w) as [e|] eqn:Hf.
  { eexists. split; [apply (loadUserData_fault fbUser w e Hf)|].
    cbn. split; [left; split; reflexivity|discriminate]. }
  destruct (Db.users (db w) !! (getUsersPath defaultOrgId, uid fbUser)) as [d0|] eqn:Hd0.
  - destruct (decide (User.status d0 = disabled)) as [Hdis|Hact].
    + eexists. split; [apply (loadUserData_disabled fbUser w d0 Hf Hd0 Hdis)|].
      cbn. destruct (currentUser w); cbn;
        (split; [auto|discriminate]).
    + eexists. split; [apply (loadUserData_existing fbUser w d0 Hf Hd0 Hact)|].
      cbn. split; [left; split; reflexivity|].
      intros u [= <-]. repeat split. exact Hact.
  - destruct w as [store fault clk reads ids drawn cu ux]. cbn in Hf, Hd0.
    subst fault. load_unfold. load_run. rewrite Hd0. load_run.
    destruct (truthy (fb_email fbUser)) as [email|]; load_run.
    + destruct (decide (active = disabled)) as [?|_]; [discriminate|].
      load_run. eexists. split; [reflexivity|]. cbn.
      split; [left; split; reflexivity|].
      intros u [= <-]. repeat split. discriminate.
    + eexists. split; [reflexivity|]. cbn.
      split; [left; split; reflexivity|discriminate].
Qed.

(** X5.  The auth listener always settles: whatever the world, store
    failures included, the callback returns and [loading] is false
    afterwards; [firebaseUser] is then the user the listener was notified
    with, or [null] where the load has signed a disabled account out.  After
    a notification with [null] there is no user and no error, and the store
    is untouched.  A user that is in the context is the one the listener was
    notified with and is not disabled, and then [firebaseUser] is that user
    and no error is reported. *)
Theorem auth_listener_always_settles (fbUser : option FirebaseUser) (w : World) :
  exists w',
    onAuthChange fbUser w = (Return (), w')
    /\ Ui.loading (Ui.auth (ui w')) = false
    /\ (Ui.firebaseUser (Ui.auth (ui w')) = fbUser
        \/ Ui.firebaseUser (Ui.auth (ui w')) = None)
    /\ (fbUser = None ->
        Ui.user (Ui.auth (ui w')) = None /\ Ui.error (Ui.auth (ui w')) = None
        /\ db w' = db w)
    /\ (forall u, Ui.user (Ui.auth (ui w')) = Some u ->
          exists fb, fbUser = Some fb /\ User.id (Ui.profile u) = uid fb
                     /\ User.status (User.data (Ui.profile u)) <> disabled
                     /\ Ui.firebaseUser (Ui.auth (ui w')) = Some fb
                     /\ Ui.error (Ui.auth (ui w')) = None).
Proof.
  unfold onAuthChange. rewrite bind_run.
  unfold setFirebaseUser at 1. unfold modifyAuth at 1. cbv beta iota.
  set (w1 := withUi _ w). rewrite bind_run.
  destruct fbUser as [fb|].
  - destruct (loadUserData_settles fb w1) as (w2 & Hrun & Hl & Hu).
    rewrite Hrun. unfold AuthState.setLoading, modifyAuth. eexists.
    split; [reflexivity|]. cbn. split; [reflexivity|].
    split; [destruct Hl as [[_ ->]| ->]; auto|]. split; [discriminate|].
    intros u Hu'. exists fb. split; [reflexivity|].
    destruct (Hu u Hu') as (H1 & H2 & H3 & _ & H5). rewrite H5. auto.
  - unfold setUser, setError, AuthState.setLoading, modifyAuth.
    cbn. eexists. split; [reflexivity|]. cbn.
    split; [reflexivity|]. split; [auto|]. split; [auto|discriminate].
Qed.

(** X6.  Disabling an account locks it out at its next load: with the
    store up, a document for the user and the user signed in at the identity
    provider, [disableUser] followed by the listener's load, or by
    [refreshUser] in a running session of that user, ends with the user
    signed out of the identity provider and with an empty context: no user,
    no [firebaseUser], [loading] false, and no error, the disabled-account
    message set before the sign-out having been cleared by the listener that
    the sign-out notifies.  The stored role is untouched. *)
Theorem disabled_account_locked_out_at_next_load
    (fbUser : FirebaseUser) (w : World) (d : User.doc)
    (Hup : sdkFault w = None)
    (Hdoc : Db.users (db w) !! (getUsersPath defaultOrgId, uid fbUser) = Some d)
    (Hsigned : is_Some (currentUser w)) :
  (exists w' d',
     (disableUser defaultOrgId (uid fbUser);; onAuthChange (Some fbUser)) w
     = (Return (), w')
     /\ Ui.auth (ui w') = Ui.mkAuthContext None None false None
     /\ currentUser w' = None
     /\ Db.users (db w') !! (getUsersPath defaultOrgId, uid fbUser) = Some d'
     /\ User.status d' = disabled /\ User.role d' = User.role d)
  /\ (Ui.firebaseUser (Ui.auth (ui w)) = Some fbUser ->
      exists w',
        (disableUser defaultOrgId (uid fbUser);; AuthProvider.refreshUser) w
        = (Return (), w')
        /\ Ui.auth (ui w') = Ui.mkAuthContext None None false None
        /\ currentUser w' = None).
Proof.
  destruct Hsigned as [cu Hcu].
  unfold disableUser. rewrite !bind_run, updateUser_run. cbv zeta. rewrite Hup, Hdoc.
  set (w1 := withDb _ _).
  assert (Hdoc1 : Db.users (db w1) !! (getUsersPath defaultOrgId, uid fbUser)
                  = Some (User.applyPatch
                            (User.mkPatch None None None (Some disabled) None None None
                               None None None None (Some (clock w (clockReads w)))) d))
    by apply lookup_insert_eq.
  split.
  - unfold onAuthChange. rewrite bind_run.
    unfold setFirebaseUser at 1. unfold modifyAuth at 1. cbv beta iota.
    set (w2 := withUi _ w1). rewrite bind_run.
    rewrite (loadUserData_disabled fbUser w2 _ eq_refl Hdoc1 eq_refl).
    cbn [currentUser w2 w1 withUi withDb]. rewrite Hcu.
    eexists _, _. split; [reflexivity|]. cbn.
    repeat (split; [reflexivity|]). split; [apply lookup_insert_eq|].
    split; reflexivity.
  - intros Hsession. unfold AuthProvider.refreshUser, getContext. rewrite bind_run.
    cbn [ui w1 withDb Ui.auth]. rewrite Hsession.
    rewrite (loadUserData_disabled fbUser w1 _ eq_refl Hdoc1 eq_refl).
    cbn [currentUser w1 withDb]. rewrite Hcu.
    eexists. split; [reflexivity|]. cbn. repeat split.
Qed.

(** The manager m1, signed in, is disabled; at the next notification of the
    listener the context is emptied. *)
Lemma disabled_account_locked_out_at_next_load_witness :
  exists w',
    (disableUser defaultOrgId "m1";;
     onAuthChange
       (Some (mkFirebaseUser "m1" (Some "m1@company.com") (Some "Manager One") None)))
      (sessionOf (mkFirebaseUser "m1" (Some "m1@company.com") (Some "Manager One") None))
    = (Return (), w')
    /\ Ui.auth (ui w') = Ui.mkAuthContext None None false None
    /\ currentUser w' = None.
Proof.
  destruct (disabled_account_locked_out_at_next_load
              (mkFirebaseUser "m1" (Some "m1@company.com") (Some "Manager One") None)
              (sessionOf (mkFirebaseUser "m1" (Some "m1@company.com")
                            (Some "Manager One") None))
              (userDoc defaultOrgId "m1@company.com" "Manager One" manager active)
              eq_refl eq_refl ltac:(eexists; reflexivity))
    as [(w' & d' & Hrun & Hctx & Hout & _) _].
  exists w'. split; [exact Hrun|]. split; [exact Hctx|exact Hout].
Defined.

(** ** The data layer: users *)

(** X7.  With the store up and a document for the user, [disableUser]
    followed by [activateUser] leaves the account active and every other
    field but [updatedAt] as it was, and touches no other user; so an
    account that was still pending comes back active, not pending. *)
Theorem activateUser_after_disableUser
    (orgId userId : string) (w : World) (d : User.doc)
    (Hup : sdkFault w = None)
    (Hdoc : Db.users (db w) !! (getUsersPath orgId, userId) = Some d) :
  exists w' d',
    (disableUser orgId userId;; activateUser orgId userId) w = (Return (), w')
    /\ Db.users (db w') !! (getUsersPath orgId, userId) = Some d'
    /\ d' = User.applyPatch
              (User.mkPatch None None None (Some active) None None None None None None
                 None (Some (clock w (S (clockReads w))))) d
    /\ User.status d' = active /\ User.role d' = User.role d
    /\ (forall r, r <> (getUsersPath orgId, userId) ->
          Db.users (db w') !! r = Db.users (db w) !! r).
Proof.
  unfold disableUser, activateUser. rewrite bind_run, updateUser_run. cbv zeta.
  rewrite Hup, Hdoc. rewrite updateUser_run. cbv zeta.
  cbn [sdkFault withDb db Db.users Db.withDocs Db.userDocs Db.docs clock clockReads].
  rewrite lookup_insert_eq. eexists _, _. split; [reflexivity|].
  cbn [db withDb Db.users Db.withDocs Db.userDocs Db.docs].
  split; [apply lookup_insert_eq|]. split; [destruct d; reflexivity|].
  split; [reflexivity|]. split; [reflexivity|].
  intros r Hr. now rewrite !lookup_insert_ne.
Qed.

(** The employee e1 is disabled and re-activated. *)
Lemma activateUser_after_disableUser_witness :
  exists w' d',
    (disableUser defaultOrgId "e1";; activateUser defaultOrgId "e1") exampleWorld
    = (Return (), w')
    /\ Db.users (db w') !! (getUsersPath defaultOrgId, "e1") = Some d'
    /\ User.status d' = active /\ User.role d' = employee.
Proof.
  destruct (activateUser_after_disableUser defaultOrgId "e1" exampleWorld
              (userDoc defaultOrgId "e1@company.com" "Employee One" employee active)
              eq_refl eq_refl)
    as (w' & d' & Hrun & Hd' & _ & Hst & Hrole & _).
  exists w', d'. split; [exact Hrun|]. split; [exact Hd'|].
  split; [exact Hst|exact Hrole].
Defined.

(** X8.  An update addressed to an id that has no document rejects and
    leaves the store as it was: [updateUser] (and with it [disableUser] and
    [activateUser]) on a missing user, [updateTask] and [updateTaskStatus] on
    a missing task. *)
Theorem updates_reject_missing_documents (orgId id : string) (w : World) :
  (Db.users (db w) !! (getUsersPath orgId, id) = None ->
   (forall data, exists e w', updateUser orgId id data w = (Throw e, w') /\ db w' = db w)
   /\ (exists e w', disableUser orgId id w = (Throw e, w') /\ db w' = db w)
   /\ (exists e w', activateUser orgId id w = (Throw e, w') /\ db w' = db w))
  /\ (Db.tasks (db w) !! (getTasksPath orgId, id) = None ->
      (forall data, exists e w', updateTask orgId id data w = (Throw e, w') /\ db w' = db w)
      /\ (forall status,
            exists e w', updateTaskStatus orgId id status w = (Throw e, w') /\ db w' = db w)).
Proof.
  split.
  - intros Hnone.
    assert (H : forall data,
               exists e w', updateUser orgId id data w = (Throw e, w') /\ db w' = db w).
    { intros data. rewrite updateUser_run. cbv zeta. rewrite Hnone.
      destruct (sdkFault w); eexists _, _; split; reflexivity. }
    split; [exact H|]. split; apply H.
  - intros Hnone. split.
    + intros data. rewrite updateTask_run. cbv zeta. rewrite Hnone.
      destruct (sdkFault w); eexists _, _; split; reflexivity.
    + intros status. rewrite updateTaskStatus_run. cbv zeta. rewrite Hnone.
      destruct (sdkFault w); eexists _, _; split; reflexivity.
Qed.

(** There is no user and no task "zz" in the example organization. *)
Lemma updates_reject_missing_documents_witness :
  (exists e w', disableUser defaultOrgId "zz" exampleWorld = (Throw e, w')
                /\ db w' = db exampleWorld)
  /\ (exists e w', updateTaskStatus defaultOrgId "zz" "done" exampleWorld = (Throw e, w')
                   /\ db w' = db exampleWorld).
Proof.
  destruct (updates_reject_missing_documents defaultOrgId "zz" exampleWorld) as [Hu Ht].
  split.
  - exact (proj1 (proj2 (Hu eq_refl))).
  - exact (proj2 (Ht eq_refl) "done").
Defined.

(** X9.  With the store up and an ASCII address in the data, [createUser]
    stores a pending account with the given role, the lower-cased address
    and no managed team or project, whatever the input says; [getUserById]
    then returns exactly the user [createUser] returned.  A document already
    under that id is replaced, and no other user is touched. *)
Theorem createUser_then_getUserById
    (orgId userId createdBy : string) (data : CreateUserData.t) (w : World)
    (Hup : sdkFault w = None)
    (Hascii : isAscii (CreateUserData.email data) = true) :
  exists user w',
    createUser orgId userId data createdBy w = (Return user, w')
    /\ getUserById orgId userId w' = (Return (Some user), w')
    /\ User.id user = userId
    /\ User.status (User.data user) = pending
    /\ User.role (User.data user) = CreateUserData.role data
    /\ User.email (User.data user) = toLowerCase (CreateUserData.email data)
    /\ User.managedTeamIds (User.data user) = []
    /\ User.managedProjectIds (User.data user) = []
    /\ User.createdAt (User.data user) = clock w (clockReads w)
    /\ (forall r, r <> (getUsersPath orgId, userId) ->
          Db.users (db w') !! r = Db.users (db w) !! r).
Proof.
  destruct w as [store fault clk reads ids drawn cu ux]. cbn in Hup. subst fault.
  unfold createUser, getUserById. async_unfold.
  repeat (progress (unfold Runtime.bind; cbn -[lookup insert toLowerCase])).
  eexists _, _. split; [reflexivity|].
  repeat (progress (unfold Runtime.bind; cbn -[lookup insert toLowerCase];
                    rewrite ?lookup_insert_eq)).
  repeat (split; [reflexivity|]).
  intros r Hr. now rewrite lookup_insert_ne.
Qed.

(** An invitation re-uses the id of the existing manager m1: the stored
    manager is replaced by a pending employee. *)
Lemma createUser_then_getUserById_witness :
  exists user w',
    createUser defaultOrgId "m1"
      (CreateUserData.mk "Someone@Company.com" "Someone" employee None None) "u1"
      exampleWorld = (Return user, w')
    /\ getUserById defaultOrgId "m1" w' = (Return (Some user), w')
    /\ User.status (User.data user) = pending
    /\ User.role (User.data user) = employee.
Proof.
  destruct (createUser_then_getUserById defaultOrgId "m1" "u1"
              (CreateUserData.mk "Someone@Company.com" "Someone" employee None None)
              exampleWorld eq_refl eq_refl)
    as (user & w' & Hrun & Hget & _ & Hst & Hrole & _).
  exists user, w'. split; [exact Hrun|]. split; [exact Hget|].
  split; [exact Hst|exact Hrole].
Defined.

(** X10.  A profile change shows after a refresh: in a running session of
    a user whose account is not disabled, with the store up, [updateUser]
    with a new display name followed by [refreshUser] puts the new name into
    the auth context, with the role and status as stored. *)
Theorem profile_change_shows_after_refresh
    (fbUser : FirebaseUser) (w : World) (d : User.doc) (name : string)
    (Hup : sdkFault w = None)
    (Hsession : Ui.firebaseUser (Ui.auth (ui w)) = Some fbUser)
    (Hdoc : Db.users (db w) !! (getUsersPath defaultOrgId, uid fbUser) = Some d)
    (Hstatus : User.status d <> disabled) :
  exists w' u,
    (updateUser defaultOrgId (uid fbUser)
       (User.mkPatch None (Some name) None None None None None None None None None None);;
     AuthProvider.refreshUser) w = (Return (), w')
    /\ Ui.user (Ui.auth (ui w')) = Some u
    /\ User.id (Ui.profile u) = uid fbUser
    /\ User.displayName (User.data (Ui.profile u)) = name
    /\ User.role (User.data (Ui.profile u)) = User.role d
    /\ User.status (User.data (Ui.profile u)) = User.status d
    /\ Ui.error (Ui.auth (ui w')) = None.
Proof.
  rewrite bind_run, updateUser_run. cbv zeta. rewrite Hup, Hdoc.
  set (w1 := withDb _ _).
  unfold AuthProvider.refreshUser, getContext. rewrite bind_run.
  cbn [ui w1 withDb Ui.auth]. rewrite Hsession.
  erewrite (loadUserData_existing fbUser w1);
    [|reflexivity|apply lookup_insert_eq|exact Hstatus].
  eexists _, _. split; [reflexivity|]. cbn. repeat split.
Qed.

(** The manager m1 changes the display name in a running session. *)
Lemma profile_change_shows_after_refresh_witness :
  exists w' u,
    (updateUser defaultOrgId "m1"
       (User.mkPatch None (Some "M. One") None None None None None None None None None None);;
     AuthProvider.refreshUser)
      (withUi
         (Ui.mk
            (Ui.mkAuthContext None
               (Some (mkFirebaseUser "m1" (Some "m1@company.com") (Some "Manager One") None))
               false None)
            Ui.initialTaskDetail [] []) exampleWorld) = (Return (), w')
    /\ Ui.user (Ui.auth (ui w')) = Some u
    /\ User.displayName (User.data (Ui.profile u)) = "M. One"
    /\ User.role (User.data (Ui.profile u)) = manager.
Proof.
  destruct (profile_change_shows_after_refresh
              (mkFirebaseUser "m1" (Some "m1@company.com") (Some "Manager One") None)
              (withUi
                 (Ui.mk
                    (Ui.mkAuthContext None
                       (Some (mkFirebaseUser "m1" (Some "m1@company.com")
                                (Some "Manager One") None))
                       false None)
                    Ui.initialTaskDetail [] []) exampleWorld)
              (userDoc defaultOrgId "m1@company.com" "Manager One" manager active)
              "M. One" eq_refl eq_refl eq_refl ltac:(discriminate))
    as (w' & u & Hrun & Hu & _ & Hname & Hrole & _).
  exists w', u. split; [exact Hrun|]. split; [exact Hu|].
  split; [exact Hname|exact Hrole].
Defined.

(** ** Ordered listings *)

Section Sorting.

Context {A : Type} (leb : A -> A -> bool).
Hypothesis leb_total : forall a b, leb a b = true \/ leb b a = true.
Hypothesis leb_trans : forall a b c, leb a b = true -> leb b c = true -> leb a c = true.

Lemma insertBy_sorted (x : A) (l : list A) :
  StronglySorted (fun a b => leb a b = true) l ->
  StronglySorted (fun a b => leb a b = true) (insertBy leb x l).
Proof.
  induction l as [|y l IH]; intros Hs; simpl.
  - constructor; constructor.
  - inversion Hs as [|? ? Hl Hy]; subst.
    destruct (leb x y) eqn:E.
    + constructor; [assumption|]. constructor; [assumption|].
      rewrite List.Forall_forall in *. intros z Hz. eauto.
    + constructor; [auto|].
      rewrite List.Forall_forall in *. intros z Hz.
      apply In_insertBy in Hz as [->|Hz]; [|auto].
      destruct (leb_total x y) as [H|H]; [congruence|assumption].
Qed.

Lemma sortBy_sorted (l : list A) :
  StronglySorted (fun a b => leb a b = true) (sortBy leb l).
Proof.
  induction l as [|x l IH]; simpl; [constructor|]. now apply insertBy_sorted.
Qed.

End Sorting.

Lemma insertBy_perm {A} (leb : A -> A -> bool) (x : A) (l : list A) :
  Permutation (insertBy leb x l) (x :: l).
Proof.
  induction l as [|y l IH]; simpl; [reflexivity|].
  destruct (leb x y); [reflexivity|].
  rewrite IH. apply perm_swap.
Qed.

Lemma sortBy_perm {A} (leb : A -> A -> bool) (l : list A) :
  Permutation (sortBy leb l) l.
Proof.
  induction l as [|x l IH]; simpl; [reflexivity|].
  rewrite insertBy_perm. now constructor.
Qed.

Lemma StronglySorted_map_In {A B} (R : A -> A -> Prop) (R' : B -> B -> Prop)
    (f : A -> B) (l : list A) :
  (forall a b, In a l -> In b l -> R a b -> R' (f a) (f b)) ->
  StronglySorted R l -> StronglySorted R' (map f l).
Proof.
  induction l as [|x l IH]; intros Hf Hs; simpl; [constructor|].
  inversion Hs as [|? ? Hl Hx]; subst. constructor.
  - apply IH; [|assumption]. intros a b Ha Hb. apply Hf; now right.
  - rewrite List.Forall_forall in *. intros y Hy.
    apply in_map_iff in Hy as (a & <- & Ha). apply Hf; [now left|now right|auto].
Qed.

(** The ids of the documents [getDocs] returns are pairwise distinct. *)
Lemma getDocs_NoDup {D} (K : Db.Kind D) (collectionPath : string) (w : World)
    (snapshot : list (string * D)) :
  getDocs K collectionPath w = (Return snapshot, w) -> NoDup (map fst snapshot).
Proof.
  unfold getDocs. async_unfold. destruct (sdkFault w); [discriminate|].
  intros [= <-].
  pose proof (NoDup_fst_map_to_list (Db.docs K (db w))) as Hnd.
  induction (map_to_list (Db.docs K (db w))) as [|[[c i] d] l IH]; simpl; [constructor|].
  simpl in Hnd. apply NoDup_cons in Hnd as [Hnotin Hnd].
  destruct (String.eqb c collectionPath) eqn:E; simpl; [|now apply IH].
  apply String.eqb_eq in E. subst c.
  apply NoDup_cons. split; [|now apply IH].
  intros Hin. apply Hnotin. clear -Hin.
  apply list_elem_of_In in Hin. apply in_map_iff in Hin as ([i' d'] & Hi & Hin).
  simpl in Hi. subst i'. apply list_elem_of_In, list_elem_of_omap in Hin
    as ([[c0 i0] d0] & Hin0 & Heq).
  simpl in Heq. destruct (String.eqb c0 collectionPath) eqn:E0; [|discriminate].
  apply String.eqb_eq in E0. injection Heq as -> ->. subst c0.
  apply list_elem_of_In, in_map_iff. exists ((collectionPath, i), d'). split; [reflexivity|].
  now apply list_elem_of_In.
Qed.

(** X11.  With the store up, [getComments] lists the comments stored
    under the task, each once, oldest first. *)
Theorem getComments_oldest_first (orgId taskId : string) (w : World)
    (Hup : sdkFault w = None) :
  exists cs,
    getComments orgId taskId w = (Return cs, w)
    /\ (forall c, In c cs
          <-> Db.comments (db w) !! (getCommentsPath orgId taskId, Comment.id c)
              = Some (Comment.data c))
    /\ NoDup (map Comment.id cs)
    /\ StronglySorted
         (fun a b => Comment.createdAt (Comment.data a) <= Comment.createdAt (Comment.data b))
         cs.
Proof.
  destruct (getComments_run orgId taskId w Hup) as (cs & Hrun & Hin).
  exists cs. split; [exact Hrun|]. split; [exact Hin|].
  destruct (getDocs_run Db.commentDocs (getCommentsPath orgId taskId) w Hup)
    as (snapshot & Hdocs & _).
  pose proof (getDocs_NoDup _ _ _ _ Hdocs) as Hnd.
  unfold getComments, mbind, Async_bind, Runtime.bind in Hrun. rewrite Hdocs in Hrun.
  injection Hrun as <-. split.
  - rewrite map_map. simpl.
    rewrite (Permutation_map fst (sortBy_perm _ snapshot)). exact Hnd.
  - eapply StronglySorted_map_In; [|apply sortBy_sorted].
    + intros a b _ _ H. simpl. now apply Z.leb_le.
    + intros a b. destruct (Z.leb_spec (Comment.createdAt (snd a)) (Comment.createdAt (snd b)));
        [now left|right; apply Z.leb_le; lia].
    + intros a b c H1 H2. apply Z.leb_le in H1, H2. apply Z.leb_le. lia.
Qed.

(** The two comments on t1 are listed with the earlier one first. *)
Lemma getComments_oldest_first_witness :
  exists cs,
    getComments defaultOrgId "t1" discussionWorld = (Return cs, discussionWorld)
    /\ map Comment.id cs = ["c2"; "c1"]
    /\ StronglySorted
         (fun a b => Comment.createdAt (Comment.data a) <= Comment.createdAt (Comment.data b))
         cs.
Proof.
  destruct (getComments_oldest_first defaultOrgId "t1" discussionWorld eq_refl)
    as (cs & Hrun & _ & _ & Hsorted).
  exists cs. split; [exact Hrun|]. split; [|exact Hsorted].
  assert (E : exists cs0,
             getComments defaultOrgId "t1" discussionWorld = (Return cs0, discussionWorld)
             /\ map Comment.id cs0 = ["c2"; "c1"])
    by (eexists; split; reflexivity).
  destruct E as (cs0 & E1 & E2). rewrite E1 in Hrun. injection Hrun as <-. exact E2.
Defined.
(** ** The data layer: comments, deletions, lookups *)

(** X12.  With the store up, [createComment] called with a list of
    mentions stores a comment under a fresh id with the given content,
    author and mentions, stamped with the clock reading of the call;
    [getComments] then lists it together with every earlier comment of the
    task that has another id.  It does not look at the task: no task document
    is changed, and no comment of another task is touched.  Called without
    mentions, as the task page calls it, it is rejected, because the comment
    is written with [mentions: undefined], and nothing is stored. *)
Theorem createComment_then_getComments
    (orgId taskId content authorId : string) (w : World) (Hup : sdkFault w = None) :
  (forall mentions : list string,
     exists c w' cs,
       DataLayer.createComment orgId taskId content authorId (Some mentions) w
       = (Return c, w')
       /\ Comment.id c = autoIds w (idsDrawn w)
       /\ Comment.content (Comment.data c) = content
       /\ Comment.authorId (Comment.data c) = authorId
       /\ Comment.taskId (Comment.data c) = taskId
       /\ Comment.mentions (Comment.data c) = Some mentions
       /\ Comment.createdAt (Comment.data c) = clock w (clockReads w)
       /\ getComments orgId taskId w' = (Return cs, w')
       /\ In c cs
       /\ (forall c0,
             Db.comments (db w) !! (getCommentsPath orgId taskId, Comment.id c0)
             = Some (Comment.data c0) ->
             Comment.id c0 <> Comment.id c -> In c0 cs)
       /\ (forall r, r <> (getCommentsPath orgId taskId, Comment.id c) ->
             Db.comments (db w') !! r = Db.comments (db w) !! r)
       /\ Db.tasks (db w') = Db.tasks (db w))
  /\ (exists e w',
        DataLayer.createComment orgId taskId content authorId None w = (Throw e, w')
        /\ db w' = db w).
Proof.
  destruct w as [store fault clk reads ids drawn cu ux]. cbn in Hup. subst fault.
  split.
  - intros mentions. unfold DataLayer.createComment. async_unfold.
    repeat (progress (unfold Runtime.bind; cbn -[lookup insert])).
    eexists _, _.
    match goal with
    | |- exists cs, (_, ?w1) = _ /\ _ =>
        destruct (getComments_run orgId taskId w1 eq_refl) as (cs & Hrun & Hin)
    end.
    exists cs. split; [reflexivity|]. cbn -[lookup insert] in *.
    repeat (split; [reflexivity|]). split; [exact Hrun|]. split.
    + apply Hin. cbn. apply lookup_insert_eq.
    + split; [|split; [|reflexivity]].
      * intros c0 Hc0 Hne. apply Hin. rewrite lookup_insert_ne; [exact Hc0|].
        intros [= E]. auto.
      * intros r Hr. now rewrite lookup_insert_ne.
  - unfold DataLayer.createComment. async_unfold.
    repeat (progress (unfold Runtime.bind; cbn -[lookup insert])).
    eexists _, _. split; reflexivity.
Qed.

(** A third remark on t1, with an empty list of mentions. *)
Lemma createComment_then_getComments_witness :
  exists c w' cs,
    DataLayer.createComment defaultOrgId "t1" "Third remark" "e1" (Some [])
      discussionWorld = (Return c, w')
    /\ getComments defaultOrgId "t1" w' = (Return cs, w')
    /\ Comment.id c = "auto0" /\ In c cs.
Proof.
  destruct (proj1 (createComment_then_getComments defaultOrgId "t1" "Third remark" "e1"
                     discussionWorld eq_refl) [])
    as (c & w' & cs & Hrun & Hid & _ & _ & _ & _ & _ & Hget & Hin & _).
  exists c, w', cs. split; [exact Hrun|]. split; [exact Hget|].
  split; [rewrite Hid; reflexivity|exact Hin].
Defined.

(** X13.  With the store up, [deleteTask] removes the task document and
    nothing else: [getTaskById] finds no task afterwards, while every comment
    stored under the task is still there and [getComments] lists the same
    comments as before. *)
Theorem deleteTask_leaves_comments (orgId taskId : string) (w : World)
    (Hup : sdkFault w = None) :
  exists w',
    DataLayer.deleteTask orgId taskId w = (Return (), w')
    /\ getTaskById orgId taskId w' = (Return None, w')
    /\ Db.comments (db w') = Db.comments (db w)
    /\ fst (getComments orgId taskId w') = fst (getComments orgId taskId w)
    /\ (forall r, r <> (getTasksPath orgId, taskId) ->
          Db.tasks (db w') !! r = Db.tasks (db w) !! r)
    /\ Db.users (db w') = Db.users (db w).
Proof.
  destruct w as [store fault clk reads ids drawn cu ux]. cbn in Hup. subst fault.
  unfold DataLayer.deleteTask, getTaskById, getComments. async_unfold.
  repeat (progress (unfold Runtime.bind; cbn -[lookup delete map_to_list])).
  eexists. split; [reflexivity|].
  repeat (progress (unfold Runtime.bind; cbn -[lookup delete map_to_list])).
  rewrite lookup_delete_eq. repeat (split; [reflexivity|]).
  split; [|reflexivity]. intros r Hr. now rewrite lookup_delete_ne.
Qed.

(** Task t1 is deleted; its two comments remain. *)
Lemma deleteTask_leaves_comments_witness :
  exists w',
    DataLayer.deleteTask defaultOrgId "t1" discussionWorld = (Return (), w')
    /\ getTaskById defaultOrgId "t1" w' = (Return None, w')
    /\ option_map (map Comment.id)
         (match fst (getComments defaultOrgId "t1" w') with
          | Return cs => Some cs
          | Throw _ => None
          end) = Some ["c2"; "c1"].
Proof.
  destruct (deleteTask_leaves_comments defaultOrgId "t1" discussionWorld eq_refl)
    as (w' & Hrun & Hget & _ & Hcs & _).
  exists w'. split; [exact Hrun|]. split; [exact Hget|]. rewrite Hcs. reflexivity.
Defined.

(** X14.  Deleting a team does not undo what creating it wrote: with the
    store up, a description in the data and user documents for all listed
    managers and members, [createTeam] followed by [deleteTeam] of the new
    team leaves no team document, while the team's id stays in
    [managedTeamIds] of every listed manager and in [teamIds] of every listed
    member. *)
Theorem deleteTeam_leaves_back_references
    (orgId createdBy : string) (data : CreateTeamData.t) (w : World)
    (Hup : sdkFault w = None)
    (Hdescription : defined (CreateTeamData.description data) = true)
    (Hex : forall uid,
        In uid (CreateTeamData.managerIds data ++ CreateTeamData.memberIds data) ->
        is_Some (Db.users (db w) !! (getUsersPath orgId, uid))) :
  exists team w1 w',
    createTeam orgId data createdBy w = (Return team, w1)
    /\ DataLayer.deleteTeam orgId (Team.id team) w1 = (Return (), w')
    /\ DataLayer.getTeamById orgId (Team.id team) w' = (Return None, w')
    /\ (forall g, In g (CreateTeamData.managerIds data) ->
          exists u, Db.users (db w') !! (getUsersPath orgId, g) = Some u
                    /\ In (Team.id team) (User.managedTeamIds u))
    /\ (forall e, In e (CreateTeamData.memberIds data) ->
          exists u, Db.users (db w') !! (getUsersPath orgId, e) = Some u
                    /\ In (Team.id team) (User.teamIds u)).
Proof.
  destruct w as [store fault clk reads ids drawn cu ux]. cbn in Hup, Hex. subst fault.
  destruct (back_reference_batch (getUsersPath orgId)
              (teamIdsUnion (ids drawn) (clk reads))
              (managedTeamIdsUnion (ids drawn) (clk reads))
              (fun d => In (ids drawn) (User.teamIds d))
              (fun d => In (ids drawn) (User.managedTeamIds d))
              (CreateTeamData.memberIds data) (CreateTeamData.managerIds data)
              (Db.users store))
    as (m' & Hm' & Hmem & Hman); auto.
  { intros d. apply arrayUnion_adds. }
  { intros d. apply arrayUnion_adds. }
  unfold createTeam, DataLayer.deleteTeam, DataLayer.getTeamById. async_unfold.
  cbn [firstUndefined]. rewrite Hdescription.
  repeat (progress (unfold Runtime.bind; cbn -[applyUpdates lookup delete insert])).
  unfold doc in Hm'. rewrite Hm'. eexists _, _, _. split; [reflexivity|].
  repeat (progress (unfold Runtime.bind; cbn -[applyUpdates lookup delete insert])).
  split; [reflexivity|].
  repeat (progress (unfold Runtime.bind; cbn -[applyUpdates lookup delete insert])).
  rewrite lookup_delete_eq. split; [reflexivity|]. auto.
Qed.

(** The team of scenario E is created and deleted again. *)
Lemma deleteTeam_leaves_back_references_witness :
  exists team w1 w',
    createTeam defaultOrgId
      (CreateTeamData.mk "Platform" (Some "Platform engineering") ["m1"] ["e1"; "e2"])
      "m1" exampleWorld = (Return team, w1)
    /\ DataLayer.deleteTeam defaultOrgId (Team.id team) w1 = (Return (), w')
    /\ DataLayer.getTeamById defaultOrgId (Team.id team) w' = (Return None, w')
    /\ (exists u, Db.users (db w') !! (getUsersPath defaultOrgId, "e1") = Some u
                  /\ In (Team.id team) (User.teamIds u)).
Proof.
  destruct (deleteTeam_leaves_back_references defaultOrgId "m1"
              (CreateTeamData.mk "Platform" (Some "Platform engineering") ["m1"]
                 ["e1"; "e2"]) exampleWorld eq_refl eq_refl)
    as (team & w1 & w' & Hrun & Hdel & Hget & _ & Hmem).
  - intros uid [<-|[<-|[<-|[]]]]; vm_compute; eauto.
  - exists team, w1, w'. split; [exact Hrun|]. split; [exact Hdel|].
    split; [exact Hget|]. apply Hmem. simpl. auto.
Defined.

Lemma toLowerCase_char (c : ascii) :
  let n := nat_of_ascii c in
  let c' := if ((65 <=? n) && (n <=? 90))%nat then ascii_of_nat (n + 32) else c in
  let n' := nat_of_ascii c' in
  (if ((65 <=? n') && (n' <=? 90))%nat then ascii_of_nat (n' + 32) else c') = c'.
Proof. destruct c as [[] [] [] [] [] [] [] []]; reflexivity. Qed.

Lemma toLowerCase_idempotent (s : string) : toLowerCase (toLowerCase s) = toLowerCase s.
Proof.
  induction s as [|c s IH]; [reflexivity|].
  cbn [toLowerCase]. rewrite IH. f_equal. apply toLowerCase_char.
Qed.

(** X15.  With the store up and an ASCII address as the query,
    [getUserByEmail] changes nothing and answers with a stored user of the
    organization whose address equals the lower-cased query, and with nobody
    exactly when no stored address does; so the spelling of the query does
    not matter, and an account whose stored address is not in lower case is
    never found. *)
Theorem getUserByEmail_matches_lowercased (orgId email : string) (w : World)
    (Hup : sdkFault w = None) (Hascii : isAscii email = true) :
  exists r,
    DataLayer.getUserByEmail orgId email w = (Return r, w)
    /\ (forall u, r = Some u ->
          Db.users (db w) !! (getUsersPath orgId, User.id u) = Some (User.data u)
          /\ User.email (User.data u) = toLowerCase email
          /\ toLowerCase (User.email (User.data u)) = User.email (User.data u))
    /\ (r = None <->
        forall id d, Db.users (db w) !! (getUsersPath orgId, id) = Some d ->
                     User.email d <> toLowerCase email)
    /\ DataLayer.getUserByEmail orgId (toLowerCase email) w = (Return r, w).
Proof.
  destruct (getDocs_run Db.userDocs (getUsersPath orgId) w Hup) as (snapshot & Hrun & Hin).
  unfold DataLayer.getUserByEmail, mbind, Async_bind, Runtime.bind. rewrite Hrun.
  rewrite toLowerCase_idempotent.
  set (found := List.filter _ (DataLayer.byId snapshot)).
  assert (Hfound : forall id d, In (id, d) found
            <-> Db.users (db w) !! (getUsersPath orgId, id) = Some d
                /\ User.email d = toLowerCase email).
  { intros id d. subst found. rewrite filter_In. unfold DataLayer.byId.
    rewrite In_sortBy, Hin. simpl. now rewrite String.eqb_eq. }
  destruct found as [|[id d] rest].
  - eexists. split; [reflexivity|]. split; [discriminate|]. split; [|reflexivity].
    split; [|reflexivity]. intros _ id d Hd He. apply (Hfound id d). auto.
  - eexists. split; [reflexivity|].
    destruct (proj1 (Hfound id d) (or_introl eq_refl)) as [Hd He].
    split; [|split; [|reflexivity]].
    + intros u [= <-]. simpl. split; [exact Hd|]. split; [exact He|].
      rewrite He. apply toLowerCase_idempotent.
    + split; [discriminate|]. intros H. destruct (H id d Hd He).
Qed.

(** The manager's address is found under another spelling. *)
Lemma getUserByEmail_matches_lowercased_witness :
  exists u,
    DataLayer.getUserByEmail defaultOrgId "M1@Company.COM" exampleWorld
    = (Return (Some u), exampleWorld)
    /\ User.email (User.data u) = "m1@company.com".
Proof.
  destruct (getUserByEmail_matches_lowercased defaultOrgId "M1@Company.COM" exampleWorld
              eq_refl eq_refl) as ([u|] & Hrun & Hsome & Hnone & _).
  - exists u. split; [exact Hrun|]. exact (proj1 (proj2 (Hsome u eq_refl))).
  - exfalso.
    apply (proj1 Hnone eq_refl "m1"
             (userDoc defaultOrgId "m1@company.com" "Manager One" manager active));
      reflexivity.
Defined.

(** ** The data layer: tasks *)

Lemma In_omap_iff {A B} (f : A -> option B) (l : list A) (b : B) :
  In b (omap f l) <-> exists a, In a l /\ f a = Some b.
Proof.
  rewrite <- list_elem_of_In, list_elem_of_omap.
  split; intros (a & Ha & Hf); exists a; split; auto; now apply list_elem_of_In.
Qed.

(** X16.  With the store up, [getOverdueTasks] changes no document and lists
    exactly the tasks of the organization that are not done (backlog, in
    progress or blocked), have a due date, and whose due date lies before the
    clock reading of the call, restricted to the tasks of the assignee when a
    non-empty one is given; the list is ordered by due date, earliest
    first. *)
Theorem getOverdueTasks_lists_open_tasks_past_due
    (orgId : string) (assigneeId : option string) (w : World)
    (Hup : sdkFault w = None) :
  exists ts w',
    DataLayer.getOverdueTasks orgId assigneeId w = (Return ts, w')
    /\ db w' = db w
    /\ (forall t, In t ts <->
          Db.tasks (db w) !! (getTasksPath orgId, Task.id t) = Some (Task.data t)
          /\ In (Task.status (Task.data t)) ["backlog"; "in_progress"; "blocked"]
          /\ (exists due, Task.dueDate (Task.data t) = Some due
                          /\ due < clock w (clockReads w))
          /\ (forall a, truthy assigneeId = Some a ->
                In a (Task.assigneeIds (Task.data t))))
    /\ StronglySorted
         (fun a b =>
            exists x y, Task.dueDate (Task.data a) = Some x
                        /\ Task.dueDate (Task.data b) = Some y /\ x <= y)
         ts.
Proof.
  destruct w as [store fault clk reads ids drawn cu ux]. cbn in Hup. subst fault.
  set (w1 := mkWorld store None clk (S reads) ids drawn cu ux).
  destruct (getDocs_run Db.taskDocs (getTasksPath orgId) w1 eq_refl)
    as (snapshot & Hrun & Hin).
  unfold DataLayer.getOverdueTasks, Timestamp_now, mbind, mret, Async_bind, Async_ret,
    Runtime.bind, Runtime.ret.
  cbn [clock clockReads db sdkFault autoIds idsDrawn currentUser ui].
  fold w1. rewrite Hrun. eexists _, _. split; [reflexivity|]. split; [reflexivity|].
  set (matching := fun d : string * Task.doc => _).
  assert (Hmatch : forall p, In p (omap matching (DataLayer.byId snapshot)) <->
            Db.tasks store !! (getTasksPath orgId, Task.id (snd p)) = Some (Task.data (snd p))
            /\ Task.dueDate (Task.data (snd p)) = Some (fst p)
            /\ In (Task.status (Task.data (snd p))) ["backlog"; "in_progress"; "blocked"]
            /\ fst p < clk reads
            /\ (forall a, truthy assigneeId = Some a ->
                  In a (Task.assigneeIds (Task.data (snd p))))).
  { intros [due [id d]]. rewrite In_omap_iff. cbn [fst snd Task.id Task.data]. split.
    - intros ([id' d'] & Hd & Hm). unfold DataLayer.byId in Hd.
      apply In_sortBy in Hd. subst matching.
      cbn [fst snd] in Hm.
      destruct (Task.dueDate d') as [due'|] eqn:Edue; [|discriminate].
      destruct (includes _ (Task.status d')) eqn:Est; [|discriminate].
      destruct (due' <? clk reads) eqn:Elt; [|discriminate].
      destruct (match truthy assigneeId with Some a => _ | None => true end) eqn:Ea;
        [|discriminate].
      cbn in Hm. injection Hm as <- <- <-.
      apply Hin in Hd. split; [exact Hd|]. split; [exact Edue|].
      split; [now apply includes_In|]. split; [now apply Z.ltb_lt|].
      intros a Ha. rewrite Ha in Ea. now apply includes_In.
    - intros (Hd & Edue & Est & Elt & Ha). exists (id, d).
      split; [unfold DataLayer.byId; now apply In_sortBy, Hin|].
      subst matching. cbn [fst snd]. rewrite Edue.
      apply includes_In in Est. rewrite Est.
      apply Z.ltb_lt in Elt. rewrite Elt.
      destruct (truthy assigneeId) as [a|]; [|reflexivity].
      specialize (Ha a eq_refl). apply includes_In in Ha. rewrite Ha. reflexivity. }
  split.
  - intros t. rewrite in_map_iff. split.
    + intros ([due t'] & <- & Hp). apply In_sortBy, Hmatch in Hp.
      cbn [fst snd] in *. destruct Hp as (Hd & Edue & Est & Elt & Ha). eauto 8.
    + intros (Hd & Est & (due & Edue & Elt) & Ha). exists (due, t). split; [reflexivity|].
      apply In_sortBy, Hmatch. cbn [fst snd]. auto.
  - eapply StronglySorted_map_In; [|apply sortBy_sorted].
    + intros a b Ha Hb Hle. apply In_sortBy, Hmatch in Ha, Hb.
      destruct Ha as (_ & Ea & _), Hb as (_ & Eb & _).
      exists (fst a), (fst b). split; [exact Ea|]. split; [exact Eb|]. now apply Z.leb_le.
    + intros a b. destruct (Z.leb_spec (fst a) (fst b)); [now left|right; apply Z.leb_le; lia].
    + intros a b c H1 H2. apply Z.leb_le in H1, H2. apply Z.leb_le. lia.
Qed.

(** At the first clock reading t4 and t3 are past due, in that order; the
    done task t5, the later task t6 and the undated tasks are not listed. *)
Lemma getOverdueTasks_lists_open_tasks_past_due_witness :
  exists ts w',
    DataLayer.getOverdueTasks defaultOrgId None discussionWorld = (Return ts, w')
    /\ map Task.id ts = ["t4"; "t3"]
    /\ StronglySorted
         (fun a b =>
            exists x y, Task.dueDate (Task.data a) = Some x
                        /\ Task.dueDate (Task.data b) = Some y /\ x <= y)
         ts.
Proof.
  destruct (getOverdueTasks_lists_open_tasks_past_due defaultOrgId None discussionWorld
              eq_refl) as (ts & w' & Hrun & _ & _ & Hsorted).
  exists ts, w'. split; [exact Hrun|]. split; [|exact Hsorted].
  assert (E : exists ts0 w0,
             DataLayer.getOverdueTasks defaultOrgId None discussionWorld = (Return ts0, w0)
             /\ map Task.id ts0 = ["t4"; "t3"])
    by (eexists _, _; split; reflexivity).
  destruct E as (ts0 & w0 & E1 & E2). rewrite E1 in Hrun. injection Hrun as <- <-.
  exact E2.
Defined.

(** X17.  When [updateTask] succeeds, the stored due date is the given
    date if one is given, is cleared if [null] is given, and is what it was
    if the data has no [dueDate]; [updatedAt] is the clock reading of the
    call; the organization, project, team, parent task, creator and creation
    time of the task are never changed, and a field left out of the data keeps
    its stored value. *)
Theorem updateTask_changes_only_given_fields
    (orgId taskId : string) (data : UpdateTaskData.t) (w w' : World)
    (Hrun : updateTask orgId taskId data w = (Return (), w')) :
  exists d d',
    Db.tasks (db w) !! (getTasksPath orgId, taskId) = Some d
    /\ Db.tasks (db w') !! (getTasksPath orgId, taskId) = Some d'
    /\ Task.dueDate d'
       = match UpdateTaskData.dueDate data with
         | Some (Some date) => Some date
         | Some None => None
         | None => Task.dueDate d
         end
    /\ Task.updatedAt d' = clock w (clockReads w)
    /\ Task.orgId d' = Task.orgId d /\ Task.projectId d' = Task.projectId d
    /\ Task.teamId d' = Task.teamId d /\ Task.parentTaskId d' = Task.parentTaskId d
    /\ Task.createdBy d' = Task.createdBy d /\ Task.createdAt d' = Task.createdAt d
    /\ Task.title d' = default (Task.title d) (UpdateTaskData.title data)
    /\ Task.assigneeIds d' = default (Task.assigneeIds d) (UpdateTaskData.assigneeIds data)
    /\ Task.priority d' = default (Task.priority d) (UpdateTaskData.priority data)
    /\ Task.tags d' = default (Task.tags d) (UpdateTaskData.tags data)
    /\ (forall r, r <> (getTasksPath orgId, taskId) ->
          Db.tasks (db w') !! r = Db.tasks (db w) !! r).
Proof.
  rewrite updateTask_run in Hrun. cbv zeta in Hrun.
  destruct (sdkFault w); [discriminate|].
  destruct (Db.tasks (db w) !! _) as [d|] eqn:E; [|discriminate].
  injection Hrun as <-. exists d. eexists. split; [reflexivity|].
  cbn [db withDb Db.tasks Db.withDocs Db.taskDocs Db.docs].
  split; [apply lookup_insert_eq|]. cbn.
  split; [destruct (UpdateTaskData.dueDate data) as [[]|]; reflexivity|].
  do 11 (split; [reflexivity|]).
  intros r Hr. now rewrite lookup_insert_ne.
Qed.

(** The due date of t3 is cleared. *)
Lemma updateTask_changes_only_given_fields_witness :
  exists d',
    Db.tasks
      (db (snd (updateTask defaultOrgId "t3"
                  (UpdateTaskData.mk None None None None None (Some None) None None None)
                  discussionWorld)))
      !! (getTasksPath defaultOrgId, "t3") = Some d'
    /\ Task.dueDate d' = None /\ Task.title d' = "File expenses".
Proof.
  destruct (updateTask_changes_only_given_fields defaultOrgId "t3"
              (UpdateTaskData.mk None None None None None (Some None) None None None)
              discussionWorld
              (snd (updateTask defaultOrgId "t3"
                      (UpdateTaskData.mk None None None None None (Some None) None None None)
                      discussionWorld))
              eq_refl)
    as (d & d' & Hd & Hd' & Hdue & _ & _ & _ & _ & _ & _ & _ & Htitle & _).
  exists d'. split; [exact Hd'|]. split; [exact Hdue|].
  rewrite Htitle. cbn [default UpdateTaskData.title].
  assert (E : Db.tasks (db discussionWorld) !! (getTasksPath defaultOrgId, "t3")
              = Some (datedTask "File expenses" ["e1"] "in_progress" (Some 1699999000000)))
    by reflexivity.
  rewrite E in Hd. injection Hd as <-. reflexivity.
Defined.

(** ** The wire codec: numbers and failures *)

(** X18.  A number is stored as the greatest integer not above it: for
    every finite number whose floor is a safe integer, encoding gives the
    decimal digits of the floor as an [integerValue], and decoding that gives
    the floor; a fraction is lost, and a negative fraction moves away from
    zero. *)
Theorem codec_stores_floor_of_number
    (toISO : Z -> string) (dateParse : string -> option Z) (q : Q)
    (Hsafe : Z.abs (Math_floor q) <= MAX_SAFE_INTEGER) :
  toFirestoreValue toISO (JNumber q) = Return (ofInteger (decimalDigits (Math_floor q)))
  /\ parseFirestoreValue dateParse (ofInteger (decimalDigits (Math_floor q)))
     = JNumber (QArith_base.inject_Z (Math_floor q))
  /\ (QArith_base.Qle (QArith_base.inject_Z (Math_floor q)) q
      /\ QArith_base.Qlt q (QArith_base.inject_Z (Math_floor q + 1))).
Proof.
  unfold MAX_SAFE_INTEGER in Hsafe.
  assert (Hlt : Z.abs (Math_floor q) < 2 ^ 53)
    by (change (2 ^ 53) with 9007199254740992; lia).
  split; [|split].
  - cbn [toFirestoreValue]. now rewrite Number_toString_safe.
  - unfold ofInteger. cbn [parseFirestoreValue stringValue integerValue].
    rewrite parseInt_decimalDigits, toNumber_small by assumption. reflexivity.
  - unfold Math_floor. split; [apply Qround.Qfloor_le|apply Qround.Qlt_floor].
Qed.

(** Two and a half is stored as 2, minus a half as -1. *)
Lemma codec_stores_floor_of_number_witness :
  parseFirestoreValue Iso8601.parse
    (encoded Iso8601.toISOString (JNumber (QArith_base.Qmake 5 2)))
  = JNumber (QArith_base.inject_Z 2)
  /\ parseFirestoreValue Iso8601.parse
       (encoded Iso8601.toISOString (JNumber (QArith_base.Qmake (-1) 2)))
     = JNumber (QArith_base.inject_Z (-1)).
Proof.
  split.
  - destruct (codec_stores_floor_of_number Iso8601.toISOString Iso8601.parse
                (QArith_base.Qmake 5 2)) as (E1 & E2 & _).
    + vm_compute. discriminate.
    + unfold encoded. rewrite E1. exact E2.
  - destruct (codec_stores_floor_of_number Iso8601.toISOString Iso8601.parse
                (QArith_base.Qmake (-1) 2)) as (E1 & E2 & _).
    + vm_compute. discriminate.
    + unfold encoded. rewrite E1. exact E2.
Defined.

Section EncodingFailures.

Variable toISO : Z -> string.
Local Abbreviation enc := (toFirestoreValue toISO).

Lemma mapM_returns {A B} (f : A -> Completion B) (l : list A) :
  Forall (fun a => exists b, f a = Return b) l -> exists bs, mapM f l = Return bs.
Proof.
  induction 1 as [|a l [b Hb] _ [bs Hbs]]; simpl; [eauto|].
  rewrite Hb, Hbs. eauto.
Qed.

Lemma mapM_throws {A B} (f : A -> Completion B) (l : list A) (e : string) :
  Forall (fun a => (exists b, f a = Return b) \/ f a = Throw e) l ->
  Exists (fun a => f a = Throw e) l ->
  mapM f l = Throw e.
Proof.
  induction l as [|a l IH]; intros Hall Hex; [inversion Hex|].
  apply Forall_cons_1 in Hall as [[[b Hb]|Ha] Hall]; simpl.
  - rewrite Hb. inversion Hex as [? ? Ha|? ? Hl]; subst; [congruence|].
    now rewrite (IH Hall Hl).
  - now rewrite Ha.
Qed.

Lemma fieldsLoop_returns entries acc :
  Forall (fun kv => notId kv = true -> exists w, enc (snd kv) = Return w) entries ->
  exists fields, fieldsLoop enc entries acc = Return fields.
Proof.
  revert acc. induction entries as [|[k v] entries IH]; intros acc Hall; simpl; [eauto|].
  apply Forall_cons_1 in Hall as [Hv Hall]. unfold notId in Hv. simpl in Hv.
  destruct (negb (String.eqb k "id")); [|now apply IH].
  destruct (Hv eq_refl) as [w ->]. now apply IH.
Qed.

Lemma fieldsLoop_throws entries acc (e : string) :
  Forall (fun kv => notId kv = true ->
                    (exists w, enc (snd kv) = Return w) \/ enc (snd kv) = Throw e) entries ->
  Exists (fun kv => notId kv = true /\ enc (snd kv) = Throw e) entries ->
  fieldsLoop enc entries acc = Throw e.
Proof.
  revert acc. induction entries as [|[k v] entries IH]; intros acc Hall Hex;
    [inversion Hex|].
  apply Forall_cons_1 in Hall as [Hv Hall]. unfold notId in Hv. simpl in Hv. simpl.
  inversion Hex as [? ? [Hk Ha]|? ? Hl]; subst.
  - unfold notId in Hk. simpl in Hk, Ha. rewrite Hk, Ha. reflexivity.
  - destruct (negb (String.eqb k "id")); [|now apply IH].
    destruct (Hv eq_refl) as [[w ->]| ->]; [now apply IH|reflexivity].
Qed.

Lemma encode_outcome (x : JsValue) :
  if Rest.hasInvalidDate x then enc x = Throw "Invalid time value"
  else exists w, enc x = Return w.
Proof.
  induction x as [| |s|q| |b|t|items IH|entries IH] using JsValue_nested_ind;
    cbn [Rest.hasInvalidDate toFirestoreValue]; eauto.
  - destruct t; eauto.
  - destruct (existsb Rest.hasInvalidDate items) eqn:E.
    + rewrite (mapM_throws enc items "Invalid time value"); [reflexivity| |].
      * eapply Forall_impl; [exact IH|]. intros y Hy. simpl in Hy.
        destruct (Rest.hasInvalidDate y); auto.
      * apply existsb_exists in E as (y & Hin & Hy). apply Exists_exists.
        exists y. split; [now apply list_elem_of_In|].
        rewrite List.Forall_forall in IH. specialize (IH y Hin). now rewrite Hy in IH.
    + destruct (mapM_returns enc items) as [bs ->]; [|eauto].
      rewrite List.Forall_forall in *. intros y Hin. specialize (IH y Hin).
      assert (Hy : Rest.hasInvalidDate y = false).
      { destruct (Rest.hasInvalidDate y) eqn:Ey; [|reflexivity].
        assert (existsb Rest.hasInvalidDate items = true)
          by (apply existsb_exists; eauto). congruence. }
      now rewrite Hy in IH.
  - destruct (existsb _ entries) eqn:E.
    + rewrite (fieldsLoop_throws entries [] "Invalid time value"); [reflexivity| |].
      * eapply Forall_impl; [exact IH|]. intros [k y] Hy _. simpl in *.
        destruct (Rest.hasInvalidDate y); auto.
      * apply existsb_exists in E as ([k y] & Hin & Hy).
        apply andb_prop in Hy as [Hk Hy]. apply Exists_exists.
        exists (k, y). split; [now apply list_elem_of_In|]. split; [exact Hk|].
        rewrite List.Forall_forall in IH. specialize (IH (k, y) Hin).
        simpl in *. now rewrite Hy in IH.
    + destruct (fieldsLoop_returns entries []) as [fields ->]; [|eauto].
      rewrite List.Forall_forall in *. intros [k y] Hin Hk. specialize (IH (k, y) Hin).
      simpl in *.
      assert (Hy : Rest.hasInvalidDate y = false).
      { destruct (Rest.hasInvalidDate y) eqn:Ey; [|reflexivity].
        assert (existsb (fun kv => notId kv && Rest.hasInvalidDate (snd kv)) entries = true).
        { apply existsb_exists. exists (k, y). split; [assumption|].
          simpl. now rewrite Hk, Ey. }
        congruence. }
      now rewrite Hy in IH.
Qed.

End EncodingFailures.

(** X19.  Encoding fails exactly on an invalid date: [toFirestoreValue]
    returns a wire value for every value in which no [Date], outside the
    fields named [id], is invalid, and throws [Invalid time value] for every
    other value; [toFirestoreFields] does the same for the fields of an
    object. *)
Theorem encoding_fails_exactly_on_invalid_dates (toISO : Z -> string) :
  (forall x,
     (Rest.hasInvalidDate x = false -> exists w, toFirestoreValue toISO x = Return w)
     /\ (Rest.hasInvalidDate x = true ->
         toFirestoreValue toISO x = Throw "Invalid time value"))
  /\ (forall obj,
        (Rest.hasInvalidDate (JObject obj) = false ->
         exists fields, toFirestoreFields toISO obj = Return fields)
        /\ (Rest.hasInvalidDate (JObject obj) = true ->
            toFirestoreFields toISO obj = Throw "Invalid time value")).
Proof.
  split.
  - intros x. pose proof (encode_outcome toISO x) as H.
    split; intros E; now rewrite E in H.
  - intros obj. pose proof (encode_outcome toISO (JObject obj)) as H.
    cbn [toFirestoreValue] in H. unfold toFirestoreFields.
    split; intros E; rewrite E in H.
    + destruct H as [w H]. destruct (fieldsLoop _ obj []); [eauto|discriminate].
    + destruct (fieldsLoop _ obj []); [discriminate|]. injection H as ->. reflexivity.
Qed.

(** An invalid date in a nested array makes the whole object fail; under a
    field named [id] it is never looked at. *)
Lemma encoding_fails_exactly_on_invalid_dates_witness :
  toFirestoreFields Iso8601.toISOString
    [("title", JString "Write report"); ("history", JArray [JNull; JDate None])]
  = Throw "Invalid time value"
  /\ exists fields,
       toFirestoreFields Iso8601.toISOString
         [("id", JDate None); ("title", JString "Write report")] = Return fields.
Proof.
  destruct (encoding_fails_exactly_on_invalid_dates Iso8601.toISOString) as [_ H].
  split.
  - apply (proj2 (H _)). reflexivity.
  - apply (proj1 (H _)). reflexivity.
Defined.

(** ** Documents of the REST interface *)

Lemma record_get_obj_set {A} (obj : list (string * A)) (k k' : string) (v : A) :
  record_get (obj_set obj k v) k' = if String.eqb k k' then Some v else record_get obj k'.
Proof.
  induction obj as [|[k0 v0] obj IH]; simpl.
  - destruct (String.eqb k k'); reflexivity.
  - destruct (String.eqb k0 k) eqn:E; simpl.
    + apply String.eqb_eq in E. subst k0. destruct (String.eqb k k'); reflexivity.
    + rewrite IH. apply String.eqb_neq in E.
      destruct (String.eqb_spec k0 k'), (String.eqb_spec k k'); congruence.
Qed.

Lemma split_nonempty (sep : ascii) (s : string) : JsString.split sep s <> [].
Proof.
  destruct s as [|c s]; simpl; [discriminate|].
  destruct (Ascii.eqb c sep); [discriminate|].
  destruct (JsString.split sep s); discriminate.
Qed.

Lemma split_no_separator (sep : ascii) (s : string) :
  ~ In sep (list_ascii_of_string s) -> JsString.split sep s = [s].
Proof.
  induction s as [|c s IH]; simpl; intros Hno; [reflexivity|].
  destruct (Ascii.eqb_spec c sep) as [->|_]; [exfalso; auto|].
  rewrite IH by auto. reflexivity.
Qed.

Lemma split_append (sep : ascii) (s t : string) :
  JsString.split sep (s +:+ String sep t) = JsString.split sep s ++ JsString.split sep t.
Proof.
  induction s as [|c s IH].
  - change (EmptyString +:+ String sep t) with (String sep t).
    cbn [JsString.split]. now rewrite Ascii.eqb_refl.
  - change (String c s +:+ String sep t) with (String c (s +:+ String sep t)).
    cbn [JsString.split]. rewrite IH. destruct (Ascii.eqb c sep); [reflexivity|].
    pose proof (split_nonempty sep s). destruct (JsString.split sep s); [contradiction|].
    reflexivity.
Qed.

Lemma last_app_nonempty {A} (l1 l2 : list A) (d : A) :
  l2 <> [] -> List.last (l1 ++ l2) d = List.last l2 d.
Proof.
  intros Hne. induction l1 as [|x l1 IH]; [reflexivity|].
  simpl. rewrite IH. destruct (l1 ++ l2) eqn:E; [|reflexivity].
  apply app_eq_nil in E as [_ ->]. contradiction.
Qed.

Lemma last_split_append (sep : ascii) (s t : string) :
  List.last (JsString.split sep (s +:+ String sep t)) EmptyString
  = List.last (JsString.split sep t) EmptyString.
Proof. rewrite split_append. apply last_app_nonempty, split_nonempty. Qed.

(** X20.  The [id] of a parsed document is the last segment of its name,
    which is the document id for a name that ends in a slash and that id,
    whatever the fields say: a stored field named [id] is overwritten; every
    other property is the decoded field of the same name. *)
Theorem document_id_comes_from_the_name
    (dateParse : string -> option Z) (doc : Rest.FirestoreDocument) :
  record_get (Rest.parseFirestoreDocument dateParse doc) "id"
  = Some (JString (List.last (JsString.split "/" (Rest.name doc)) EmptyString))
  /\ (forall key, key <> "id" ->
        record_get (Rest.parseFirestoreDocument dateParse doc) key
        = record_get (parseFields dateParse (default [] (Rest.fields doc)) []) key)
  /\ (forall path documentId,
        ~ In "/"%char (list_ascii_of_string documentId) ->
        Rest.name doc = path +:+ String "/" documentId ->
        record_get (Rest.parseFirestoreDocument dateParse doc) "id"
        = Some (JString documentId)).
Proof.
  unfold Rest.parseFirestoreDocument. split; [|split].
  - rewrite record_get_obj_set. reflexivity.
  - intros key Hkey. rewrite record_get_obj_set.
    destruct (String.eqb_spec "id" key); [congruence|reflexivity].
  - intros path documentId Hno ->. rewrite record_get_obj_set.
    rewrite last_split_append, split_no_separator by assumption. reflexivity.
Qed.

(** A document whose fields carry another [id]. *)
Lemma document_id_comes_from_the_name_witness :
  record_get
    (Rest.parseFirestoreDocument Iso8601.parse
       (Rest.mkFirestoreDocument
          "projects/demo/databases/(default)/documents/orgs/default-org/users/u1"
          (Some [("id", ofString "someone-else"); ("role", ofString "admin")])
          "2023-11-14T22:13:20.000Z" "2023-11-14T22:13:20.000Z")) "id"
  = Some (JString "u1").
Proof.
  destruct (document_id_comes_from_the_name Iso8601.parse
              (Rest.mkFirestoreDocument
                 "projects/demo/databases/(default)/documents/orgs/default-org/users/u1"
                 (Some [("id", ofString "someone-else"); ("role", ofString "admin")])
                 "2023-11-14T22:13:20.000Z" "2023-11-14T22:13:20.000Z"))
    as (_ & _ & H).
  apply (H "projects/demo/databases/(default)/documents/orgs/default-org/users" "u1").
  - simpl. intros [H0|[H0|[]]]; discriminate.
  - reflexivity.
Defined.

(** ** The REST client *)

Lemma toFirestoreFields_round_trip
    (toISO : Z -> string) (dateParse : string -> option Z)
    (date_law : forall t, validTime t = true -> dateParse (toISO t) = Some t)
    (data : list (string * JsValue)) :
  wireSafe (JObject data) = true ->
  exists fields,
    toFirestoreFields toISO data = Return fields
    /\ parseFields dateParse fields []
       = List.filter notId (map (fun kv => (fst kv, withoutId (snd kv))) data).
Proof.
  intros Hsafe.
  destruct (encode_decode toISO dateParse date_law (JObject data) Hsafe) as [E1 E2].
  unfold encoded in E1, E2. cbn [toFirestoreValue] in E1, E2.
  unfold toFirestoreFields.
  destruct (fieldsLoop (toFirestoreValue toISO) data []) as [fields|]; [|discriminate].
  exists fields. split; [reflexivity|].
  rewrite parseFirestoreValue_map in E2. cbn [withoutId] in E2. now injection E2.
Qed.

Lemma has_key_filter_notId {A} (obj : list (string * A)) :
  has_key (List.filter notId obj) "id" = false.
Proof.
  induction obj as [|[k v] obj IH]; simpl; [reflexivity|].
  unfold notId at 1. simpl. destruct (String.eqb k "id") eqn:E; simpl; [exact IH|].
  now rewrite E, IH.
Qed.

(** X21.  Writing through the REST client gives back what was stored: for
    a configured project, data built from integral numbers below 10^21 in
    magnitude, strings, booleans, null, valid dates and nested arrays and
    maps of these, no map having a field named [__proto__], and a server
    that answers the request with the stored document, [setDocumentViaRest]
    returns the data without its fields named [id], at every depth, followed
    by an [id] that is the document id of the call. *)
Theorem setDocumentViaRest_returns_stored_document
    (toISO : Z -> string) (dateParse : string -> option Z)
    (projectId : string) (fetch : Rest.Request -> Async Rest.Response)
    (collectionPath documentId idToken path createTime updateTime : string)
    (data : list (string * JsValue)) (w w1 : World)
    (date_law : forall t, validTime t = true -> dateParse (toISO t) = Some t)
    (Hconfigured : projectId <> EmptyString)
    (Hsafe : wireSafe (JObject data) = true)
    (Hid : ~ In "/"%char (list_ascii_of_string documentId))
    (Hserver : forall fields,
        fetch (Rest.mkRequest (Rest.documentUrl projectId collectionPath documentId)
                 "PATCH" ("Bearer " +:+ idToken) (Some fields)) w
        = (Return (Rest.mkResponse 200 (Return EmptyString)
                     (Return (Rest.mkFirestoreDocument (path +:+ String "/" documentId)
                                (Some fields) createTime updateTime))), w1)) :
  Rest.setDocumentViaRest toISO dateParse projectId fetch collectionPath documentId data
    idToken w
  = (Return (List.filter notId (map (fun kv => (fst kv, withoutId (snd kv))) data)
             ++ [("id", JString documentId)]), w1).
Proof.
  destruct (toFirestoreFields_round_trip toISO dateParse date_law data Hsafe)
    as (fields & Henc & Hdec).
  unfold Rest.setDocumentViaRest.
  destruct (String.eqb_spec projectId EmptyString) as [?|_]; [contradiction|].
  rewrite bind_run. unfold Rest.settle at 1. rewrite Henc.
  rewrite bind_run, Hserver. cbv iota beta. unfold Rest.ok. cbn [Rest.status].
  change ((200 <=? 200) && (200 <=? 299)) with true. cbn [negb].
  rewrite bind_run. unfold Rest.settle. cbn [Rest.json]. cbv iota beta.
  unfold Rest.parseFirestoreDocument, mret, Async_ret, Runtime.ret.
  cbn [Rest.fields Rest.name]. change (default [] (Some fields)) with fields.
  rewrite Hdec, last_split_append, split_no_separator by assumption.
  cbn [List.last]. rewrite obj_set_fresh by apply has_key_filter_notId. reflexivity.
Qed.

(** A user object with an [id] of its own is written under the id u9. *)
Lemma setDocumentViaRest_returns_stored_document_witness :
  Rest.setDocumentViaRest Iso8601.toISOString Iso8601.parse "demo" RestExamples.echoServer
    "orgs/default-org/users" "u9"
    [("id", JString "temp-1"); ("email", JString "u9@company.com");
     ("teamIds", JArray []); ("createdAt", JDate (Some 1700000000000))]
    "token" exampleWorld
  = (Return [("email", JString "u9@company.com"); ("teamIds", JArray []);
             ("createdAt", JDate (Some 1700000000000)); ("id", JString "u9")],
     exampleWorld).
Proof.
  apply (setDocumentViaRest_returns_stored_document Iso8601.toISOString Iso8601.parse
           "demo" RestExamples.echoServer "orgs/default-org/users" "u9" "token"
           "https://firestore.googleapis.com/v1/projects/demo/databases/(default)/documents/orgs/default-org/users"
           "2023-11-14T22:13:20.000Z" "2023-11-14T22:13:20.000Z"
           [("id", JString "temp-1"); ("email", JString "u9@company.com");
            ("teamIds", JArray []); ("createdAt", JDate (Some 1700000000000))]
           exampleWorld exampleWorld).
  - exact parse_toISOString.
  - discriminate.
  - reflexivity.
  - simpl. intros [H|[H|[]]]; discriminate.
  - intros fields. reflexivity.
Defined.

Lemma toFirestoreFields_invalid_date (toISO : Z -> string) (obj : list (string * JsValue)) :
  Rest.hasInvalidDate (JObject obj) = true ->
  toFirestoreFields toISO obj = Throw "Invalid time value".
Proof.
  intros E. pose proof (encode_outcome toISO (JObject obj)) as H. rewrite E in H.
  cbn [toFirestoreValue] in H. unfold toFirestoreFields.
  destruct (fieldsLoop _ obj []); [discriminate|]. injection H as ->. reflexivity.
Qed.

(** X22.  The REST client makes no request it cannot make: without a
    configured project id both calls throw the configuration error, and
    [setDocumentViaRest] throws [Invalid time value] for data with an invalid
    date; in both cases whatever [fetch] would do, and the world is left as it
    was. *)
Theorem rest_client_rejects_before_any_request
    (toISO : Z -> string) (dateParse : string -> option Z)
    (fetch : Rest.Request -> Async Rest.Response)
    (collectionPath documentId idToken : string) (data : list (string * JsValue))
    (w : World) :
  Rest.getDocumentViaRest dateParse EmptyString fetch collectionPath documentId idToken w
  = (Throw "Firebase projectId is not configured", w)
  /\ Rest.setDocumentViaRest toISO dateParse EmptyString fetch collectionPath documentId
       data idToken w
     = (Throw "Firebase projectId is not configured", w)
  /\ (forall projectId,
        Rest.hasInvalidDate (JObject data) = true ->
        exists message,
          Rest.setDocumentViaRest toISO dateParse projectId fetch collectionPath
            documentId data idToken w = (Throw message, w)
          /\ (projectId <> EmptyString -> message = "Invalid time value")).
Proof.
  split; [reflexivity|]. split; [reflexivity|].
  intros projectId Hbad. unfold Rest.setDocumentViaRest.
  destruct (String.eqb_spec projectId EmptyString) as [->|Hne].
  - eexists. split; [reflexivity|]. congruence.
  - rewrite bind_run. unfold Rest.settle at 1.
    rewrite (toFirestoreFields_invalid_date toISO data Hbad).
    eexists. split; reflexivity.
Qed.

(** Without configuration nothing is sent, even to a server that would
    answer. *)
Lemma rest_client_rejects_before_any_request_witness :
  Rest.setDocumentViaRest Iso8601.toISOString Iso8601.parse EmptyString
    RestExamples.echoServer "orgs/default-org/users" "u9"
    [("email", JString "u9@company.com")] "token" exampleWorld
  = (Throw "Firebase projectId is not configured", exampleWorld)
  /\ exists message,
       Rest.setDocumentViaRest Iso8601.toISOString Iso8601.parse "demo"
         RestExamples.echoServer "orgs/default-org/users" "u9"
         [("lastLoginAt", JDate None)] "token" exampleWorld
       = (Throw message, exampleWorld)
       /\ message = "Invalid time value".
Proof.
  split.
  - exact (proj1 (proj2 (rest_client_rejects_before_any_request Iso8601.toISOString
                           Iso8601.parse RestExamples.echoServer "orgs/default-org/users"
                           "u9" "token" [("email", JString "u9@company.com")]
                           exampleWorld))).
  - destruct (proj2 (proj2 (rest_client_rejects_before_any_request Iso8601.toISOString
                              Iso8601.parse RestExamples.echoServer
                              "orgs/default-org/users" "u9" "token"
                              [("lastLoginAt", JDate None)] exampleWorld))
                "demo" eq_refl) as (message & Hrun & Hmsg).
    exists message. split; [exact Hrun|]. apply Hmsg. discriminate.
Defined.

(** How the REST client reads the status of an answer, for a
    configured project: [getDocumentViaRest] answers [null] on 404 whatever
    the body, and on any other status outside 200 to 299 it throws an error
    that carries the status and the text of the body; [setDocumentViaRest]
    throws that error on every status outside 200 to 299, 404 included. *)
Lemma rest_client_status_handling
    (toISO : Z -> string) (dateParse : string -> option Z)
    (projectId : string) (fetch : Rest.Request -> Async Rest.Response)
    (collectionPath documentId idToken : string) (response : Rest.Response)
    (errorText : string) (w w1 : World)
    (Hconfigured : projectId <> EmptyString)
    (Htext : Rest.text response = Return errorText) :
  (fetch (Rest.mkRequest (Rest.documentUrl projectId collectionPath documentId) "GET"
            ("Bearer " +:+ idToken) None) w = (Return response, w1) ->
   (Rest.status response = 404 ->
    Rest.getDocumentViaRest dateParse projectId fetch collectionPath documentId idToken w
    = (Return None, w1))
   /\ (Rest.status response <> 404 -> Rest.ok response = false ->
       Rest.getDocumentViaRest dateParse projectId fetch collectionPath documentId idToken w
       = (Throw ("Firestore REST API error: " +:+ Number_toString (Rest.status response)
                 +:+ " - " +:+ errorText), w1)))
  /\ (forall data fields,
        toFirestoreFields toISO data = Return fields ->
        fetch (Rest.mkRequest (Rest.documentUrl projectId collectionPath documentId) "PATCH"
                 ("Bearer " +:+ idToken) (Some fields)) w = (Return response, w1) ->
        Rest.ok response = false ->
        Rest.setDocumentViaRest toISO dateParse projectId fetch collectionPath documentId
          data idToken w
        = (Throw ("Firestore REST API error: " +:+ Number_toString (Rest.status response)
                  +:+ " - " +:+ errorText), w1)).
Proof.
  split.
  - intros Hfetch. unfold Rest.getDocumentViaRest.
    destruct (String.eqb_spec projectId EmptyString) as [?|_]; [contradiction|].
    unfold Runtime.tryCatch. rewrite bind_run, Hfetch. cbv iota beta. split.
    + intros ->. reflexivity.
    + intros Hne Hok. apply Z.eqb_neq in Hne. rewrite Hne, Hok. cbn [negb].
      rewrite bind_run. unfold Rest.settle. rewrite Htext. reflexivity.
  - intros data fields Henc Hfetch Hok. unfold Rest.setDocumentViaRest.
    destruct (String.eqb_spec projectId EmptyString) as [?|_]; [contradiction|].
    rewrite bind_run. unfold Rest.settle at 1. rewrite Henc.
    rewrite bind_run, Hfetch. cbv iota beta. rewrite Hok. cbn [negb].
    rewrite bind_run. unfold Rest.settle. rewrite Htext. reflexivity.
Qed.

(** The server has no such document. *)
Lemma rest_client_status_handling_on_404 :
  Rest.getDocumentViaRest Iso8601.parse "demo" (RestExamples.failingServer 404 "Not Found")
    "orgs/default-org/users" "u9" "token" exampleWorld
  = (Return None, exampleWorld)
  /\ Rest.setDocumentViaRest Iso8601.toISOString Iso8601.parse "demo"
       (RestExamples.failingServer 404 "Not Found") "orgs/default-org/users" "u9"
       [("email", JString "u9@company.com")] "token" exampleWorld
     = (Throw "Firestore REST API error: 404 - Not Found", exampleWorld).
Proof.
  destruct (rest_client_status_handling Iso8601.toISOString Iso8601.parse "demo"
              (RestExamples.failingServer 404 "Not Found") "orgs/default-org/users" "u9"
              "token" (Rest.mkResponse 404 (Return "Not Found")
                         (Throw "Unexpected end of JSON input"))
              "Not Found" exampleWorld exampleWorld ltac:(discriminate) eq_refl)
    as [Hget Hset].
  split.
  - apply Hget; reflexivity.
  - apply (Hset [("email", JString "u9@company.com")]
             [("email", ofString "u9@company.com")]); reflexivity.
Defined.

(** ** Text helpers and registration *)

Lemma length_append (s t : string) :
  String.length (s +:+ t) = (String.length s + String.length t)%nat.
Proof.
  induction s as [|c s IH]; [reflexivity|].
  change (String c s +:+ t) with (String c (s +:+ t)). simpl. now rewrite IH.
Qed.

Lemma length_takeChars (n : nat) (s : string) :
  String.length (JsString.takeChars n s) = Nat.min n (String.length s).
Proof.
  revert s. induction n as [|n IH]; intros [|c s]; simpl; auto.
Qed.

Lemma takeChars_all (n : nat) (s : string) :
  (String.length s <= n)%nat -> JsString.takeChars n s = s.
Proof.
  revert s. induction n as [|n IH]; intros [|c s]; simpl; intros H; try reflexivity.
  - lia.
  - f_equal. apply IH. lia.
Qed.

(** X24.  [truncate] of an ASCII text with an integer limit: a text no
    longer than the limit is returned as it is; a longer text is cut to the
    limit, its last three characters being the dots, when the limit is at
    least 3; for a limit below 3 a longer text becomes the three dots alone,
    which is longer than the limit. *)
Theorem truncate_respects_limit_from_three (text : string) (maxLength : Z)
    (Hascii : isAscii text = true) :
  (Z.of_nat (String.length text) <= maxLength -> TextHelpers.truncate text maxLength = text)
  /\ (maxLength < Z.of_nat (String.length text) -> 3 <= maxLength ->
      TextHelpers.truncate text maxLength
      = JsString.takeChars (Z.to_nat (maxLength - 3)) text +:+ "..."
      /\ Z.of_nat (String.length (TextHelpers.truncate text maxLength)) = maxLength)
  /\ (maxLength < Z.of_nat (String.length text) -> maxLength < 3 ->
      TextHelpers.truncate text maxLength = "...").
Proof.
  unfold TextHelpers.truncate, JsString.substring0.
  split; [|split].
  - intros H. apply Z.leb_le in H. now rewrite H.
  - intros H H3. apply Z.leb_gt in H. rewrite H. split; [reflexivity|].
    rewrite length_append, length_takeChars. apply Z.leb_gt in H. simpl. lia.
  - intros H H3. apply Z.leb_gt in H. rewrite H.
    replace (Z.to_nat (maxLength - 3)) with O by lia. reflexivity.
Qed.

(** A title is cut to ten characters; with a limit of two it becomes three
    dots. *)
Lemma truncate_respects_limit_from_three_witness :
  TextHelpers.truncate "Write the report" 10 = "Write t..."
  /\ TextHelpers.truncate "Write the report" 2 = "...".
Proof.
  destruct (truncate_respects_limit_from_three "Write the report" 10 eq_refl)
    as (_ & H10 & _).
  destruct (truncate_respects_limit_from_three "Write the report" 2 eq_refl)
    as (_ & _ & H2).
  split.
  - rewrite (proj1 (H10 ltac:(simpl; lia) ltac:(lia))). reflexivity.
  - apply H2; simpl; lia.
Defined.

Lemma split_two (sep : ascii) (s t : string) :
  ~ In sep (list_ascii_of_string s) ->
  JsString.split sep (s +:+ String sep t) = s :: JsString.split sep t.
Proof. intros Hs. now rewrite split_append, split_no_separator. Qed.

(** X25.  [getInitials] gives at most two characters; a space before the
    name changes nothing; a single word gives its first character in upper
    case, and two words separated by a space give the first characters of
    both. *)
Theorem getInitials_first_letters_of_two_words :
  (forall name, (String.length (TextHelpers.getInitials name) <= 2)%nat)
  /\ (forall name,
        TextHelpers.getInitials (String " " name) = TextHelpers.getInitials name)
  /\ (forall c rest,
        ~ In " "%char (list_ascii_of_string (String c rest)) ->
        TextHelpers.getInitials (String c rest)
        = JsString.toUpperCase (String c EmptyString))
  /\ (forall c1 rest1 c2 rest2,
        ~ In " "%char (list_ascii_of_string (String c1 rest1)) ->
        ~ In " "%char (list_ascii_of_string (String c2 rest2)) ->
        TextHelpers.getInitials (String c1 rest1 +:+ String " " (String c2 rest2))
        = JsString.toUpperCase (String c1 (String c2 EmptyString))).
Proof.
  unfold TextHelpers.getInitials, JsString.substring0. split; [|split; [|split]].
  - intros name. rewrite length_takeChars. lia.
  - intros name. cbn [JsString.split]. change (Ascii.eqb " " " ") with true. cbv iota.
    pose proof (split_nonempty " " name).
    destruct (JsString.split " " name) as [|x l]; [contradiction|]. reflexivity.
  - intros c rest Hno. rewrite split_no_separator by assumption. reflexivity.
  - intros c1 rest1 c2 rest2 H1 H2.
    rewrite split_two, split_no_separator by assumption. reflexivity.
Qed.

(** The initials of a colleague. *)
Lemma getInitials_first_letters_of_two_words_witness :
  TextHelpers.getInitials "manager one" = "MO".
Proof.
  destruct getInitials_first_letters_of_two_words as (_ & _ & _ & H).
  apply (H "m"%char "anager" "o"%char "ne").
  - simpl. intros [H0|[H0|[H0|[H0|[H0|[H0|[H0|[]]]]]]]]; discriminate.
  - simpl. intros [H0|[H0|[H0|[]]]]; discriminate.
Defined.

Lemma isValidEmailDomain_of_domain (email domain : string) (allowedDomains : list string) :
  JsString.split "@" email !! 1%nat = Some domain ->
  TextHelpers.isValidEmailDomain email allowedDomains = true
  <-> exists d, In d allowedDomains /\ toLowerCase d = toLowerCase domain.
Proof.
  intros Hd. unfold TextHelpers.isValidEmailDomain. rewrite Hd. cbn [option_map].
  rewrite existsb_exists. split.
  - intros (d & Hin & Heq). apply bool_decide_eq_true in Heq. injection Heq as Heq. eauto.
  - intros (d & Hin & Heq). exists d. split; [exact Hin|].
    apply bool_decide_eq_true. now rewrite Heq.
Qed.

(** X26.  [isValidEmailDomain] compares, without regard to case, the text
    between the first and the second at sign with the allowed domains: an
    address without an at sign is never valid, an address [local@domain] is
    valid exactly when the domain is an allowed one, and whatever follows a
    second at sign is ignored, so [local@domain@rest] is valid whenever
    [local@domain] is. *)
Theorem isValidEmailDomain_reads_second_segment (allowedDomains : list string) :
  (forall email,
     ~ In "@"%char (list_ascii_of_string email) ->
     TextHelpers.isValidEmailDomain email allowedDomains = false)
  /\ (forall local domain,
        ~ In "@"%char (list_ascii_of_string local) ->
        ~ In "@"%char (list_ascii_of_string domain) ->
        TextHelpers.isValidEmailDomain (local +:+ String "@" domain) allowedDomains = true
        <-> exists d, In d allowedDomains /\ toLowerCase d = toLowerCase domain)
  /\ (forall local domain rest,
        ~ In "@"%char (list_ascii_of_string local) ->
        ~ In "@"%char (list_ascii_of_string domain) ->
        TextHelpers.isValidEmailDomain
          (local +:+ String "@" (domain +:+ String "@" rest)) allowedDomains
        = TextHelpers.isValidEmailDomain (local +:+ String "@" domain) allowedDomains).
Proof.
  split; [|split].
  - intros email Hno. unfold TextHelpers.isValidEmailDomain.
    rewrite split_no_separator by assumption. cbn.
    induction allowedDomains as [|d l IH]; [reflexivity|]. simpl. exact IH.
  - intros local domain Hl Hd. apply isValidEmailDomain_of_domain.
    rewrite split_two, split_no_separator by assumption. reflexivity.
  - intros local domain rest Hl Hd. unfold TextHelpers.isValidEmailDomain.
    rewrite (split_two "@" local (domain +:+ String "@" rest)) by assumption.
    rewrite (split_two "@" domain rest) by assumption.
    rewrite (split_two "@" local domain) by assumption.
    rewrite (split_no_separator "@" domain) by assumption. reflexivity.
Qed.

(** An address of another domain that carries an allowed one in the
    middle passes the check. *)
Lemma isValidEmailDomain_reads_second_segment_witness :
  Registration.validateEmailDomain "eve@Gmail.com@elsewhere.example" = true
  /\ Registration.validateEmailDomain "eve.elsewhere.example" = false.
Proof.
  destruct (isValidEmailDomain_reads_second_segment Registration.allowedEmailDomains)
    as (Hnone & Hone & Hmore).
  unfold Registration.validateEmailDomain. split.
  - change "eve@Gmail.com@elsewhere.example"
      with ("eve" +:+ String "@" ("Gmail.com" +:+ String "@" "elsewhere.example")).
    rewrite Hmore.
    + apply Hone.
      * simpl. intros [H|[H|[H|[]]]]; discriminate.
      * simpl. intros H. repeat (destruct H as [H|H]; [discriminate|]). exact H.
      * exists "gmail.com". split; [simpl; auto|reflexivity].
    + simpl. intros [H|[H|[H|[]]]]; discriminate.
    + simpl. intros H. repeat (destruct H as [H|H]; [discriminate|]). exact H.
  - apply Hnone. simpl. intros H.
    repeat (destruct H as [H|H]; [discriminate|]). exact H.
Defined.

(** X27.  [registerUser] checks the domain first: for an address without
    an at sign, and for an address [local@domain] whose domain is, in lower
    case, none of [tsb.com.vn], [company.com] and [gmail.com], it throws the
    error that lists the allowed domains, whatever the identity provider would
    do, and leaves the world as it was; so no account is created, no profile
    updated and no verification mail sent. *)
Theorem registerUser_refuses_before_provider
    (createUserWithEmailAndPassword : string -> string -> Async FirebaseUser)
    (updateProfile : FirebaseUser -> string -> Async FirebaseUser)
    (sendEmailVerification : FirebaseUser -> Async unit)
    (password displayName : string) (w : World) :
  (forall email,
     ~ In "@"%char (list_ascii_of_string email) ->
     Registration.registerUser createUserWithEmailAndPassword updateProfile
       sendEmailVerification email password displayName w
     = (Throw "Email must be from one of the allowed domains: tsb.com.vn, company.com, gmail.com",
        w))
  /\ (forall local domain,
        ~ In "@"%char (list_ascii_of_string local) ->
        ~ In "@"%char (list_ascii_of_string domain) ->
        toLowerCase domain <> "tsb.com.vn" -> toLowerCase domain <> "company.com" ->
        toLowerCase domain <> "gmail.com" ->
        Registration.registerUser createUserWithEmailAndPassword updateProfile
          sendEmailVerification (local +:+ String "@" domain) password displayName w
        = (Throw "Email must be from one of the allowed domains: tsb.com.vn, company.com, gmail.com",
           w)).
Proof.
  assert (Hrun : forall email,
             Registration.validateEmailDomain email = false ->
             Registration.registerUser createUserWithEmailAndPassword updateProfile
               sendEmailVerification email password displayName w
             = (Throw "Email must be from one of the allowed domains: tsb.com.vn, company.com, gmail.com",
                w)).
  { intros email H. unfold Registration.registerUser. rewrite H. reflexivity. }
  split.
  - intros email Hno. apply Hrun. unfold Registration.validateEmailDomain,
      TextHelpers.isValidEmailDomain.
    now rewrite split_no_separator.
  - intros local domain Hl Hd H1 H2 H3. apply Hrun.
    unfold Registration.validateEmailDomain.
    destruct (TextHelpers.isValidEmailDomain _ _) eqn:E; [|reflexivity].
    apply (isValidEmailDomain_of_domain _ domain) in E.
    + destruct E as (d & [<-|[<-|[<-|[]]]] & Heq); simpl in Heq; congruence.
    + rewrite split_two, split_no_separator by assumption. reflexivity.
Qed.

(** An address of a domain that is not allowed, against a provider that
    would accept anything. *)
Lemma registerUser_refuses_before_provider_witness :
  Registration.registerUser
    (fun email _ => mret (mkFirebaseUser "new" (Some email) None None))
    (fun user name => mret (mkFirebaseUser (uid user) (fb_email user) (Some name) None))
    (fun _ => mret ())
    "eve@elsewhere.example" "secret-password" "Eve" exampleWorld
  = (Throw "Email must be from one of the allowed domains: tsb.com.vn, company.com, gmail.com",
     exampleWorld).
Proof.
  apply (proj2 (registerUser_refuses_before_provider _ _ _ "secret-password" "Eve"
                  exampleWorld) "eve" "elsewhere.example").
  - simpl. intros [H|[H|[H|[]]]]; discriminate.
  - simpl. intros H. repeat (destruct H as [H|H]; [discriminate|]). exact H.
  - discriminate.
  - discriminate.
  - discriminate.
Defined.

(** ** Navigation and the dashboard layout *)

Lemma role_hooks (ctx : Ui.AuthContext) :
  useIsAdmin ctx = match roleOf ctx with Some admin => true | _ => false end
  /\ useIsManager ctx
     = match roleOf ctx with Some admin | Some manager => true | _ => false end.
Proof.
  unfold useIsAdmin, useIsManager. destruct (roleOf ctx) as [[]|]; split; reflexivity.
Qed.

(** X28.  The sidebar shows its items by role: without a user, or to an
    employee, the four unrestricted items; to a manager also Reports, Teams
    and Projects; to an administrator all ten.  So Analytics, Users and Audit
    Logs are shown to administrators only, and whatever is shown at one role
    is shown at every role that ranks at least as high. *)
Theorem sidebar_items_by_role (ctx : Ui.AuthContext) :
  map Navigation.label (Navigation.filteredNavItems ctx)
  = match roleOf ctx with
    | Some admin =>
        ["Dashboard"; "Tasks"; "Calendar"; "Reports"; "Analytics"; "Teams"; "Projects";
         "Users"; "Audit Logs"; "Settings"]
    | Some manager =>
        ["Dashboard"; "Tasks"; "Calendar"; "Reports"; "Teams"; "Projects"; "Settings"]
    | Some employee | None => ["Dashboard"; "Tasks"; "Calendar"; "Settings"]
    end
  /\ (forall ctx' item,
        match roleOf ctx, roleOf ctx' with
        | Some r, Some r' => hasMinimumRole r' r = true
        | None, _ => True
        | Some r, None => r = employee
        end ->
        In item (Navigation.filteredNavItems ctx) ->
        In item (Navigation.filteredNavItems ctx')).
Proof.
  unfold Navigation.filteredNavItems.
  destruct (role_hooks ctx) as [-> ->]. split.
  - destruct (roleOf ctx) as [[]|]; reflexivity.
  - intros ctx' item. destruct (role_hooks ctx') as [-> ->].
    destruct (roleOf ctx) as [[]|], (roleOf ctx') as [[]|]; simpl;
      try discriminate; intuition (try discriminate; subst; auto).
Qed.

Lemma onAuthChange_run (fbUser : option FirebaseUser) (w : World) :
  exists w',
    onAuthChange fbUser w = (Return (), w')
    /\ Ui.loading (Ui.auth (ui w')) = false
    /\ (forall u, Ui.user (Ui.auth (ui w')) = Some u ->
          Ui.error (Ui.auth (ui w')) = None
          /\ exists fb, fbUser = Some fb /\ User.id (Ui.profile u) = uid fb
                        /\ User.status (User.data (Ui.profile u)) <> disabled)
    /\ (forall fb d,
          fbUser = Some fb -> sdkFault w = None -> is_Some (currentUser w) ->
          Db.users (db w) !! (getUsersPath defaultOrgId, uid fb) = Some d ->
          User.status d = disabled ->
          Ui.auth (ui w') = Ui.mkAuthContext None None false None).
Proof.
  unfold onAuthChange. rewrite bind_run.
  unfold setFirebaseUser at 1. unfold modifyAuth at 1. cbv beta iota.
  set (w1 := withUi _ w). rewrite bind_run.
  destruct fbUser as [fb|].
  - destruct (loadUserData_settles fb w1) as (w2 & Hrun & Hl & Hu).
    rewrite Hrun. unfold AuthState.setLoading, modifyAuth. eexists.
    split; [reflexivity|]. cbn. split; [reflexivity|]. split.
    + intros u Hu'. destruct (Hu u Hu') as (H1 & H2 & H3 & _). split; [exact H3|].
      exists fb. auto.
    + intros fb0 d [= <-] Hup [cu Hcu] Hdoc Hdis.
      rewrite (loadUserData_disabled fb w1 d Hup Hdoc Hdis) in Hrun.
      cbn [currentUser w1 withUi] in Hrun. rewrite Hcu in Hrun.
      injection Hrun as <-. reflexivity.
  - unfold setUser, setError, AuthState.setLoading, modifyAuth.
    cbn. eexists. split; [reflexivity|]. cbn. repeat split; discriminate.
Qed.

(** X29.  After the auth listener has run, the dashboard layout puts the
    shell around the page only for a loaded user, who is the one the listener
    was notified with and is not disabled, and then it does not redirect; in
    every other case there is no user in the context and the layout's effect
    sends the browser to [/login].  For a disabled account, with the store up
    and the user signed in at the identity provider, the layout shows the
    page loader: the sign-out has emptied the context, the disabled-account
    message included. *)
Theorem dashboard_shell_only_for_loaded_user (fbUser : option FirebaseUser) (w : World) :
  let w' := snd (onAuthChange fbUser w) in
  let ctx := Ui.auth (ui w') in
  match Navigation.DashboardLayout ctx with
  | Navigation.Shell isEmployee =>
      (exists u fb,
         Ui.user ctx = Some u /\ fbUser = Some fb /\ User.id (Ui.profile u) = uid fb
         /\ User.status (User.data (Ui.profile u)) <> disabled
         /\ isEmployee = bool_decide (User.role (User.data (Ui.profile u)) = employee))
      /\ Navigation.redirectIfNotAuthenticated w' = (Return (), w')
  | _ =>
      Ui.user ctx = None
      /\ Ui.navigations (ui (snd (Navigation.redirectIfNotAuthenticated w')))
         = Ui.navigations (ui w') ++ ["/login"]
  end
  /\ (forall fb d,
        fbUser = Some fb -> sdkFault w = None -> is_Some (currentUser w) ->
        Db.users (db w) !! (getUsersPath defaultOrgId, uid fb) = Some d ->
        User.status d = disabled ->
        Navigation.DashboardLayout ctx = Navigation.PageLoader
        /\ Ui.error ctx = None).
Proof.
  intros w' ctx.
  destruct (onAuthChange_run fbUser w) as (w2 & Hrun & Hl & Hu & Hdis).
  subst ctx w'. rewrite Hrun. cbn [snd].
  unfold Navigation.DashboardLayout, Navigation.redirectIfNotAuthenticated, getContext,
    router_push.
  rewrite bind_run. cbv beta iota. rewrite Hl. cbn [negb andb].
  split.
  - destruct (Ui.user (Ui.auth (ui w2))) as [u|] eqn:Eu.
    + destruct (Hu u eq_refl) as (-> & fb & -> & Hid & Hst). cbn [truthy].
      split; [|reflexivity]. exists u, fb. auto.
    + destruct (truthy (Ui.error (Ui.auth (ui w2)))); split; reflexivity.
  - intros fb d Hfb Hup Hcu Hdoc Hd. rewrite (Hdis fb d Hfb Hup Hcu Hdoc Hd).
    split; reflexivity.
Qed.

(** The disabled administrator u2 signs in and is left on the page loader,
    on the way to the login page. *)
Lemma dashboard_shell_only_for_loaded_user_witness :
  Navigation.DashboardLayout
    (Ui.auth
       (ui (snd (onAuthChange
                   (Some (mkFirebaseUser "u2" (Some "u2@company.com") (Some "User Two")
                            None))
                   (sessionOf (mkFirebaseUser "u2" (Some "u2@company.com")
                                 (Some "User Two") None))))))
  = Navigation.PageLoader.
Proof.
  destruct (dashboard_shell_only_for_loaded_user
              (Some (mkFirebaseUser "u2" (Some "u2@company.com") (Some "User Two") None))
              (sessionOf (mkFirebaseUser "u2" (Some "u2@company.com")
                            (Some "User Two") None))) as [_ H].
  exact (proj1 (H (mkFirebaseUser "u2" (Some "u2@company.com") (Some "User Two") None)
                  (userDoc defaultOrgId "u2@company.com" "User Two" admin disabled)
                  eq_refl eq_refl ltac:(eexists; reflexivity) eq_refl eq_refl)).
Defined.

(** ** The status workflow as a whole *)

Lemma allowed_cases (s t : string) :
  Transitions.allowed s t = true <->
  (s = "backlog" /\ (t = "in_progress" \/ t = "done"))
  \/ (s = "in_progress" /\ (t = "blocked" \/ t = "done"))
  \/ (s = "blocked" /\ t = "in_progress").
Proof.
  unfold Transitions.allowed, TASK_STATUS_TRANSITIONS, includes. cbn [record_get].
  destruct (String.eqb_spec "backlog" s) as [<-|H1].
  { cbn [existsb]. rewrite !orb_true_iff, !String.eqb_eq.
    intuition (try discriminate; auto). }
  destruct (String.eqb_spec "in_progress" s) as [<-|H2].
  { cbn [existsb]. rewrite !orb_true_iff, !String.eqb_eq.
    intuition (try discriminate; auto). }
  destruct (String.eqb_spec "blocked" s) as [<-|H3].
  { cbn [existsb]. rewrite !orb_true_iff, !String.eqb_eq.
    intuition (try discriminate; auto). }
  destruct (String.eqb_spec "done" s) as [<-|H4].
  { cbn [existsb]. intuition (try discriminate; auto). }
  intuition (try discriminate; congruence).
Qed.

(** X30.  The transition table as a workflow: [done] is final, nothing is
    reachable from it but itself; [backlog] is initial, no other status leads
    back to it; [done] can be reached from every one of the four statuses; no
    status has a transition to itself; and from the four statuses only the
    four are reachable. *)
Theorem workflow_done_final_backlog_initial :
  (forall s, Transitions.reachable "done" s -> s = "done")
  /\ (forall s, Transitions.reachable s "backlog" -> s = "backlog")
  /\ (forall s, In s ["backlog"; "in_progress"; "blocked"; "done"] ->
        Transitions.reachable s "done")
  /\ (forall s, Transitions.allowed s s = false)
  /\ (forall s t, In s ["backlog"; "in_progress"; "blocked"; "done"] ->
        Transitions.reachable s t ->
        In t ["backlog"; "in_progress"; "blocked"; "done"]).
Proof.
  split; [|split; [|split; [|split]]].
  - intros s H. remember "done" as d eqn:Ed. induction H as [|a b c Hab _ _]; [reflexivity|].
    subst a. apply allowed_cases in Hab. intuition discriminate.
  - intros s H. remember "backlog" as b0 eqn:Eb.
    induction H as [|a b c Hab Hbc IH]; [reflexivity|].
    specialize (IH Eb). subst b c. apply allowed_cases in Hab.
    intuition discriminate.
  - assert (Hp : Transitions.reachable "in_progress" "done")
      by (apply (Transitions.reach_step "in_progress" "done" "done");
          [reflexivity|constructor]).
    intros s [<-|[<-|[<-|[<-|[]]]]].
    + apply (Transitions.reach_step "backlog" "done" "done"); [reflexivity|constructor].
    + exact Hp.
    + apply (Transitions.reach_step "blocked" "in_progress" "done");
        [reflexivity|exact Hp].
    + constructor.
  - intros s. destruct (Transitions.allowed s s) eqn:E; [|reflexivity].
    apply allowed_cases in E. intuition (subst; discriminate).
  - intros s t Hs H. induction H as [|a b c Hab _ IH]; [exact Hs|].
    apply IH. apply allowed_cases in Hab. simpl. intuition (subst; auto).
Qed.

(** ** Managing a new team *)

Lemma useCanManageTeam_signed_in (ctx : Ui.AuthContext) (u : Ui.AppUser) (teamId : string) :
  Ui.user ctx = Some u ->
  In teamId (User.managedTeamIds (User.data (Ui.profile u))) ->
  useCanManageTeam ctx teamId
  = negb (bool_decide (User.role (User.data (Ui.profile u)) = employee)).
Proof.
  intros Hu Hin. unfold useCanManageTeam, useUser. rewrite Hu. cbn [option_map].
  apply includes_In in Hin.
  destruct (User.role (User.data (Ui.profile u))); cbn; [reflexivity|exact Hin|reflexivity].
Qed.

(** X23.  Who may manage a new team: in a running session of a user who
    is not disabled, with the store up, when the user is among the listed
    managers of a team that [createTeam] creates (the data has a description
    and every listed user a document), then after [refreshUser] the hook
    [useCanManageTeam] answers true for the new team exactly when the user's
    role is manager or admin; an employee listed as a manager gets the
    back-reference but not the right, and the role itself is never changed by
    the creation. *)
Theorem new_team_manageable_after_refresh
    (fbUser : FirebaseUser) (data : CreateTeamData.t) (createdBy : string)
    (w : World) (d : User.doc)
    (Hup : sdkFault w = None)
    (Hsession : Ui.firebaseUser (Ui.auth (ui w)) = Some fbUser)
    (Hdoc : Db.users (db w) !! (getUsersPath defaultOrgId, uid fbUser) = Some d)
    (Hstatus : User.status d <> disabled)
    (Hdescription : defined (CreateTeamData.description data) = true)
    (Hlisted : In (uid fbUser) (CreateTeamData.managerIds data))
    (Hex : forall uid,
        In uid (CreateTeamData.managerIds data ++ CreateTeamData.memberIds data) ->
        is_Some (Db.users (db w) !! (getUsersPath defaultOrgId, uid))) :
  exists team w1 w' u,
    createTeam defaultOrgId data createdBy w = (Return team, w1)
    /\ AuthProvider.refreshUser w1 = (Return (), w')
    /\ Ui.user (Ui.auth (ui w')) = Some u
    /\ User.role (User.data (Ui.profile u)) = User.role d
    /\ In (Team.id team) (User.managedTeamIds (User.data (Ui.profile u)))
    /\ useCanManageTeam (Ui.auth (ui w')) (Team.id team)
       = negb (bool_decide (User.role d = employee)).
Proof.
  destruct w as [store fault clk reads ids drawn cu ux].
  cbn in Hup, Hsession, Hdoc, Hex. subst fault.
  set (ops :=
         map (fun memberId =>
                (doc (getUsersPath defaultOrgId) memberId, teamIdsUnion (ids drawn) (clk reads)))
             (CreateTeamData.memberIds data)
         ++ map (fun managerId =>
                   (doc (getUsersPath defaultOrgId) managerId,
                    managedTeamIdsUnion (ids drawn) (clk reads)))
                (CreateTeamData.managerIds data)).
  destruct (back_reference_batch (getUsersPath defaultOrgId)
              (teamIdsUnion (ids drawn) (clk reads))
              (managedTeamIdsUnion (ids drawn) (clk reads))
              (fun d => In (ids drawn) (User.teamIds d))
              (fun d => In (ids drawn) (User.managedTeamIds d))
              (CreateTeamData.memberIds data) (CreateTeamData.managerIds data)
              (Db.users store))
    as (m' & Hm' & _ & Hman); auto.
  { intros d0. apply arrayUnion_adds. }
  { intros d0. apply arrayUnion_adds. }
  fold ops in Hm'.
  destruct (Hman (uid fbUser) Hlisted) as (d1 & Hd1 & Hin1).
  destruct (applyUpdates_preserves User.applyPatch
              (fun u => User.role u = User.role d /\ User.status u = User.status d) ops)
    with (m := Db.users store) (m' := m') (r := (getUsersPath defaultOrgId, uid fbUser))
         (d := d) as (d1' & Hd1' & Hrole & Hst); auto.
  { intros r p d0 Hin [H1 H2]. subst ops. apply in_app_or in Hin as [Hin|Hin];
      apply in_map_iff in Hin as (x & [= <- <-] & _); auto. }
  rewrite Hd1 in Hd1'. injection Hd1' as <-.
  unfold createTeam. async_unfold. cbn [firstUndefined]. rewrite Hdescription.
  repeat (progress (unfold Runtime.bind; cbn -[applyUpdates lookup insert])).
  unfold doc in ops. fold ops. rewrite Hm'.
  eexists _, _. 
  match goal with
  | |- exists w' u, (_, ?w1) = _ /\ _ =>
      assert (Hload : loadUserData fbUser w1 = _)
        by (apply (loadUserData_existing fbUser w1 d1 eq_refl Hd1); congruence)
  end.
  eexists _, _. split; [reflexivity|].
  unfold AuthProvider.refreshUser, getContext. rewrite bind_run.
  cbn [ui Ui.auth withUi]. rewrite Hsession, Hload.
  split; [reflexivity|]. cbn [ui Ui.auth Ui.user Ui.profile User.data Team.id].
  split; [reflexivity|]. split; [exact Hrole|]. split; [exact Hin1|].
  erewrite useCanManageTeam_signed_in; [|reflexivity|exact Hin1].
  cbn [Ui.profile User.data]. now rewrite Hrole.
Qed.

(** The manager m1 creates a team and lists the employee e1 as another
    manager of it: e1 does not get to manage it. *)
Lemma new_team_manageable_after_refresh_witness :
  exists team w1 w',
    createTeam defaultOrgId
      (CreateTeamData.mk "Platform" (Some "Platform engineering") ["m1"; "e1"] ["e2"])
      "m1"
      (withUi
         (Ui.mk
            (Ui.mkAuthContext None
               (Some (mkFirebaseUser "e1" (Some "e1@company.com") (Some "Employee One") None))
               false None)
            Ui.initialTaskDetail [] []) exampleWorld) = (Return team, w1)
    /\ AuthProvider.refreshUser w1 = (Return (), w')
    /\ useCanManageTeam (Ui.auth (ui w')) (Team.id team) = false.
Proof.
  destruct (new_team_manageable_after_refresh
              (mkFirebaseUser "e1" (Some "e1@company.com") (Some "Employee One") None)
              (CreateTeamData.mk "Platform" (Some "Platform engineering") ["m1"; "e1"]
                 ["e2"]) "m1"
              (withUi
                 (Ui.mk
                    (Ui.mkAuthContext None
                       (Some (mkFirebaseUser "e1" (Some "e1@company.com")
                                (Some "Employee One") None))
                       false None)
                    Ui.initialTaskDetail [] []) exampleWorld)
              (userDoc defaultOrgId "e1@company.com" "Employee One" employee active)
              eq_refl eq_refl eq_refl ltac:(discriminate) eq_refl ltac:(simpl; auto))
    as (team & w1 & w' & u & Hrun & Hrefresh & _ & _ & _ & Hcan).
  - intros uid [<-|[<-|[<-|[]]]]; vm_compute; eauto.
  - exists team, w1, w'. split; [exact Hrun|]. split; [exact Hrefresh|]. exact Hcan.
Defined.

(** ** The organization scope of the data layer *)

Section Scoping.

Variable orgId : string.

Lemma sameOutside_refl (s : Db.t) : sameOutside orgId s s.
Proof. intros r _. repeat split. Qed.

Lemma sameOutside_trans (s1 s2 s3 : Db.t) :
  sameOutside orgId s1 s2 -> sameOutside orgId s2 s3 -> sameOutside orgId s1 s3.
Proof.
  intros H12 H23 r Hr.
  destruct (H12 r Hr) as (A1 & A2 & A3 & A4 & A5 & A6 & A7).
  destruct (H23 r Hr) as (B1 & B2 & B3 & B4 & B5 & B6 & B7).
  repeat split; etrans; eauto.
Qed.

Lemma readsOnly_writesUnder {A} (m : Async A) :
  readsOnly m -> writesUnder orgId m.
Proof. intros Hm w. rewrite Hm. apply sameOutside_refl. Qed.

(** *** Sequencing *)

Lemma writesUnder_bind_post {A B} (P : A -> Prop) (m : Async A) (k : A -> Async B) :
  writesUnder orgId m ->
  (forall w a w', m w = (Return a, w') -> P a) ->
  (forall a, P a -> writesUnder orgId (k a)) ->
  writesUnder orgId (m ≫= k).
Proof.
  intros Hm HP Hk w. unfold mbind, Async_bind, Runtime.bind.
  specialize (Hm w). destruct (m w) as [[a|e] w'] eqn:E; cbn [snd] in Hm.
  - eapply sameOutside_trans; [exact Hm|]. apply Hk. eapply HP. exact E.
  - exact Hm.
Qed.

Lemma writesUnder_bind {A B} (m : Async A) (k : A -> Async B) :
  writesUnder orgId m ->
  (forall a, writesUnder orgId (k a)) ->
  writesUnder orgId (m ≫= k).
Proof.
  intros Hm Hk. apply (writesUnder_bind_post (fun _ => True)); auto.
Qed.

Lemma readsOnly_bind {A B} (m : Async A) (k : A -> Async B) :
  readsOnly m -> (forall a, readsOnly (k a)) -> readsOnly (m ≫= k).
Proof.
  intros Hm Hk w. unfold mbind, Async_bind, Runtime.bind.
  specialize (Hm w). destruct (m w) as [[a|e] w'] eqn:E; cbn [snd] in Hm.
  - rewrite Hk. exact Hm.
  - exact Hm.
Qed.

Lemma readsOnly_ret {A} (a : A) : readsOnly (mret a : Async A).
Proof. intros w. reflexivity. Qed.

Lemma readsOnly_throw {A} (e : string) : readsOnly (throw e : Async A).
Proof. intros w. reflexivity. Qed.

Lemma readsOnly_Timestamp_now : readsOnly Timestamp_now.
Proof. intros w. reflexivity. Qed.

Lemma readsOnly_newDocRef (path : string) : readsOnly (newDocRef path).
Proof. intros w. reflexivity. Qed.

Lemma readsOnly_getDoc {D} (K : Db.Kind D) (r : Db.DocRef) : readsOnly (getDoc K r).
Proof.
  intros w. unfold getDoc, Runtime.bind, transport. destruct (sdkFault w); reflexivity.
Qed.

Lemma readsOnly_getDocs {D} (K : Db.Kind D) (path : string) : readsOnly (getDocs K path).
Proof.
  intros w. unfold getDocs, Runtime.bind, transport. destruct (sdkFault w); reflexivity.
Qed.

Lemma readsOnly_getDocsWhere {D} (evaluate : Query.Engine) (K : Db.Kind D)
    (path : string) (constraints : list Query.QueryConstraint) :
  readsOnly (Queries.getDocsWhere evaluate K path constraints).
Proof.
  apply readsOnly_bind; [apply readsOnly_getDocs|]. intros documents w. reflexivity.
Qed.

(** *** The seven kinds of documents *)

Definition lensOk {D} (K : Db.Kind D) : Prop :=
  forall (m : gmap Db.DocRef D) (s : Db.t),
    (forall r, underOrg orgId (Db.refPath r) = false -> m !! r = Db.docs K s !! r) ->
    sameOutside orgId s (Db.withDocs K m s).

Lemma lensOk_users : lensOk Db.userDocs.
Proof. intros m s Hm r Hr. cbn. repeat split. auto. Qed.

Lemma lensOk_teams : lensOk Db.teamDocs.
Proof. intros m s Hm r Hr. cbn. repeat split. auto. Qed.

Lemma lensOk_projects : lensOk Db.projectDocs.
Proof. intros m s Hm r Hr. cbn. repeat split. auto. Qed.

Lemma lensOk_tasks : lensOk Db.taskDocs.
Proof. intros m s Hm r Hr. cbn. repeat split. auto. Qed.

Lemma lensOk_comments : lensOk Db.commentDocs.
Proof. intros m s Hm r Hr. cbn. repeat split. auto. Qed.

Lemma lensOk_auditLogs : lensOk Db.auditLogDocs.
Proof. intros m s Hm r Hr. cbn. repeat split. auto. Qed.

Lemma lensOk_reminderSettings : lensOk Db.reminderSettingsDocs.
Proof. intros m s Hm r Hr. cbn. repeat split. auto. Qed.

(** *** The store calls *)

Section Calls.

Context {D : Type} (K : Db.Kind D) (HK : lensOk K).

Lemma writesUnder_setDoc (r : Db.DocRef) (d : D) :
  underOrg orgId (Db.refPath r) = true -> writesUnder orgId (setDoc K r d).
Proof.
  intros Hr w. unfold setDoc, Runtime.bind, transport.
  destruct (sdkFault w); cbn [snd]; [apply sameOutside_refl|].
  cbn [db withDb]. apply HK. intros r' Hr'. apply lookup_insert_ne. congruence.
Qed.

Lemma writesUnder_setDocLiteral (r : Db.DocRef) (d : D) (optional : list (string * bool)) :
  underOrg orgId (Db.refPath r) = true -> writesUnder orgId (setDocLiteral K r d optional).
Proof.
  intros Hr. unfold setDocLiteral. destruct (firstUndefined optional).
  - intros w. apply sameOutside_refl.
  - now apply writesUnder_setDoc.
Qed.

Lemma writesUnder_setDocMerge (merged : option D -> D) (r : Db.DocRef) :
  underOrg orgId (Db.refPath r) = true -> writesUnder orgId (setDocMerge K merged r).
Proof.
  intros Hr w. unfold setDocMerge, Runtime.bind, transport.
  destruct (sdkFault w); cbn [snd]; [apply sameOutside_refl|].
  cbn [db withDb]. apply HK. intros r' Hr'. apply lookup_insert_ne. congruence.
Qed.

Lemma writesUnder_updateDoc {P} (apply : P -> D -> D) (r : Db.DocRef) (p : P) :
  underOrg orgId (Db.refPath r) = true -> writesUnder orgId (updateDoc K apply r p).
Proof.
  intros Hr w. unfold updateDoc, Runtime.bind, transport.
  destruct (sdkFault w); cbn [snd]; [apply sameOutside_refl|].
  destruct (Db.docs K (db w) !! r); cbn [snd]; [|apply sameOutside_refl].
  cbn [db withDb]. apply HK. intros r' Hr'. apply lookup_insert_ne. congruence.
Qed.

Lemma writesUnder_deleteDoc (r : Db.DocRef) :
  underOrg orgId (Db.refPath r) = true -> writesUnder orgId (deleteDoc K r).
Proof.
  intros Hr w. unfold deleteDoc, Runtime.bind, transport.
  destruct (sdkFault w); cbn [snd]; [apply sameOutside_refl|].
  cbn [db withDb]. apply HK. intros r' Hr'. apply lookup_delete_ne. congruence.
Qed.

Lemma applyUpdates_outside {P} (apply : P -> D -> D) (ops : list (Db.DocRef * P))
    (m m' : gmap Db.DocRef D) :
  Forall (fun op => underOrg orgId (Db.refPath (fst op)) = true) ops ->
  applyUpdates apply ops m = Some m' ->
  forall r, underOrg orgId (Db.refPath r) = false -> m' !! r = m !! r.
Proof.
  intros Hops. revert m. induction Hops as [|[r0 p] ops Hr0 _ IH]; intros m; cbn [applyUpdates].
  - intros [= <-]. reflexivity.
  - destruct (m !! r0) as [d|]; [|discriminate]. intros Hm' r Hr.
    rewrite (IH _ Hm' r Hr). apply lookup_insert_ne. cbn [fst] in Hr0. congruence.
Qed.

Lemma writesUnder_commitUpdates {P} (apply : P -> D -> D) (ops : list (Db.DocRef * P)) :
  Forall (fun op => underOrg orgId (Db.refPath (fst op)) = true) ops ->
  writesUnder orgId (commitUpdates K apply ops).
Proof.
  intros Hops w. unfold commitUpdates, Runtime.bind, transport.
  destruct (sdkFault w); cbn [snd]; [apply sameOutside_refl|].
  destruct (applyUpdates apply ops (Db.docs K (db w))) as [m'|] eqn:E; cbn [snd];
    [|apply sameOutside_refl].
  cbn [db withDb]. apply HK. intros r Hr. eapply applyUpdates_outside; eauto.
Qed.

End Calls.

(** *** The collection paths *)

Lemma underOrg_ref (path id tail : string) :
  path = "orgs/" +:+ orgId +:+ "/" +:+ tail ->
  underOrg orgId (Db.refPath (path, id)) = true.
Proof.
  intros ->. unfold Db.refPath. cbn [fst snd].
  apply (underOrg_collection orgId tail ("/" +:+ id)).
Qed.

Lemma underOrg_newRef (path tail : string) (r : Db.DocRef) :
  path = "orgs/" +:+ orgId +:+ "/" +:+ tail ->
  fst r = path -> underOrg orgId (Db.refPath r) = true.
Proof.
  intros Hpath Hr. destruct r as [p id]. cbn [fst] in Hr. subst p.
  eapply underOrg_ref. exact Hpath.
Qed.

Lemma writesUnder_newDocRef_bind {B} (path : string) (k : Db.DocRef -> Async B) :
  (forall r, fst r = path -> writesUnder orgId (k r)) ->
  writesUnder orgId (newDocRef path ≫= k).
Proof.
  intros Hk. apply (writesUnder_bind_post (fun r => fst r = path)).
  - apply readsOnly_writesUnder, readsOnly_newDocRef.
  - intros w r w' [= <- _]. reflexivity.
  - exact Hk.
Qed.

End Scoping.

(** A reference into one of the collections of [orgId] lies under
    [orgs/{orgId}/]. *)
Ltac under_path :=
  unfold doc;
  first [ eapply underOrg_ref; reflexivity
        | eapply underOrg_newRef; [|eassumption]; reflexivity ].

Ltac lens :=
  first [ apply lensOk_users | apply lensOk_teams | apply lensOk_projects
        | apply lensOk_tasks | apply lensOk_comments | apply lensOk_auditLogs
        | apply lensOk_reminderSettings ].

(** The computation only reads. *)
Ltac reads :=
  repeat first
    [ apply readsOnly_ret | apply readsOnly_throw | apply readsOnly_Timestamp_now
    | apply readsOnly_newDocRef | apply readsOnly_getDoc | apply readsOnly_getDocs
    | apply readsOnly_getDocsWhere
    | apply readsOnly_bind; [|intros ?] ].

(** The computation writes under [orgs/{orgId}/] only. *)
Ltac scoped :=
  repeat first
    [ apply writesUnder_newDocRef_bind; intros ? ?
    | apply writesUnder_setDoc; [lens|under_path]
    | apply writesUnder_setDocLiteral; [lens|under_path]
    | apply writesUnder_setDocMerge; [lens|under_path]
    | apply writesUnder_updateDoc; [lens|under_path]
    | apply writesUnder_deleteDoc; [lens|under_path]
    | apply writesUnder_commitUpdates;
        [lens|rewrite ?Forall_app, ?Forall_map; repeat split;
              apply List.Forall_forall; intros ? _; cbn [fst]; under_path]
    | apply readsOnly_writesUnder; solve [reads]
    | apply writesUnder_bind; [|intros ?] ].

Section Writes.

Variable orgId : string.

Lemma createUser_scoped userId data createdBy :
  writesUnder orgId (createUser orgId userId data createdBy).
Proof. unfold createUser. scoped. Qed.

Lemma updateUser_scoped userId data :
  writesUnder orgId (updateUser orgId userId data).
Proof. unfold updateUser. scoped. Qed.

Lemma createTeam_scoped data createdBy :
  writesUnder orgId (createTeam orgId data createdBy).
Proof. unfold createTeam. scoped. Qed.

Lemma createProject_scoped data createdBy :
  writesUnder orgId (createProject orgId data createdBy).
Proof. unfold createProject. scoped. Qed.

Lemma createTask_scoped data createdBy :
  writesUnder orgId (createTask orgId data createdBy).
Proof. unfold createTask. scoped. Qed.

Lemma updateTask_scoped taskId data :
  writesUnder orgId (updateTask orgId taskId data).
Proof.
  unfold updateTask. apply writesUnder_bind; [scoped|]. intros updatedAt.
  apply writesUnder_bind; [|intros ?; scoped].
  destruct (decide (UpdateTaskData.status data = Some done)); scoped.
Qed.

Lemma updateTaskStatus_scoped taskId status :
  writesUnder orgId (updateTaskStatus orgId taskId status).
Proof.
  unfold updateTaskStatus. apply writesUnder_bind; [scoped|]. intros updatedAt.
  apply writesUnder_bind; [|intros ?; scoped].
  destruct (String.eqb status "done"); scoped.
Qed.

Lemma createComment_scoped taskId content authorId mentions :
  writesUnder orgId (DataLayer.createComment orgId taskId content authorId mentions).
Proof. unfold DataLayer.createComment. scoped. Qed.

Lemma createAuditLog_scoped refused data :
  writesUnder orgId (createAuditLog refused orgId data).
Proof.
  unfold createAuditLog. apply writesUnder_newDocRef_bind. intros logRef HlogRef.
  apply writesUnder_bind; [scoped|]. intros now.
  destruct (refused data); scoped.
Qed.

Lemma updateTeam_scoped teamId data :
  writesUnder orgId (DataLayer.updateTeam orgId teamId data).
Proof. unfold DataLayer.updateTeam. scoped. Qed.

Lemma updateProject_scoped projectId data :
  writesUnder orgId (DataLayer.updateProject orgId projectId data).
Proof. unfold DataLayer.updateProject. scoped. Qed.

Lemma updateReminderSettings_scoped scopeId data :
  writesUnder orgId (DataLayer.updateReminderSettings orgId scopeId data).
Proof. unfold DataLayer.updateReminderSettings. scoped. Qed.

Lemma deletions_scoped id taskId :
  writesUnder orgId (DataLayer.deleteTeam orgId id)
  /\ writesUnder orgId (DataLayer.deleteProject orgId id)
  /\ writesUnder orgId (DataLayer.deleteTask orgId id)
  /\ writesUnder orgId (DataLayer.deleteComment orgId taskId id).
Proof.
  unfold DataLayer.deleteTeam, DataLayer.deleteProject, DataLayer.deleteTask,
    DataLayer.deleteComment.
  split; [|split; [|split]]; scoped.
Qed.

End Writes.

(** *** Reads *)

Lemma getDocs_stored {D} (K : Db.Kind D) (path : string) (w : World)
    (snapshot : list (string * D)) :
  fst (getDocs K path w) = Return snapshot ->
  forall id d, In (id, d) snapshot -> Db.docs K (db w) !! (path, id) = Some d.
Proof.
  destruct (sdkFault w) as [e|] eqn:Hup.
  - unfold getDocs, Runtime.bind, transport. rewrite Hup. discriminate.
  - destruct (getDocs_run K path w Hup) as (snapshot' & Hrun & Hin).
    rewrite Hrun. intros [= <-] id d. apply Hin.
Qed.

Lemma getDocsWhere_stored {D} (evaluate : Query.Engine) (K : Db.Kind D)
    (path : string) (constraints : list Query.QueryConstraint) (w : World)
    (snapshot : list (string * D)) :
  Query.selects evaluate ->
  fst (Queries.getDocsWhere evaluate K path constraints w) = Return snapshot ->
  forall id d, In (id, d) snapshot -> Db.docs K (db w) !! (path, id) = Some d.
Proof.
  intros Hsel. unfold Queries.getDocsWhere, mbind, Async_bind, Runtime.bind.
  pose proof (getDocs_stored K path w) as Hdocs.
  destruct (getDocs K path w) as [[documents|e] w'].
  - cbn [fst]. intros Heval id d Hin. apply (Hdocs documents eq_refl).
    eapply Hsel; eauto.
  - discriminate.
Qed.

(** A listing that is a query followed by a selection and a
    rearrangement of its snapshot. *)
Lemma listsFrom_snapshot {D T} (K : Db.Kind D) (idOf : T -> string) (dataOf : T -> D)
    (path : string) (m : Async (list (string * D)))
    (post : list (string * D) -> list T) :
  (forall w snapshot, fst (m w) = Return snapshot ->
     forall id d, In (id, d) snapshot -> Db.docs K (db w) !! (path, id) = Some d) ->
  (forall snapshot x, In x (post snapshot) -> In (idOf x, dataOf x) snapshot) ->
  listsFrom K idOf dataOf path (m ≫= fun snapshot => mret (post snapshot)).
Proof.
  intros Hm Hpost w items. unfold mbind, Async_bind, Runtime.bind.
  specialize (Hm w). destruct (m w) as [[snapshot|e] w']; [|discriminate].
  cbn [fst]. intros [= <-] x Hx. apply (Hm snapshot eq_refl). now apply Hpost.
Qed.

(** The items made of the documents of a snapshot, in any arrangement. *)
Ltac from_snapshot :=
  let Hx := fresh "Hx" in
  intros ? ? Hx; unfold Queries.sortWith in Hx; rewrite ?In_sortBy in Hx;
  apply in_map_iff in Hx as ([? ?] & <- & Hx); rewrite ?In_sortBy in Hx; exact Hx.

Section Reads.

Variable orgId : string.
Variable evaluate : Query.Engine.
Variable localeCompare : string -> string -> Z.
Hypothesis evaluate_selects : Query.selects evaluate.

Lemma reads_by_id (id : string) :
  resolvesAt Db.userDocs User.mk (getUsersPath orgId) id (getUserById orgId id)
  /\ resolvesAt Db.teamDocs Team.mk (getTeamsPath orgId) id
       (DataLayer.getTeamById orgId id)
  /\ resolvesAt Db.projectDocs Project.mk (getProjectsPath orgId) id
       (DataLayer.getProjectById orgId id)
  /\ resolvesAt Db.taskDocs Task.mk (getTasksPath orgId) id (getTaskById orgId id)
  /\ resolvesAt Db.reminderSettingsDocs ReminderSettings.mk
       (getReminderSettingsPath orgId) id (DataLayer.getReminderSettings orgId id).
Proof.
  repeat split; intros [store fault clk reads ids drawn cu u] Hup;
    cbn in Hup; subst fault; reflexivity.
Qed.

Lemma getUsers_listsFrom :
  listsFrom Db.userDocs User.id User.data (getUsersPath orgId) (Firestore.getUsers orgId).
Proof.
  apply listsFrom_snapshot; [intros w; apply getDocs_stored|from_snapshot].
Qed.

Lemma getComments_listsFrom (taskId : string) :
  listsFrom Db.commentDocs Comment.id Comment.data (getCommentsPath orgId taskId)
    (getComments orgId taskId).
Proof.
  apply listsFrom_snapshot; [intros w; apply getDocs_stored|from_snapshot].
Qed.

Lemma getUsersWhere_listsFrom filters :
  listsFrom Db.userDocs User.id User.data (getUsersPath orgId)
    (Queries.getUsers evaluate orgId filters).
Proof.
  apply listsFrom_snapshot;
    [intros w snapshot; now apply getDocsWhere_stored|from_snapshot].
Qed.

Lemma getTeams_listsFrom managerId :
  listsFrom Db.teamDocs Team.id Team.data (getTeamsPath orgId)
    (Queries.getTeams evaluate localeCompare orgId managerId).
Proof.
  apply listsFrom_snapshot; [|from_snapshot].
  intros w snapshot. destruct (truthy managerId); now apply getDocsWhere_stored.
Qed.

Lemma getProjects_listsFrom filters :
  listsFrom Db.projectDocs Project.id Project.data (getProjectsPath orgId)
    (Queries.getProjects evaluate localeCompare orgId filters).
Proof.
  apply listsFrom_snapshot;
    [intros w snapshot; now apply getDocsWhere_stored|from_snapshot].
Qed.

Lemma getTasks_listsFrom filters pagination :
  listsFrom Db.taskDocs Task.id Task.data (getTasksPath orgId)
    (Queries.getTasks evaluate orgId filters pagination).
Proof.
  apply listsFrom_snapshot;
    [intros w snapshot; now apply getDocsWhere_stored|from_snapshot].
Qed.

Lemma getAuditLogs_listsFrom filters pageLimit :
  listsFrom Db.auditLogDocs AuditLog.id AuditLog.entry (getAuditLogsPath orgId)
    (Queries.getAuditLogs evaluate orgId filters pageLimit).
Proof.
  apply listsFrom_snapshot;
    [intros w snapshot; now apply getDocsWhere_stored|from_snapshot].
Qed.

Lemma getOverdueTasks_listsFrom assigneeId :
  listsFrom Db.taskDocs Task.id Task.data (getTasksPath orgId)
    (DataLayer.getOverdueTasks orgId assigneeId).
Proof.
  intros w items. unfold DataLayer.getOverdueTasks.
  unfold mbind at 1. unfold Async_bind, Runtime.bind at 1. unfold Timestamp_now at 1.
  cbv iota beta.
  set (w1 := mkWorld _ _ _ _ _ _ _ _).
  change (db w) with (db w1).
  generalize (clock w (clockReads w)). intros now.
  generalize w1 items. clear w w1 items.
  apply (listsFrom_snapshot Db.taskDocs Task.id Task.data (getTasksPath orgId)
           (getDocs Db.taskDocs (getTasksPath orgId))).
  - intros w. apply getDocs_stored.
  - intros snapshot x Hx. apply in_map_iff in Hx as ([due t] & <- & Hx).
    rewrite In_sortBy in Hx. rewrite <- list_elem_of_In, list_elem_of_omap in Hx.
    destruct Hx as ([id d] & Hin & Hmatch). cbn [fst snd] in Hmatch.
    destruct (Task.dueDate d); [|discriminate].
    destruct (_ && _); [|discriminate].
    injection Hmatch as _ <-. cbn [snd Task.id Task.data].
    apply list_elem_of_In in Hin. unfold DataLayer.byId in Hin.
    now rewrite In_sortBy in Hin.
Qed.

Lemma getUserByEmail_stored email w u :
  fst (DataLayer.getUserByEmail orgId email w) = Return (Some u) ->
  Db.users (db w) !! (getUsersPath orgId, User.id u) = Some (User.data u).
Proof.
  unfold DataLayer.getUserByEmail, mbind, Async_bind, Runtime.bind.
  pose proof (getDocs_stored Db.userDocs (getUsersPath orgId) w) as Hdocs.
  destruct (getDocs Db.userDocs (getUsersPath orgId) w) as [[snapshot|e] w'];
    [|discriminate].
  destruct (List.filter _ (DataLayer.byId snapshot)) as [|[id d] rest] eqn:E;
    [discriminate|].
  intros [= <-]. cbn [User.id User.data fst snd].
  apply (Hdocs snapshot eq_refl).
  assert (Hin : In (id, d) (List.filter
                 (fun d0 => String.eqb (User.email (snd d0)) (toLowerCase email))
                 (DataLayer.byId snapshot))) by (rewrite E; left; reflexivity).
  apply filter_In in Hin as [Hin _]. unfold DataLayer.byId in Hin.
  now rewrite In_sortBy in Hin.
Qed.

Lemma getDocsWhere_outcome {D} (K : Db.Kind D) (path : string)
    (constraints : list Query.QueryConstraint) (w : World) :
  (exists snapshot,
     Queries.getDocsWhere evaluate K path constraints w = (Return snapshot, w)
     /\ forall id d, In (id, d) snapshot -> Db.docs K (db w) !! (path, id) = Some d)
  \/ (exists e, Queries.getDocsWhere evaluate K path constraints w = (Throw e, w)).
Proof.
  pose proof (getDocsWhere_stored evaluate K path constraints w) as Hstored.
  unfold Queries.getDocsWhere, mbind, Async_bind, Runtime.bind in *.
  unfold getDocs, Runtime.bind, transport in *.
  destruct (sdkFault w) as [e|]; [right; eauto|].
  cbn [fst] in Hstored.
  destruct (evaluate D K constraints _) as [snapshot|e]; [left|right; eauto].
  exists snapshot. split; [reflexivity|]. apply Hstored; [exact evaluate_selects|reflexivity].
Qed.

Lemma subscriptions_notifiesFrom assigneeId taskId :
  notifiesFrom Db.taskDocs Task.id Task.data (getTasksPath orgId)
    (Queries.subscribeToTasks evaluate orgId assigneeId)
  /\ notifiesFrom Db.commentDocs Comment.id Comment.data (getCommentsPath orgId taskId)
       (Queries.subscribeToComments evaluate orgId taskId).
Proof.
  split; intros callback w; cbv beta;
    unfold Queries.subscribeToTasks, Queries.subscribeToComments;
    rewrite bind_run.
  - destruct (getDocsWhere_outcome Db.taskDocs (getTasksPath orgId)
                [Query.where_ "assigneeIds" "array-contains" (Query.Str assigneeId);
                 Query.orderBy "dueDate" Query.asc] w)
      as [(snapshot & -> & Hstored)|(e & ->)]; [left|right; eauto].
    eexists. split; [reflexivity|].
    intros x Hx. apply in_map_iff in Hx as ([id d] & <- & Hx). now apply Hstored.
  - destruct (getDocsWhere_outcome Db.commentDocs (getCommentsPath orgId taskId)
                [Query.orderBy "createdAt" Query.asc] w)
      as [(snapshot & -> & Hstored)|(e & ->)]; [left|right; eauto].
    eexists. split; [reflexivity|].
    intros x Hx. apply in_map_iff in Hx as ([id d] & <- & Hx). now apply Hstored.
Qed.

Lemma reads_readOnly (id email taskId : string) assigneeId userFilters managerId
    projectFilters taskFilters pagination auditLogFilters pageLimit :
  readsOnly (getUserById orgId id)
  /\ readsOnly (DataLayer.getUserByEmail orgId email)
  /\ readsOnly (Firestore.getUsers orgId)
  /\ readsOnly (Queries.getUsers evaluate orgId userFilters)
  /\ readsOnly (DataLayer.getTeamById orgId id)
  /\ readsOnly (Queries.getTeams evaluate localeCompare orgId managerId)
  /\ readsOnly (DataLayer.getProjectById orgId id)
  /\ readsOnly (Queries.getProjects evaluate localeCompare orgId projectFilters)
  /\ readsOnly (getTaskById orgId id)
  /\ readsOnly (Queries.getTasks evaluate orgId taskFilters pagination)
  /\ readsOnly (DataLayer.getOverdueTasks orgId assigneeId)
  /\ readsOnly (getComments orgId taskId)
  /\ readsOnly (Queries.getAuditLogs evaluate orgId auditLogFilters pageLimit)
  /\ readsOnly (DataLayer.getReminderSettings orgId id).
Proof.
  unfold getUserById, DataLayer.getUserByEmail, Firestore.getUsers, Queries.getUsers,
    DataLayer.getTeamById, Queries.getTeams, DataLayer.getProjectById,
    Queries.getProjects, getTaskById, Queries.getTasks, DataLayer.getOverdueTasks,
    getComments, Queries.getAuditLogs, DataLayer.getReminderSettings.
  repeat match goal with |- _ /\ _ => split end; reads.
  - destruct (List.filter _ _); reads.
  - destruct (truthy managerId); reads.
Qed.

End Reads.

(** *** One organization per path *)

Lemma prefix_cons (c : ascii) (s p : string) :
  Stdlib.Strings.String.prefix (String c s) p = true ->
  exists p', p = String c p' /\ Stdlib.Strings.String.prefix s p' = true.
Proof.
  destruct p as [|c' p']; cbn; [discriminate|].
  destruct (ascii_dec c c') as [->|]; [eauto|discriminate].
Qed.

Lemma segment_determined (a b p : string) :
  oneSegment a = true -> oneSegment b = true ->
  Stdlib.Strings.String.prefix (a +:+ "/") p = true ->
  Stdlib.Strings.String.prefix (b +:+ "/") p = true ->
  a = b.
Proof.
  revert b p. induction a as [|x a IH]; intros [|y b] p Ha Hb Hpa Hpb.
  - reflexivity.
  - apply prefix_cons in Hpa as (p' & -> & _).
    apply prefix_cons in Hpb as (p'' & Heq & _).
    injection Heq as Hy _. subst y. cbn in Hb. discriminate.
  - apply prefix_cons in Hpb as (p' & -> & _).
    apply prefix_cons in Hpa as (p'' & Heq & _).
    injection Heq as Hx _. subst x. cbn in Ha. discriminate.
  - apply prefix_cons in Hpa as (p' & -> & Hpa).
    apply prefix_cons in Hpb as (p'' & Heq & Hpb).
    injection Heq as Hxy Hp. subst y p''.
    cbn in Ha, Hb. apply andb_prop in Ha as [_ Ha]. apply andb_prop in Hb as [_ Hb].
    f_equal. eapply IH; eauto.
Qed.

Lemma underOrg_determines (a b path : string) :
  oneSegment a = true -> oneSegment b = true ->
  underOrg a path = true -> underOrg b path = true -> a = b.
Proof.
  unfold underOrg. intros Ha Hb Hpa Hpb.
  change ("orgs/" +:+ a +:+ "/")
    with (String "o" (String "r" (String "g" (String "s" (String "/" (a +:+ "/"))))))
    in Hpa.
  change ("orgs/" +:+ b +:+ "/")
    with (String "o" (String "r" (String "g" (String "s" (String "/" (b +:+ "/"))))))
    in Hpb.
  do 5 (apply prefix_cons in Hpa as (? & -> & Hpa);
        apply prefix_cons in Hpb as (? & Heq & Hpb);
        injection Heq as <-).
  eapply segment_determined; eauto.
Qed.

Lemma wholeCollection_selects : Query.selects Tenants.wholeCollection.
Proof. intros D K constraints documents snapshot [= <-] d Hd. exact Hd. Qed.



